(** * The chat client of [static/js/chat_logic.js]

    A shallow embedding of the conversation-state pipeline of the client:
    the session life cycle ([fetchSessions], [selectSession], [newChat],
    delete and rename), the send pipeline ([sendMessage]) with its history
    reconciliation and tutorial cache, and the rendering entry point
    ([addMessage]) as far as it decides what is displayed and whether it
    throws.

    The client as a whole is a sequence of events ([run]): what the user
    does and what the server answers.  The text of the recording timer
    ([updateTimer]) is embedded as well.

    Asynchronous functions are cut at their [await]s: the code up to the
    first network call is a function on the client state that issues a
    request and leaves a continuation ([task]); [resume] runs a continuation
    on the response it waited for, up to the next [await] or to the end. *)

From Stdlib Require Import String Ascii List ZArith Lia Bool DecimalString.
Import ListNotations.

Set Warnings "-register-all".
Local Open Scope Z_scope.
Local Open Scope list_scope.

(** ** JavaScript values *)

Module JS.

(** The values the client handles: what [JSON.parse] returns, and
    [undefined] for a missing property.  Numbers are the integers (lengths,
    step numbers); strings are sequences of one-byte code units.  An object
    is the list of its own properties, read by first match. *)
Inductive jsval : Type :=
| JUndef
| JNull
| JBool (b : bool)
| JNum (n : Z)
| JStr (s : string)
| JArr (items : list jsval)
| JObj (props : list (string * jsval)).

(** What a [throw] carries; the client only logs it. *)
Inductive exn : Type :=
| TypeError
| SyntaxError
| NetworkError
| Error (msg : string).

Inductive res (A : Type) : Type :=
| Ok (a : A)
| Throw (e : exn).
Arguments Ok {A} a.
Arguments Throw {A} e.

Definition bind {A B} (m : res A) (k : A -> res B) : res B :=
  match m with
  | Ok a => k a
  | Throw e => Throw e
  end.

Notation "x <- m ;; k" := (bind m (fun x => k))
  (at level 61, m at next level, right associativity).

(** ToBoolean. *)
Definition truthy (v : jsval) : bool :=
  match v with
  | JUndef | JNull => false
  | JBool b => b
  | JNum n => negb (n =? 0)
  | JStr s => negb (s =? "")%string
  | JArr _ | JObj _ => true
  end.

(** [a || b]. *)
Definition or_else (a b : jsval) : jsval := if truthy a then a else b.

Fixpoint assoc (k : string) (ps : list (string * jsval)) : jsval :=
  match ps with
  | [] => JUndef
  | (k', v) :: rest => if (k =? k')%string then v else assoc k rest
  end.

(** [v.k] for the property names the client reads (none of them is an index
    or a method of a prototype): it throws on [undefined] and [null]; arrays
    and strings have a [length]. *)
Definition get (v : jsval) (k : string) : res jsval :=
  match v with
  | JUndef | JNull => Throw TypeError
  | JObj ps => Ok (assoc k ps)
  | JArr l => Ok (if (k =? "length")%string then JNum (Z.of_nat (List.length l)) else JUndef)
  | JStr s => Ok (if (k =? "length")%string then JNum (Z.of_nat (String.length s)) else JUndef)
  | JBool _ | JNum _ => Ok JUndef
  end.

Definition is_array (v : jsval) : bool :=
  match v with JArr _ => true | _ => false end.

Definition string_of_Z (n : Z) : string := NilZero.string_of_int (Z.to_int n).

Fixpoint join (sep : string) (l : list string) : string :=
  match l with
  | [] => EmptyString
  | [s] => s
  | s :: rest => (s ++ sep ++ join sep rest)%string
  end.

(** Whether the object has a property of its own named [k]. *)
Definition has_key (k : string) (ps : list (string * jsval)) : bool :=
  existsb (fun kv => (fst kv =? k)%string) ps.

(** A plain value: no object in it has a property of its own named
    [toString].  The conversions of JavaScript throw a TypeError on an
    object that has one (its value, parsed from JSON, is not callable) and
    on an array that holds one; the conversions below do not throw, and are
    those of JavaScript on plain values only.  What is stated of a
    conversion is stated of plain values. *)
Fixpoint plain (v : jsval) : bool :=
  match v with
  | JArr l => forallb plain l
  | JObj ps =>
      negb (has_key "toString" ps)
      && forallb (fun kv : string * jsval => let (_, x) := kv in plain x) ps
  | JUndef | JNull | JBool _ | JNum _ | JStr _ => true
  end.

(** ToString of a plain value, as template literals, [+] with a string and
    [setItem] apply it.  A number is printed in full, as JavaScript prints
    the integers below 10^21. *)
Fixpoint to_str (v : jsval) : string :=
  match v with
  | JUndef => "undefined"
  | JNull => "null"
  | JBool true => "true"
  | JBool false => "false"
  | JNum n => string_of_Z n
  | JStr s => s
  | JArr l =>
      join ","
        (map (fun x => match x with
                       | JUndef | JNull => EmptyString
                       | _ => to_str x
                       end) l)
  | JObj _ => "[object Object]"
  end.

(** What a nullable DOM string attribute ([textContent]) stores, for a
    plain value. *)
Definition dom_string (v : jsval) : string :=
  match v with
  | JUndef | JNull => EmptyString
  | _ => to_str v
  end.

(** [a === b].  Two arrays or objects are equal only if they are the same
    object, which the values of the model do not tell: they are taken to be
    different, as they are whenever the two operands come from different
    response bodies.  The comparison is that of JavaScript when one operand
    is not an array or object; what is stated of a comparison of ids is
    stated of ids that are strings. *)
Definition strict_eq (a b : jsval) : bool :=
  match a, b with
  | JUndef, JUndef => true
  | JNull, JNull => true
  | JBool x, JBool y => Bool.eqb x y
  | JNum x, JNum y => x =? y
  | JStr x, JStr y => (x =? y)%string
  | _, _ => false
  end.

(** White space and line terminators among the one-byte code units. *)
Definition is_ws (c : ascii) : bool :=
  let n := nat_of_ascii c in
  ((n =? 9) || (n =? 10) || (n =? 11) || (n =? 12) || (n =? 13)
   || (n =? 32) || (n =? 160))%nat.

Fixpoint trim_start (s : string) : string :=
  match s with
  | EmptyString => EmptyString
  | String c r => if is_ws c then trim_start r else s
  end.

Fixpoint trim_end (s : string) : string :=
  match s with
  | EmptyString => EmptyString
  | String c r =>
      match trim_end r with
      | EmptyString => if is_ws c then EmptyString else String c EmptyString
      | r' => String c r'
      end
  end.

(** [s.trim()]. *)
Definition trim (s : string) : string := trim_end (trim_start s).

(** [v.trim()]: only a string has the method. *)
Definition trim_val (v : jsval) : res string :=
  match v with
  | JStr s => Ok (trim s)
  | _ => Throw TypeError
  end.

Fixpoint drop (n : nat) (s : string) : string :=
  match n, s with
  | O, _ => s
  | S n', String _ r => drop n' r
  | S _, EmptyString => EmptyString
  end.

(** [s.startsWith(p)]. *)
Definition startsWith (s p : string) : bool := prefix p s.

(** [s.replace(pat, rep)] for a string pattern and a replacement without
    [$]: the first occurrence is replaced. *)
Fixpoint replace (pat rep s : string) : string :=
  if prefix pat s then (rep ++ drop (String.length pat) s)%string
  else match s with
       | EmptyString => EmptyString
       | String c r => String c (replace pat rep r)
       end.

Definition is_digit (c : ascii) : bool :=
  let n := nat_of_ascii c in ((48 <=? n) && (n <=? 57))%nat.

Fixpoint digits_value (acc : Z) (s : string) : option Z :=
  match s with
  | EmptyString => Some acc
  | String c r =>
      if is_digit c
      then digits_value (10 * acc + Z.of_nat (nat_of_ascii c - 48)) r
      else None
  end.

(** StringToNumber on the integers of the model: optional white space
    around an optionally signed decimal integer; the empty string is 0;
    [None] is NaN.  The other numeric strings of JavaScript (fractions,
    exponents, hexadecimal, [Infinity]) are not numbers of the model and are
    read as NaN; a length is compared as JavaScript compares it when it is
    an integer, as the lengths of arrays and strings are. *)
Definition string_to_number (s : string) : option Z :=
  match trim s with
  | EmptyString => Some 0
  | String "-" (String c r) => option_map Z.opp (digits_value 0 (String c r))
  | String "+" (String c r) => digits_value 0 (String c r)
  | String "-" EmptyString | String "+" EmptyString => None
  | t => digits_value 0 t
  end.

(** ToNumber; [None] is NaN. *)
Definition to_number (v : jsval) : option Z :=
  match v with
  | JUndef => None
  | JNull => Some 0
  | JBool b => Some (if b then 1 else 0)
  | JNum n => Some n
  | JStr s => string_to_number s
  | JArr _ => string_to_number (to_str v)
  | JObj _ => None
  end.

Definition num_cmp (op : Z -> Z -> bool) (a b : jsval) : bool :=
  match to_number a, to_number b with
  | Some x, Some y => op x y
  | _, _ => false
  end.

(** [a > b], [a >= b], [a <= b] where one operand is a number, as at every
    comparison of the client: the other one is converted by ToNumber and a
    NaN makes the comparison false. *)
Definition gt (a b : jsval) : bool := num_cmp Z.gtb a b.
Definition ge (a b : jsval) : bool := num_cmp Z.geb a b.
Definition le (a b : jsval) : bool := num_cmp Z.leb a b.

(** [arr.forEach(f)] with a callback that updates [acc] and may throw. *)
Fixpoint forEach {S : Type} (f : jsval -> S -> res S) (l : list jsval) (acc : S)
  : res S :=
  match l with
  | [] => Ok acc
  | x :: rest => acc' <- f x acc ;; forEach f rest acc'
  end.

(** [v.forEach(f)]: only an array has the method. *)
Definition forEach_val {S : Type} (f : jsval -> S -> res S) (v : jsval) (acc : S)
  : res S :=
  match v with
  | JArr l => forEach f l acc
  | _ => Throw TypeError
  end.

End JS.
Import JS.

(** ** What the page shows *)

(** An address: as given, or a path on [API_BASE_URL], the origin that
    serves the client. *)
Inductive url : Type :=
| Absolute (address : string)
| OnOrigin (path : string).

(** Markup.  The source builds HTML text by concatenation; here the same
    markup is kept as a tree (white space and comments of the templates left
    out), with the output of the two external text functions kept symbolic:
    [Escaped s] stands for [escapeHtml(s)], which is also what assigning [s]
    to [textContent] displays, and [Marked s] for [marked.parse(s)]. *)
Inductive markup : Type :=
| Raw (s : string)
| Escaped (s : string)
| Marked (s : string)
| El (tag cls : string) (kids : list markup)
| Img (src : url) (alt : string)
| Button (action : string).

(** A child of [#chatHistory]. *)
Inductive element : Type :=
| Message (isUser : bool) (content : list markup)
| TypingIndicator.

Record sidebar_item : Type := mkItem {
  item_session : jsval;
  item_title : string;
  item_active : bool
}.

(** [#sidebarContent]: emptied, the "No chats yet" label, or the list of
    recent chats. *)
Inductive sidebar : Type :=
| SidebarBlank
| NoChatsYet
| RecentChats (items : list sidebar_item).

(** ** The network *)

Inductive request : Type :=
| GetSessions
| PostSessions
| GetSession (id : string)
| PutSession (id : string) (title : string)
| DeleteSession (id : string)
| PostChat (message : string) (session_id last_tutorial : jsval).

(** What a [fetch] comes back with: the promise rejects, or a response with
    a status and a body; [None] is a body that [response.json()] rejects. *)
Inductive response : Type :=
| Rejected
| Http (status : Z) (body : option jsval).

Definition status_ok (status : Z) : bool := (200 <=? status) && (status <=? 299).

(** ** The client state: the script's globals, the per-tab store and the
    parts of the page the script reads back *)

Record state : Type := mkState {
  chatStateHistory : jsval;
  lastTutorialSteps : jsval;
  currentSessionId : jsval;
  isFirstLoad : bool;
  sessionToDelete : jsval;
  activeSessionId : option string;
  messageInput : string;
  sendBtn_disabled : bool;
  chatHistory : list element;
  chatHistory_active : bool;
  welcome_hidden : bool;
  actions_hidden : bool;
  confirmModal_active : bool;
  sidebarContent : sidebar;
  console : list (string * exn);
  network : list request
}.

(** The state the script starts in. *)
Definition initial (stored : option string) : state :=
  {| chatStateHistory := JArr [];
     lastTutorialSteps := JArr [];
     currentSessionId := JNull;
     isFirstLoad := true;
     sessionToDelete := JNull;
     activeSessionId := stored;
     messageInput := EmptyString;
     sendBtn_disabled := false;
     chatHistory := [];
     chatHistory_active := false;
     welcome_hidden := false;
     actions_hidden := false;
     confirmModal_active := false;
     sidebarContent := SidebarBlank;
     console := [];
     network := [] |}.

Definition set_chatStateHistory (v : jsval) (st : state) : state :=
  mkState v (lastTutorialSteps st) (currentSessionId st) (isFirstLoad st)
    (sessionToDelete st) (activeSessionId st) (messageInput st)
    (sendBtn_disabled st) (chatHistory st) (chatHistory_active st)
    (welcome_hidden st) (actions_hidden st) (confirmModal_active st)
    (sidebarContent st) (console st) (network st).

Definition set_lastTutorialSteps (v : jsval) (st : state) : state :=
  mkState (chatStateHistory st) v (currentSessionId st) (isFirstLoad st)
    (sessionToDelete st) (activeSessionId st) (messageInput st)
    (sendBtn_disabled st) (chatHistory st) (chatHistory_active st)
    (welcome_hidden st) (actions_hidden st) (confirmModal_active st)
    (sidebarContent st) (console st) (network st).

Definition set_currentSessionId (v : jsval) (st : state) : state :=
  mkState (chatStateHistory st) (lastTutorialSteps st) v (isFirstLoad st)
    (sessionToDelete st) (activeSessionId st) (messageInput st)
    (sendBtn_disabled st) (chatHistory st) (chatHistory_active st)
    (welcome_hidden st) (actions_hidden st) (confirmModal_active st)
    (sidebarContent st) (console st) (network st).

Definition set_isFirstLoad (b : bool) (st : state) : state :=
  mkState (chatStateHistory st) (lastTutorialSteps st) (currentSessionId st) b
    (sessionToDelete st) (activeSessionId st) (messageInput st)
    (sendBtn_disabled st) (chatHistory st) (chatHistory_active st)
    (welcome_hidden st) (actions_hidden st) (confirmModal_active st)
    (sidebarContent st) (console st) (network st).

Definition set_sessionToDelete (v : jsval) (st : state) : state :=
  mkState (chatStateHistory st) (lastTutorialSteps st) (currentSessionId st)
    (isFirstLoad st) v (activeSessionId st) (messageInput st)
    (sendBtn_disabled st) (chatHistory st) (chatHistory_active st)
    (welcome_hidden st) (actions_hidden st) (confirmModal_active st)
    (sidebarContent st) (console st) (network st).

Definition set_activeSessionId (v : option string) (st : state) : state :=
  mkState (chatStateHistory st) (lastTutorialSteps st) (currentSessionId st)
    (isFirstLoad st) (sessionToDelete st) v (messageInput st)
    (sendBtn_disabled st) (chatHistory st) (chatHistory_active st)
    (welcome_hidden st) (actions_hidden st) (confirmModal_active st)
    (sidebarContent st) (console st) (network st).

Definition set_messageInput (v : string) (st : state) : state :=
  mkState (chatStateHistory st) (lastTutorialSteps st) (currentSessionId st)
    (isFirstLoad st) (sessionToDelete st) (activeSessionId st) v
    (sendBtn_disabled st) (chatHistory st) (chatHistory_active st)
    (welcome_hidden st) (actions_hidden st) (confirmModal_active st)
    (sidebarContent st) (console st) (network st).

Definition set_sendBtn_disabled (b : bool) (st : state) : state :=
  mkState (chatStateHistory st) (lastTutorialSteps st) (currentSessionId st)
    (isFirstLoad st) (sessionToDelete st) (activeSessionId st) (messageInput st)
    b (chatHistory st) (chatHistory_active st)
    (welcome_hidden st) (actions_hidden st) (confirmModal_active st)
    (sidebarContent st) (console st) (network st).

Definition set_chatHistory (v : list element) (st : state) : state :=
  mkState (chatStateHistory st) (lastTutorialSteps st) (currentSessionId st)
    (isFirstLoad st) (sessionToDelete st) (activeSessionId st) (messageInput st)
    (sendBtn_disabled st) v (chatHistory_active st)
    (welcome_hidden st) (actions_hidden st) (confirmModal_active st)
    (sidebarContent st) (console st) (network st).

Definition set_chatHistory_active (b : bool) (st : state) : state :=
  mkState (chatStateHistory st) (lastTutorialSteps st) (currentSessionId st)
    (isFirstLoad st) (sessionToDelete st) (activeSessionId st) (messageInput st)
    (sendBtn_disabled st) (chatHistory st) b
    (welcome_hidden st) (actions_hidden st) (confirmModal_active st)
    (sidebarContent st) (console st) (network st).

Definition set_welcome_hidden (b : bool) (st : state) : state :=
  mkState (chatStateHistory st) (lastTutorialSteps st) (currentSessionId st)
    (isFirstLoad st) (sessionToDelete st) (activeSessionId st) (messageInput st)
    (sendBtn_disabled st) (chatHistory st) (chatHistory_active st)
    b (actions_hidden st) (confirmModal_active st)
    (sidebarContent st) (console st) (network st).

Definition set_actions_hidden (b : bool) (st : state) : state :=
  mkState (chatStateHistory st) (lastTutorialSteps st) (currentSessionId st)
    (isFirstLoad st) (sessionToDelete st) (activeSessionId st) (messageInput st)
    (sendBtn_disabled st) (chatHistory st) (chatHistory_active st)
    (welcome_hidden st) b (confirmModal_active st)
    (sidebarContent st) (console st) (network st).

Definition set_confirmModal_active (b : bool) (st : state) : state :=
  mkState (chatStateHistory st) (lastTutorialSteps st) (currentSessionId st)
    (isFirstLoad st) (sessionToDelete st) (activeSessionId st) (messageInput st)
    (sendBtn_disabled st) (chatHistory st) (chatHistory_active st)
    (welcome_hidden st) (actions_hidden st) b
    (sidebarContent st) (console st) (network st).

Definition set_sidebarContent (v : sidebar) (st : state) : state :=
  mkState (chatStateHistory st) (lastTutorialSteps st) (currentSessionId st)
    (isFirstLoad st) (sessionToDelete st) (activeSessionId st) (messageInput st)
    (sendBtn_disabled st) (chatHistory st) (chatHistory_active st)
    (welcome_hidden st) (actions_hidden st) (confirmModal_active st)
    v (console st) (network st).

(** [console.error(label, err)]. *)
Definition console_error (label : string) (e : exn) (st : state) : state :=
  mkState (chatStateHistory st) (lastTutorialSteps st) (currentSessionId st)
    (isFirstLoad st) (sessionToDelete st) (activeSessionId st) (messageInput st)
    (sendBtn_disabled st) (chatHistory st) (chatHistory_active st)
    (welcome_hidden st) (actions_hidden st) (confirmModal_active st)
    (sidebarContent st) (console st ++ [(label, e)]) (network st).

(** [fetch(...)]: the request goes out. *)
Definition fetch (r : request) (st : state) : state :=
  mkState (chatStateHistory st) (lastTutorialSteps st) (currentSessionId st)
    (isFirstLoad st) (sessionToDelete st) (activeSessionId st) (messageInput st)
    (sendBtn_disabled st) (chatHistory st) (chatHistory_active st)
    (welcome_hidden st) (actions_hidden st) (confirmModal_active st)
    (sidebarContent st) (console st) (network st ++ [r]).

(** ** Rendering *)

Module Render.

(** [marked.parse(v)]: the library (not part of the repository) throws on
    anything but a string. *)
Definition marked_parse (v : jsval) : res markup :=
  match v with
  | JStr s => Ok (Marked s)
  | _ => Throw (Error "marked(): input parameter is not a string")
  end.

(** [escapeHtml(v)]: [v] goes through [textContent]. *)
Definition escapeHtml (v : jsval) : markup := Escaped (dom_string v).

Fixpoint index_props {A : Type} (mk : A -> jsval) (i : nat) (l : list A)
  : list (string * jsval) :=
  match l with
  | [] => []
  | x :: rest => (string_of_Z (Z.of_nat i), mk x) :: index_props mk (S i) rest
  end.

(** The own enumerable properties a spread copies. *)
Definition own_props (v : jsval) : list (string * jsval) :=
  match v with
  | JObj ps => ps
  | JArr l => index_props (fun x => x) 0 l
  | JStr s => index_props (fun c => JStr (String c EmptyString)) 0 (list_ascii_of_string s)
  | JUndef | JNull | JBool _ | JNum _ => []
  end.

(** [{ ...responseData, content: null }]. *)
Definition dataForRender (responseData : jsval) : jsval :=
  JObj (("content"%string, JNull) :: own_props responseData).

Definition renderSuggestedActions (actions : jsval) : res (list markup) :=
  if negb (truthy actions) then Ok []
  else
    len <- get actions "length" ;;
    if strict_eq len (JNum 0) then Ok []
    else
      buttons <- forEach_val
                   (fun action html => Ok (html ++ [Button (dom_string action)]))
                   actions [] ;;
      Ok [El "div" "suggested-actions"
            [El "div" "suggested-actions-title" [Raw "Suggested Actions"];
             El "div" "suggested-actions-list" buttons]].

(** The [<img>] of a step, when the step has an [image]. *)
Definition step_image (step : jsval) : res (list markup) :=
  image <- get step "image" ;;
  if truthy image then
    match image with
    | JStr s =>
        number <- get step "step_number" ;;
        Ok [Img (if startsWith s "http" then Absolute s else OnOrigin s)
                ("Step " ++ to_str number)]
    | _ => Throw TypeError
    end
  else Ok [].

Definition renderCapabilitiesResponse (data : jsval) : res (list markup) :=
  title <- get data "title" ;;
  features <- get data "features" ;;
  cards <- (if truthy features then
              len <- get features "length" ;;
              if gt len (JNum 0) then
                forEach_val
                  (fun feature html =>
                     icon <- get feature "icon" ;;
                     ftitle <- get feature "title" ;;
                     description <- get feature "description" ;;
                     Ok (html ++
                         [El "div" "capability-card"
                            [El "div" "capability-icon" [Raw (to_str icon)];
                             El "div" "capability-info"
                               [El "h3" "capability-title" [escapeHtml ftitle];
                                El "p" "capability-description"
                                  [escapeHtml description]]]]))
                  features []
              else Ok []
            else Ok []) ;;
  footer_cta <- get data "footer_cta" ;;
  suggested_actions <- get data "suggested_actions" ;;
  actions <- renderSuggestedActions suggested_actions ;;
  Ok [El "div" "capabilities-wrapper"
        [El "div" "capabilities-container"
           ([El "div" "capabilities-header"
               [El "h2" "capabilities-title"
                  [escapeHtml (or_else title (JStr ""))]];
             El "div" "capabilities-grid" cards;
             El "div" "capabilities-footer" [escapeHtml footer_cta]]
            ++ actions)]].

Definition renderTutorialResponse (data : jsval) : res (list markup) :=
  help_note <- get data "help_note" ;;
  note <- (if truthy help_note then
             m <- marked_parse help_note ;; Ok [El "div" "help-note" [m]]
           else Ok []) ;;
  steps <- get data "steps" ;;
  container <- (if truthy steps then
                  len <- get steps "length" ;;
                  if gt len (JNum 0) then
                    items <- forEach_val
                               (fun step html =>
                                  number <- get step "step_number" ;;
                                  text <- get step "text" ;;
                                  m <- marked_parse text ;;
                                  image <- step_image step ;;
                                  Ok (html ++
                                      [El "div" "step-item"
                                         (El "div" "step-header"
                                            [El "div" "step-number" [Raw (to_str number)];
                                             El "div" "step-text" [m]]
                                          :: image)]))
                               steps [] ;;
                    Ok [El "div" "steps-container" items]
                  else Ok []
                else Ok []) ;;
  pro_tip <- get data "pro_tip" ;;
  tip <- marked_parse (or_else pro_tip (JStr "")) ;;
  completion_message <- get data "completion_message" ;;
  completion <- marked_parse (or_else completion_message (JStr "")) ;;
  suggested_actions <- get data "suggested_actions" ;;
  actions <- renderSuggestedActions suggested_actions ;;
  Ok [El "div" "tutorial-content"
        (note ++ container ++
         [El "div" "completion-message" [El "strong" "" [Raw "Pro tip:"]; tip];
          El "div" "completion-message" [completion]]
         ++ actions)].

Definition renderTutorialClarifyResponse (data : jsval) : res (list markup) :=
  cs <- get data "clarified_step" ;;
  number <- get cs "step_number" ;;
  clarified <- get cs "clarified" ;;
  m <- marked_parse clarified ;;
  image <- step_image cs ;;
  suggested_actions <- get data "suggested_actions" ;;
  actions <- renderSuggestedActions suggested_actions ;;
  Ok [El "div" "tutorial-content"
        (El "div" "step-item"
           (El "div" "step-header"
              [El "div" "step-number" [Raw (to_str number)];
               El "div" "step-text" [m]]
            :: image)
         :: actions)].

Definition renderRegularResponse (data : jsval) : res (list markup) :=
  completion_message <- get data "completion_message" ;;
  completion <- (if truthy completion_message then
                   m <- marked_parse completion_message ;;
                   Ok [El "div" "completion-message" [m]]
                 else Ok []) ;;
  suggested_actions <- get data "suggested_actions" ;;
  actions <- renderSuggestedActions suggested_actions ;;
  Ok (completion ++ actions).

(** [typeWriter(element, text, callback)] up to its last tick: the text is
    in the page as [marked.parse(text)].  The first tick runs inside the
    call, so what it throws is thrown by the call. *)
Definition typeWriter (text : jsval) : res markup :=
  len <- get text "length" ;;
  if gt len (JNum 0) then
    match text with
    | JStr s => Ok (Marked s)
    | _ => Throw TypeError
    end
  else marked_parse text.

Definition nonempty (html : list markup) : bool :=
  match html with [] => false | _ :: _ => true end.

(** Lines 329-351: the text to type and the structured content of an
    assistant message. *)
Definition assistant_parts (text responseData : jsval)
  : res (jsval * list markup) :=
  if truthy responseData then
    content <- get responseData "content" ;;
    let textToType := or_else content (JStr "") in
    let data := dataForRender responseData in
    type <- get responseData "type" ;;
    complexHtml <-
      (if strict_eq type (JStr "tutorial") then
         renderTutorialResponse data
       else if strict_eq type (JStr "tutorial_clarify") then
         renderTutorialClarifyResponse data
       else if strict_eq type (JStr "capabilities") then
         renderCapabilitiesResponse data
       else renderRegularResponse data) ;;
    Ok (textToType, complexHtml)
  else Ok (text, []).

(** What [addMessage] puts into the content of an assistant message. *)
Definition assistant_content (text responseData : jsval) (animate : bool)
  : res (list markup) :=
  parts <- assistant_parts text responseData ;;
  let textToType := fst parts in
  let complexHtml := snd parts in
  if animate then
    if truthy textToType then
      typed <- typeWriter textToType ;;
      Ok (El "div" "" [typed]
          :: (if nonempty complexHtml then [El "div" "fade-in" complexHtml] else []))
    else Ok complexHtml
  else
    typed <- (if truthy textToType then
                m <- marked_parse textToType ;; Ok [m]
              else Ok []) ;;
    Ok (typed ++ (if nonempty complexHtml then [El "div" "" complexHtml] else [])).

(** What the content of an assistant message holds when its rendering
    throws.  The renderers and [marked.parse] throw before anything is put
    into the content; [typeWriter] has appended its text container (lines
    400-402) when its first tick throws. *)
Definition thrown_content (text responseData : jsval) (animate : bool)
  : list markup :=
  match assistant_parts text responseData with
  | Ok (textToType, _) =>
      if animate && truthy textToType then [El "div" "" []] else []
  | Throw _ => []
  end.

(** [addMessage(text, isUser, responseData, animate)].  The message is in
    the page before its content is computed: when the rendering throws, the
    assistant message stays, with what the rendering had put into it. *)
Definition addMessage (text : jsval) (isUser : bool) (responseData : jsval)
    (animate : bool) (st : state) : state * res unit :=
  let st1 := set_chatHistory_active true st in
  let st2 := match chatHistory st1 with
             | [] => set_actions_hidden true (set_welcome_hidden true st1)
             | _ :: _ => st1
             end in
  let append m := set_chatHistory (chatHistory st2 ++ [m]) st2 in
  if isUser then (append (Message true [Escaped (dom_string text)]), Ok tt)
  else
    match assistant_content text responseData animate with
    | Ok content => (append (Message false content), Ok tt)
    | Throw e =>
        (append (Message false (thrown_content text responseData animate)), Throw e)
    end.

Fixpoint remove_first_indicator (l : list element) : list element :=
  match l with
  | [] => []
  | TypingIndicator :: rest => rest
  | m :: rest => m :: remove_first_indicator rest
  end.

Definition showTypingIndicator (st : state) : state :=
  set_chatHistory (chatHistory st ++ [TypingIndicator]) st.

Definition removeTypingIndicator (st : state) : state :=
  set_chatHistory (remove_first_indicator (chatHistory st)) st.

End Render.
Import Render.

(** ** The client *)

(** A continuation waiting for the response to the request it sent. *)
Inductive task : Type :=
| AwaitSessions
| AwaitSession (sessionId : jsval)
| AwaitCreate (message : string)
| AwaitChat (message : string)
| AwaitDelete (sessionId : jsval)
| AwaitRename.

(** [fetchSessions()] up to its [fetch]. *)
Definition fetchSessions (st : state) : state * list task :=
  (fetch GetSessions st, [AwaitSessions]).

Fixpoint sidebar_items (current : jsval) (sessions : list jsval)
  : res (list sidebar_item) :=
  match sessions with
  | [] => Ok []
  | session :: rest =>
      id <- get session "session_id" ;;
      title <- get session "title" ;;
      items <- sidebar_items current rest ;;
      Ok (mkItem id (dom_string (or_else title (JStr "Untitled Chat")))
                 (strict_eq id current) :: items)
  end.

Definition displaySessions (sessions : jsval) (st : state) : state * res unit :=
  let st1 := set_sidebarContent SidebarBlank st in
  if negb (truthy sessions) then (set_sidebarContent NoChatsYet st1, Ok tt)
  else
    match get sessions "length" with
    | Throw e => (st1, Throw e)
    | Ok len =>
        if strict_eq len (JNum 0) then (set_sidebarContent NoChatsYet st1, Ok tt)
        else
          match sessions with
          | JArr l =>
              match sidebar_items (currentSessionId st1) l with
              | Ok items => (set_sidebarContent (RecentChats items) st1, Ok tt)
              | Throw e => (st1, Throw e)
              end
          | _ => (st1, Throw TypeError)
          end
    end.

(** [selectSession(sessionId)] up to its [fetch]; the call of
    [fetchSessions] inside it is not awaited. *)
Definition selectSession (sessionId : jsval) (st : state) : state * list task :=
  if strict_eq (currentSessionId st) sessionId then (st, [])
  else
    let st1 := set_currentSessionId sessionId st in
    let st2 := set_activeSessionId (Some (to_str sessionId)) st1 in
    let '(st3, refresh) := fetchSessions st2 in
    (fetch (GetSession (to_str sessionId)) st3, refresh ++ [AwaitSession sessionId]).

Definition newChat (st : state) : state * list task :=
  let st1 := set_currentSessionId JNull st in
  let st2 := set_activeSessionId None st1 in
  let st3 := set_chatHistory [] st2 in
  let st4 := set_chatStateHistory (JArr []) st3 in
  let st5 := set_lastTutorialSteps (JArr []) st4 in
  let st6 := set_chatHistory_active false st5 in
  let st7 := set_welcome_hidden false st6 in
  let st8 := set_actions_hidden false st7 in
  let st9 := set_messageInput EmptyString st8 in
  fetchSessions st9.

(** [data.sessions.some((s) => s.session_id === activeSessionId)]. *)
Fixpoint some_session (activeSessionId : string) (sessions : list jsval) : res bool :=
  match sessions with
  | [] => Ok false
  | s :: rest =>
      id <- get s "session_id" ;;
      if strict_eq id (JStr activeSessionId) then Ok true
      else some_session activeSessionId rest
  end.

Definition sessionExists (activeSessionId : string) (sessions : jsval) : res bool :=
  match sessions with
  | JArr l => some_session activeSessionId l
  | _ => Throw TypeError
  end.

(** The body of the [try] of [fetchSessions] after the response has been
    parsed. *)
Definition restore (data : jsval) (st : state) : state * list task * res unit :=
  match get data "sessions" with
  | Throw e => (st, [], Throw e)
  | Ok sessions =>
      match displaySessions sessions st with
      | (st1, Throw e) => (st1, [], Throw e)
      | (st1, Ok _) =>
          if isFirstLoad st1 then
            match activeSessionId st1 with
            | Some id =>
                if truthy (JStr id) then
                  match sessionExists id sessions with
                  | Throw e => (st1, [], Throw e)
                  | Ok true =>
                      let '(st2, ts) := selectSession (JStr id) st1 in
                      (set_isFirstLoad false st2, ts, Ok tt)
                  | Ok false =>
                      let '(st2, ts) := newChat (set_activeSessionId None st1) in
                      (set_isFirstLoad false st2, ts, Ok tt)
                  end
                else
                  let '(st2, ts) := newChat st1 in
                  (set_isFirstLoad false st2, ts, Ok tt)
            | None =>
                let '(st2, ts) := newChat st1 in
                (set_isFirstLoad false st2, ts, Ok tt)
            end
          else (st1, [], Ok tt)
      end
  end.

(** [fetchSessions] from its [fetch] on. *)
Definition fetchSessions_resume (resp : response) (st : state) : state * list task :=
  let caught e st' := (console_error "Error fetching sessions:" e st', []) in
  match resp with
  | Rejected => caught NetworkError st
  | Http _ None => caught SyntaxError st
  | Http _ (Some data) =>
      match restore data st with
      | (st1, ts, Ok _) => (st1, ts)
      | (st1, _, Throw e) => caught e st1
      end
  end.

(** One round of the [forEach] that replays a loaded history. *)
Definition replay_entry (msg : jsval) (st : state) : state * res unit :=
  match msg with
  | JStr s =>
      if startsWith s "User: " then
        addMessage (JStr (replace "User: " "" s)) true JNull false st
      else if startsWith s "Assistant: " then
        addMessage (JStr (replace "Assistant: " "" s)) false JNull false st
      else (st, Ok tt)
  | JObj _ | JArr _ =>
      match get msg "role", get msg "content", get msg "data" with
      | Ok role, Ok content, Ok data =>
          if strict_eq role (JStr "user") then
            addMessage content true JNull false st
          else if strict_eq role (JStr "assistant") then
            addMessage (JStr "") false
              (or_else data (JObj [("content"%string, content)])) false st
          else (st, Ok tt)
      | _, _, _ => (st, Throw TypeError)
      end
  | JUndef | JNull | JBool _ | JNum _ => (st, Ok tt)
  end.

Fixpoint replay (msgs : list jsval) (st : state) : state * res unit :=
  match msgs with
  | [] => (st, Ok tt)
  | msg :: rest =>
      match replay_entry msg st with
      | (st1, Ok _) => replay rest st1
      | (st1, Throw e) => (st1, Throw e)
      end
  end.

(** The body of the [try] of [selectSession] after the response has been
    parsed. *)
Definition hydrate (data : jsval) (st : state) : state * res unit :=
  let st1 := set_chatHistory [] st in
  match get data "history" with
  | Throw e => (st1, Throw e)
  | Ok history =>
      let st2 := set_chatStateHistory (or_else history (JArr [])) st1 in
      let st3 := set_lastTutorialSteps (JArr []) st2 in
      match get (chatStateHistory st3) "length" with
      | Throw e => (st3, Throw e)
      | Ok len =>
          if gt len (JNum 0) then
            let st4 := set_welcome_hidden true st3 in
            let st5 := set_actions_hidden true st4 in
            let st6 := set_chatHistory_active true st5 in
            match chatStateHistory st6 with
            | JArr msgs => replay msgs st6
            | _ => (st6, Throw TypeError)
            end
          else
            let st4 := set_welcome_hidden false st3 in
            let st5 := set_actions_hidden false st4 in
            (set_chatHistory_active false st5, Ok tt)
      end
  end.

(** [selectSession] from its [fetch] on. *)
Definition selectSession_resume (resp : response) (st : state) : state :=
  let caught e st' := console_error "Error selecting session:" e st' in
  match resp with
  | Rejected => caught NetworkError st
  | Http status body =>
      if negb (status_ok status) then caught (Error "Failed to load session") st
      else
        match body with
        | None => caught SyntaxError st
        | Some data =>
            match hydrate data st with
            | (st1, Ok _) => st1
            | (st1, Throw e) => caught e st1
            end
        end
  end.

Definition deleteSession (sessionId : jsval) (st : state) : state :=
  set_confirmModal_active true (set_sessionToDelete sessionId st).

Definition closeConfirmModal (st : state) : state :=
  set_sessionToDelete JNull (set_confirmModal_active false st).

(** [confirmDeleteBtn.onclick] up to its [fetch]. *)
Definition confirmDelete (st : state) : state * list task :=
  if negb (truthy (sessionToDelete st)) then (st, [])
  else
    let sessionId := sessionToDelete st in
    let st1 := closeConfirmModal st in
    (fetch (DeleteSession (to_str sessionId)) st1, [AwaitDelete sessionId]).

Definition confirmDelete_resume (sessionId : jsval) (resp : response) (st : state)
  : state * list task :=
  match resp with
  | Rejected => (console_error "Error deleting session:" NetworkError st, [])
  | Http status _ =>
      if status_ok status then
        if strict_eq (currentSessionId st) sessionId then
          newChat (set_currentSessionId JNull st)
        else fetchSessions st
      else (st, [])
  end.

(** [renameSession(sessionId, currentTitle)] up to its [fetch]; [newTitle]
    is what [prompt] returned: a string, or [null]. *)
Definition renameSession (sessionId currentTitle newTitle : jsval) (st : state)
  : state * list task :=
  if negb (truthy newTitle) || strict_eq newTitle currentTitle then (st, [])
  else (fetch (PutSession (to_str sessionId) (to_str newTitle)) st, [AwaitRename]).

Definition renameSession_resume (resp : response) (st : state) : state * list task :=
  match resp with
  | Rejected => (console_error "Error renaming session:" NetworkError st, [])
  | Http status _ => if status_ok status then fetchSessions st else (st, [])
  end.

(** ** The send pipeline *)

(** [chatStateHistory.push(item)]: only an array has the method. *)
Definition history_push (item : jsval) (st : state) : res state :=
  match chatStateHistory st with
  | JArr l => Ok (set_chatStateHistory (JArr (l ++ [item])) st)
  | _ => Throw TypeError
  end.

(** The request of the chat endpoint goes out. *)
Definition post_chat (message : string) (st : state) : state * list task :=
  (fetch (PostChat message (currentSessionId st) (lastTutorialSteps st)) st,
   [AwaitChat message]).

(** The [catch] and the [finally] of [sendMessage]. *)
Definition send_failed (e : exn) (st : state) : state :=
  let st1 := removeTypingIndicator st in
  let st2 := console_error "Send error:" e st1 in
  let st3 := fst (addMessage (JStr "Sorry, something went wrong. Try again.")
                    false JNull true st2) in
  set_sendBtn_disabled false st3.

(** [sendMessage()] up to its first [fetch].  The [push] of the user entry
    is outside the [try]: if it throws, the promise of [sendMessage] rejects
    and nobody handles it. *)
Definition sendMessage (st : state) : state * list task :=
  let message := trim (messageInput st) in
  if (message =? "")%string then (st, [])
  else
    let st1 := fst (addMessage (JStr message) true JNull true st) in
    match history_push (JStr ("User: " ++ message)) st1 with
    | Throw e => (console_error "Uncaught (in promise)" e st1, [])
    | Ok st2 =>
        let st3 := set_messageInput EmptyString st2 in
        let st4 := set_sendBtn_disabled true st3 in
        let st5 := showTypingIndicator st4 in
        if negb (truthy (currentSessionId st5)) then
          (fetch PostSessions st5, [AwaitCreate message])
        else post_chat message st5
    end.

(** [sendMessage] from the response of the session endpoint on. *)
Definition create_resume (message : string) (resp : response) (st : state)
  : state * list task :=
  match resp with
  | Rejected => (send_failed NetworkError st, [])
  | Http _ None => (send_failed SyntaxError st, [])
  | Http _ (Some sessData) =>
      match get sessData "session_id" with
      | Throw e => (send_failed e st, [])
      | Ok id =>
          let st1 := set_currentSessionId id st in
          let st2 := set_activeSessionId (Some (to_str id)) st1 in
          post_chat message st2
      end
  end.

(** The text a reply leaves in the local history, before it is trimmed. *)
Definition assistantText (data : jsval) : res jsval :=
  type <- get data "type" ;;
  content <- get data "content" ;;
  if strict_eq type (JStr "tutorial") then
    summary <- get data "summary" ;;
    Ok (JStr (to_str (or_else content (JStr "")) ++ " "
              ++ to_str (or_else summary (JStr ""))))
  else if strict_eq type (JStr "tutorial_clarify") then
    clarified_step <- get data "clarified_step" ;;
    if truthy clarified_step then
      clarified <- get clarified_step "clarified" ;;
      Ok (or_else clarified (JStr ""))
    else Ok (or_else content (JStr ""))
  else Ok (or_else content (JStr "")).

(** Lines 676-679: the tutorial cache follows a tutorial reply. *)
Definition update_tutorial (data : jsval) (st : state) : res state :=
  type <- get data "type" ;;
  steps <- get data "steps" ;;
  if strict_eq type (JStr "tutorial") && is_array steps
  then Ok (set_lastTutorialSteps steps st)
  else Ok st.

(** Lines 683-696: the assistant entry of the local history. *)
Definition append_assistant (data : jsval) (st : state) : res state :=
  text <- assistantText data ;;
  trimmed <- trim_val text ;;
  if truthy (JStr trimmed)
  then history_push (JStr ("Assistant: " ++ trimmed)) st
  else Ok st.

(** [chatStateHistory.length = 0]: an array is emptied, an object gets the
    property, a primitive ignores the assignment. *)
Definition clear_history (h : jsval) : jsval :=
  match h with
  | JArr _ => JArr []
  | JObj ps => JObj (("length"%string, JNum 0) :: ps)
  | _ => h
  end.

Fixpoint push_all (items : list jsval) (st : state) : state * res unit :=
  match items with
  | [] => (st, Ok tt)
  | item :: rest =>
      match history_push item st with
      | Ok st1 => push_all rest st1
      | Throw e => (st, Throw e)
      end
  end.

(** Lines 699-706: the server's history replaces the local one when it is
    at least as long. *)
Definition reconcile (conversation_history : jsval) (st : state) : state * res unit :=
  match conversation_history with
  | JArr server =>
      match get (chatStateHistory st) "length" with
      | Throw e => (st, Throw e)
      | Ok len =>
          if ge (JNum (Z.of_nat (List.length server))) len then
            push_all server
              (set_chatStateHistory (clear_history (chatStateHistory st)) st)
          else (st, Ok tt)
      end
  | _ => (st, Ok tt)
  end.

(** Lines 708-710. *)
Definition refresh_after_send (st : state) : state * list task * res unit :=
  match get (chatStateHistory st) "length" with
  | Throw e => (st, [], Throw e)
  | Ok len =>
      if le len (JNum 2) then
        let '(st1, ts) := fetchSessions st in (st1, ts, Ok tt)
      else (st, [], Ok tt)
  end.

(** The body of the [try] of [sendMessage] after the reply has been
    parsed. *)
Definition process_reply (data : jsval) (st : state) : state * list task * res unit :=
  match addMessage (JStr "") false data true st with
  | (st1, Throw e) => (st1, [], Throw e)
  | (st1, Ok _) =>
      match update_tutorial data st1 with
      | Throw e => (st1, [], Throw e)
      | Ok st2 =>
          match append_assistant data st2 with
          | Throw e => (st2, [], Throw e)
          | Ok st3 =>
              match get data "conversation_history" with
              | Throw e => (st3, [], Throw e)
              | Ok conversation_history =>
                  match reconcile conversation_history st3 with
                  | (st4, Throw e) => (st4, [], Throw e)
                  | (st4, Ok _) => refresh_after_send st4
                  end
              end
          end
      end
  end.

(** [sendMessage] from the response of the chat endpoint on. *)
Definition chat_resume (resp : response) (st : state) : state * list task :=
  match resp with
  | Rejected => (send_failed NetworkError st, [])
  | Http status body =>
      let st1 := removeTypingIndicator st in
      if negb (status_ok status) then
        (send_failed (Error ("HTTP error " ++ string_of_Z status)) st1, [])
      else
        match body with
        | None => (send_failed SyntaxError st1, [])
        | Some data =>
            match process_reply data st1 with
            | (st2, ts, Ok _) => (set_sendBtn_disabled false st2, ts)
            | (st2, _, Throw e) => (send_failed e st2, [])
            end
        end
  end.

(** A continuation runs on the response it waited for. *)
Definition resume (t : task) (resp : response) (st : state) : state * list task :=
  match t with
  | AwaitSessions => fetchSessions_resume resp st
  | AwaitSession _ => (selectSession_resume resp st, [])
  | AwaitCreate message => create_resume message resp st
  | AwaitChat _ => chat_resume resp st
  | AwaitDelete sessionId => confirmDelete_resume sessionId resp st
  | AwaitRename => renameSession_resume resp st
  end.

(** One send with nothing else in between: the responses of the session
    endpoint (asked only when there is no active session) and of the chat
    endpoint are [create] and [chat].  What is left are the refreshes of the
    session list that were started. *)
Definition send_roundtrip (create chat : response) (st : state) : state * list task :=
  let '(st1, ts1) := sendMessage st in
  match ts1 with
  | [AwaitCreate message] =>
      let '(st2, ts2) := resume (AwaitCreate message) create st1 in
      match ts2 with
      | [AwaitChat message'] => resume (AwaitChat message') chat st2
      | _ => (st2, ts2)
      end
  | [AwaitChat message] => resume (AwaitChat message) chat st1
  | _ => (st1, ts1)
  end.

(** The user types [text] into the message field; the [input] listener
    enables the send button when the text is not blank. *)
Definition type_input (text : string) (st : state) : state :=
  set_sendBtn_disabled (trim text =? "")%string (set_messageInput text st).

(** * Notions used in the statements *)

Local Open Scope string_scope.
Local Open Scope list_scope.

(** A property that is read without throwing. *)
Definition field (v : jsval) (k : string) : jsval :=
  match get v k with
  | Ok x => x
  | Throw _ => JUndef
  end.

(** The text of a field that holds a string; an absent field has none. *)
Definition text_of (v : jsval) : string :=
  match v with
  | JStr s => s
  | _ => EmptyString
  end.

Definition is_text (v : jsval) : bool :=
  match v with
  | JStr _ | JUndef | JNull => true
  | _ => false
  end.

(** The rule in the words of the specification: a tutorial gives [content],
    a space and [summary]; a clarification gives [clarified_step.clarified]
    and falls back to [content]; every other type gives [content]; the text
    is trimmed. *)
Definition specified_text (data : jsval) : string :=
  let type := field data "type" in
  let content := text_of (field data "content") in
  if strict_eq type (JStr "tutorial") then
    trim (content ++ " " ++ text_of (field data "summary"))%string
  else if strict_eq type (JStr "tutorial_clarify") then
    let clarified := text_of (field (field data "clarified_step") "clarified") in
    trim (if (clarified =? "")%string then content else clarified)
  else trim content.

(** The specified rule as a statement on the code: the history gets the
    specified text, and nothing when it is empty. *)
Definition appends_specified_text (data : jsval) (st : state) : Prop :=
  append_assistant data st
  = if (specified_text data =? "")%string then Ok st
    else history_push (JStr ("Assistant: " ++ specified_text data)) st.

(** The rule the code follows: for a clarification, [content] is used only
    when there is no [clarified_step]; a [clarified_step] without text gives
    the empty text. *)
Definition selected_text (data : jsval) : string :=
  let type := field data "type" in
  let content := text_of (field data "content") in
  if strict_eq type (JStr "tutorial") then
    trim (content ++ " " ++ text_of (field data "summary"))%string
  else if strict_eq type (JStr "tutorial_clarify") then
    let clarified_step := field data "clarified_step" in
    if truthy clarified_step
    then trim (text_of (field clarified_step "clarified"))
    else trim content
  else trim content.

(** A reply whose text fields hold strings, or are absent. *)
Definition text_fields_typed (data : jsval) : bool :=
  is_text (field data "content")
  && is_text (field data "summary")
  && (negb (truthy (field data "clarified_step"))
      || is_text (field (field data "clarified_step") "clarified")).

Definition clarify_without_text : jsval :=
  JObj [("type", JStr "tutorial_clarify");
        ("content", JStr "Open the gear menu");
        ("clarified_step", JObj [("step_number", JNum 2)])].

Definition clarify_with_empty_text : jsval :=
  JObj [("type", JStr "tutorial_clarify");
        ("content", JStr "Open the gear menu");
        ("clarified_step", JObj [("step_number", JNum 2); ("clarified", JStr "")])].

Definition tutorial_with_summary : jsval :=
  JObj [("type", JStr "tutorial"); ("content", JStr "Here is how");
        ("summary", JStr "done")].

(** [st'] is [st] but for the local history. *)
Definition history_only (st st' : state) : Prop :=
  exists h, st' = set_chatStateHistory h st.

(** Whether the reply gets rendered: [addMessage] returns. *)
Definition rendered (data : jsval) : bool :=
  match assistant_content (JStr "") data true with
  | Ok _ => true
  | Throw _ => false
  end.

(** What the rendering of a reply leaves in the content of its message:
    the content, or what was put into it before the rendering threw. *)
Definition rendering_left (data : jsval) : list markup :=
  match assistant_content (JStr "") data true with
  | Ok content => content
  | Throw _ => thrown_content (JStr "") data true
  end.

(** Whether the reply is a tutorial with an array of steps. *)
Definition tutorial_with_steps (data : jsval) : bool :=
  strict_eq (field data "type") (JStr "tutorial") && is_array (field data "steps").

(** The message by which a failed send is shown. *)
Definition generic_error : element :=
  Message false [El "div" "" [Marked "Sorry, something went wrong. Try again."]].

(** The [try] of [sendMessage] throws on the response of the chat endpoint:
    the request was rejected, the status is not 2xx, the body is not JSON, or
    the processing of the reply throws. *)
Definition chat_failed (resp : response) (st : state) : bool :=
  match resp with
  | Rejected => true
  | Http status body =>
      negb (status_ok status)
      || match body with
         | None => true
         | Some data =>
             match snd (process_reply data (removeTypingIndicator st)) with
             | Throw _ => true
             | Ok _ => false
             end
         end
  end.

Definition waiting_for_reply : state :=
  showTypingIndicator
    (set_chatStateHistory (JArr [JStr "User: hi"]) (initial None)).

(** The state in which [sendMessage] sends its first request: the user
    message is shown and in the history, the field is empty, the button
    disabled, the indicator shown. *)
Definition sending (message : string) (l : list jsval) (st : state) : state :=
  showTypingIndicator
    (set_sendBtn_disabled true
       (set_messageInput ""
          (set_chatStateHistory (JArr (l ++ [JStr ("User: " ++ message)]))
             (fst (addMessage (JStr message) true JNull true st))))).

(** The page has loaded with no stored session and no chats on the server:
    the landing state. *)
Definition landing : state :=
  fst (fetchSessions_resume (Http 200 (Some (JObj [("sessions", JArr [])])))
         (fst (fetchSessions (initial None)))).

Definition tutorial_two_steps : jsval :=
  JObj [("type", JStr "tutorial");
        ("content", JStr "Here is how to add a region.");
        ("steps",
          JArr [JObj [("step_number", JNum 1); ("text", JStr "Open Settings")];
                JObj [("step_number", JNum 2); ("text", JStr "Click Add region");
                      ("image", JStr "/static/images/step2.png")]])].

Definition clarify_step_one : jsval :=
  JObj [("type", JStr "tutorial_clarify");
        ("content", JStr "About step 1:");
        ("clarified_step",
          JObj [("step_number", JNum 1);
                ("clarified", JStr "Settings is the gear icon at the top right.")])].

Definition session_created : response :=
  Http 200 (Some (JObj [("session_id", JStr "A")])).

Definition greeting : jsval :=
  JObj [("type", JStr "general"); ("content", JStr "Hi!")].

(** The first message, "hello", met a network that was down; the user has
    typed the next one. *)
Definition retrying : state :=
  type_input "hello again"
    (fst (send_roundtrip Rejected Rejected (type_input "hello" landing))).

Definition requests_since (before after : state) : list request :=
  skipn (List.length (network before)) (network after).

(** C9 for the send, as stated: when a send creates a session, it refreshes
    the session list. *)
Definition creation_refreshes (create chat : response) (st : state) : Prop :=
  let st' := fst (send_roundtrip create chat st) in
  In PostSessions (requests_since st st') -> In GetSessions (requests_since st st').

Definition response_ok (resp : response) : bool :=
  match resp with
  | Http status _ => status_ok status
  | Rejected => false
  end.

(** Whether the send refreshes the list: it went through and left at most
    two entries in the local history. *)
Definition refresh_due (resp : response) (st : state) : bool :=
  negb (chat_failed resp st)
  && match chatStateHistory (fst (chat_resume resp st)) with
     | JArr l => (List.length l <=? 2)%nat
     | _ => false
     end.

(** The detail of a session arrived: 2xx, with a JSON body that is not
    [null]. *)
Definition session_loaded (resp : response) : bool :=
  match resp with
  | Http status (Some data) =>
      status_ok status
      && match data with JNull | JUndef => false | _ => true end
  | _ => false
  end.

(** A conversation in session "A" that has shown a tutorial. *)
Definition after_tutorial : state :=
  fst (send_roundtrip session_created (Http 200 (Some tutorial_two_steps))
         (type_input "How to add a new region?" landing)).

(** C8 for a selection, as stated: once a different session has been
    selected and the server has answered, the cache is empty. *)
Definition selection_resets_cache (sessionId : jsval) (resp : response)
    (st : state) : Prop :=
  strict_eq (currentSessionId st) sessionId = false ->
  lastTutorialSteps (selectSession_resume resp (fst (selectSession sessionId st)))
  = JArr [].

Definition is_object (v : jsval) : bool :=
  match v with JObj _ => true | _ => false end.

(** The id is the [session_id] of an entry of the list. *)
Definition listed (id : string) (sessions : list jsval) : bool :=
  existsb (fun s => strict_eq (field s "session_id") (JStr id)) sessions.

(** The landing state: no active session, no stored pointer, no history, an
    empty tutorial cache, the welcome page. *)
Definition landed (st : state) : Prop :=
  currentSessionId st = JNull
  /\ activeSessionId st = None
  /\ chatStateHistory st = JArr []
  /\ lastTutorialSteps st = JArr []
  /\ chatHistory st = []
  /\ chatHistory_active st = false
  /\ welcome_hidden st = false
  /\ actions_hidden st = false
  /\ isFirstLoad st = false.

Definition two_sessions : list jsval :=
  [JObj [("session_id", JStr "A"); ("title", JStr "Regions")];
   JObj [("session_id", JStr "B"); ("title", JStr "Areas")]].



(** * More of the client *)

(** ** The recording timer *)

(** [s.padStart(2, "0")]. *)
Definition padStart2 (s : string) : string :=
  match String.length s with
  | O => "00"
  | S O => "0" ++ s
  | S (S _) => s
  end.

(** [updateTimer()]: the text of the recording timer, from [Date.now()] and
    [recordingStartTime], both in milliseconds. *)
Definition timer_text (elapsed : Z) : string :=
  let minutes := padStart2 (string_of_Z (elapsed / 60)) in
  let seconds := padStart2 (string_of_Z (Z.rem elapsed 60)) in
  (minutes ++ ":" ++ seconds)%string.

Definition updateTimer (now recordingStartTime : Z) : string :=
  let elapsed := (now - recordingStartTime) / 1000 in
  timer_text elapsed.

(** ** What happens to the client *)

(** The page loads ([window.onload] is [fetchSessions]); the user types,
    sends, selects or deletes a session, starts a new chat, renames; a
    button or the transcript fills the message field; the response to a
    request arrives and its continuation runs. *)
Inductive event : Type :=
| Loads
| Typed (text : string)
| Filled (text : string)
| Send
| Select (sessionId : jsval)
| NewChat
| AskDelete (sessionId : jsval)
| CancelDelete
| ConfirmDelete
| Rename (sessionId currentTitle newTitle : jsval)
| Arrives (t : task) (resp : response).

Definition step (ev : event) (st : state) : state :=
  match ev with
  | Loads => fst (fetchSessions st)
  | Typed text => type_input text st
  | Filled text => set_messageInput text st
  | Send => fst (sendMessage st)
  | Select sessionId => fst (selectSession sessionId st)
  | NewChat => fst (newChat st)
  | AskDelete sessionId => deleteSession sessionId st
  | CancelDelete => closeConfirmModal st
  | ConfirmDelete => fst (confirmDelete st)
  | Rename sessionId currentTitle newTitle =>
      fst (renameSession sessionId currentTitle newTitle st)
  | Arrives t resp => fst (resume t resp st)
  end.

(** A sequence of events.  A response is handed to the continuation named
    by the event, whether or not that continuation is waiting: the runs of
    the page are among these. *)
Fixpoint run (evs : list event) (st : state) : state :=
  match evs with
  | [] => st
  | ev :: rest => run rest (step ev st)
  end.

(** * Notions used in the further statements *)

(** The digit of a number below ten. *)
Definition digit (n : Z) : ascii := ascii_of_nat (48 + Z.to_nat n).

(** The block of buttons of [renderSuggestedActions]. *)
Definition action_buttons (actions : list jsval) : list markup :=
  [El "div" "suggested-actions"
     [El "div" "suggested-actions-title" [Raw "Suggested Actions"];
      El "div" "suggested-actions-list"
        (map (fun action => Button (dom_string action)) actions)]].

(** The item of the sidebar for a session. *)
Definition item_of (current session : jsval) : sidebar_item :=
  mkItem (field session "session_id")
    (dom_string (or_else (field session "title") (JStr "Untitled Chat")))
    (strict_eq (field session "session_id") current).

Definition is_nullish (v : jsval) : bool :=
  match v with JUndef | JNull => true | _ => false end.

Definition is_indicator (m : element) : bool :=
  match m with TypingIndicator => true | Message _ _ => false end.

(** The stored pointer names the active session, or there is neither. *)
Definition pointer_synced (st : state) : Prop :=
  (currentSessionId st = JNull /\ activeSessionId st = None)
  \/ activeSessionId st = Some (to_str (currentSessionId st)).

(** The detail of a session, when it arrives, has an array as [history], or
    none. *)
Definition history_well_typed (ev : event) : bool :=
  match ev with
  | Arrives (AwaitSession _) (Http _ (Some data)) =>
      match field data "history" with
      | JArr _ => true
      | v => negb (truthy v)
      end
  | _ => true
  end.

(** [wrap cls html]: the [div] put around structured content, when there is
    some. *)
Definition wrap (cls : string) (html : list markup) : list markup :=
  if nonempty html then [El "div" cls html] else [].

(** A field that the updates of the conversation (local history, tutorial
    cache, chat area, send button, log, requests) leave alone. *)
Definition kept {A : Type} (p : state -> A) : Prop :=
  (forall v s, p (set_chatStateHistory v s) = p s)
  /\ (forall v s, p (set_lastTutorialSteps v s) = p s)
  /\ (forall v s, p (set_chatHistory v s) = p s)
  /\ (forall v s, p (set_chatHistory_active v s) = p s)
  /\ (forall v s, p (set_welcome_hidden v s) = p s)
  /\ (forall v s, p (set_actions_hidden v s) = p s)
  /\ (forall v s, p (set_sendBtn_disabled v s) = p s)
  /\ (forall l e s, p (console_error l e s) = p s)
  /\ (forall r s, p (fetch r s) = p s).

(** The local history that the detail of a session leaves: the [history]
    of the body, or an empty array when it has none. *)
Definition loaded_history (resp : response) : jsval :=
  match resp with
  | Http _ (Some data) => or_else (field data "history") (JArr [])
  | _ => JArr []
  end.

(** No typing indicator among the messages. *)
Definition no_indicator (shown : list element) : bool :=
  forallb (fun m => negb (is_indicator m)) shown.

(** An array, or absent. *)
Definition is_list (v : jsval) : bool :=
  match v with
  | JArr _ | JUndef | JNull => true
  | _ => false
  end.

Definition items_of (v : jsval) : list jsval :=
  match v with
  | JArr l => l
  | _ => []
  end.

Definition is_string (v : jsval) : bool :=
  match v with JStr _ => true | _ => false end.

(** A step as the renderers expect it: its text, under [key], is a string;
    its [image] is a string, or absent. *)
Definition well_formed_step (key : string) (step : jsval) : bool :=
  negb (is_nullish step)
  && is_string (field step key)
  && is_text (field step "image").

(** A reply of one of the documented shapes: an object whose texts are
    strings or absent and whose lists are arrays or absent; the steps of a
    tutorial and the step of a clarification are well formed; the features
    of the capabilities are not [null]. *)
Definition shaped_reply (data : jsval) : bool :=
  is_object data
  && is_text (field data "content")
  && is_list (field data "suggested_actions")
  && (if strict_eq (field data "type") (JStr "tutorial") then
        is_text (field data "help_note")
        && is_list (field data "steps")
        && forallb (well_formed_step "text") (items_of (field data "steps"))
        && is_text (field data "pro_tip")
        && is_text (field data "completion_message")
      else if strict_eq (field data "type") (JStr "tutorial_clarify") then
        well_formed_step "clarified" (field data "clarified_step")
      else if strict_eq (field data "type") (JStr "capabilities") then
        is_list (field data "features")
        && forallb (fun feature => negb (is_nullish feature))
             (items_of (field data "features"))
      else is_text (field data "completion_message")).

(** A well-formed reply: plain, and of one of the documented shapes. *)
Definition well_formed_reply (data : jsval) : bool :=
  shaped_reply data && plain data.

(** The computation returns: it does not throw. *)
Definition returns {A : Type} (m : res A) : Prop := exists a, m = Ok a.

(** The outcome of the [try] of [sendMessage] on a parsed reply. *)
Definition reply_accepted (data : jsval) (st : state) : bool :=
  match snd (process_reply data st) with
  | Ok _ => true
  | Throw _ => false
  end.

(** The text [mm:ss] of a number of seconds. *)
Definition minutes_seconds (elapsed : Z) : string :=
  String (digit (elapsed / 600))
    (String (digit ((elapsed / 60) mod 10))
       (String ":"
          (String (digit ((elapsed mod 60) / 10))
             (String (digit (elapsed mod 10)) "")))).

(** The local history after a reply: the assistant entry is appended to
    [local] when the text of the reply is not empty, and the result is
    replaced by the history of the server when that is an array at least as
    long. *)
Definition history_after_reply (data : jsval) (local : list jsval) : list jsval :=
  let appended :=
    local ++ (if (selected_text data =? "")%string then []
              else [JStr ("Assistant: " ++ selected_text data)]) in
  match field data "conversation_history" with
  | JArr server =>
      if (List.length appended <=? List.length server)%nat then server else appended
  | _ => appended
  end.

(** The image of a well-formed step, when it has one. *)
Definition step_picture (step : jsval) : list markup :=
  match field step "image" with
  | JStr s =>
      if (s =? "")%string then []
      else [Img (if startsWith s "http" then Absolute s else OnOrigin s)
                ("Step " ++ to_str (field step "step_number"))]
  | _ => []
  end.

(** The item that shows a well-formed step of a tutorial. *)
Definition step_item (step : jsval) : markup :=
  El "div" "step-item"
    (El "div" "step-header"
       [El "div" "step-number" [Raw (to_str (field step "step_number"))];
        El "div" "step-text" [Marked (text_of (field step "text"))]]
     :: step_picture step).

(** The blocks of a rendered tutorial around its steps. *)
Definition help_note_block (help_note : jsval) : list markup :=
  match help_note with
  | JStr s => if (s =? "")%string then [] else [El "div" "help-note" [Marked s]]
  | _ => []
  end.

Definition steps_block (steps : list jsval) : list markup :=
  match steps with
  | [] => []
  | _ :: _ => [El "div" "steps-container" (map step_item steps)]
  end.

Definition actions_block (actions : jsval) : list markup :=
  match actions with
  | JArr (action :: rest) => action_buttons (action :: rest)
  | _ => []
  end.

(** The chat area is in conversation mode: the welcome content and the
    quick actions are hidden. *)
Definition conversation_mode (st : state) : bool :=
  chatHistory_active st && welcome_hidden st && actions_hidden st.

(** The chat area is in welcome mode. *)
Definition welcome_mode (st : state) : bool :=
  negb (chatHistory_active st) && negb (welcome_hidden st)
  && negb (actions_hidden st).

(** The answer of the session endpoint gives no session: the request was
    rejected, the body is not JSON, or the body is [null]. *)
Definition create_failed (resp : response) : bool :=
  match resp with
  | Rejected => true
  | Http _ None => true
  | Http _ (Some sessData) => is_nullish sessData
  end.

(** The [try] of [sendMessage] throws at one of its two steps: on the answer
    of the session endpoint, or on the response of the chat endpoint. *)
Definition send_step_failed (t : task) (resp : response) (st : state) : bool :=
  match t with
  | AwaitCreate _ => create_failed resp
  | AwaitChat _ => chat_failed resp st
  | _ => false
  end.

(** The chat area after the step has failed: the typing indicator is
    removed, by the [catch] and, once the chat endpoint has answered, by line
    665 before it; a reply whose processing throws has been given its
    message; the generic message comes last. *)
Definition page_after_failure (t : task) (resp : response) (st : state)
  : list element :=
  let shown := remove_first_indicator (chatHistory st) in
  match t, resp with
  | AwaitChat _, Http status (Some data) =>
      if status_ok status
      then remove_first_indicator shown
           ++ [Message false (rendering_left data); generic_error]
      else remove_first_indicator shown ++ [generic_error]
  | AwaitChat _, Http _ None => remove_first_indicator shown ++ [generic_error]
  | _, _ => shown ++ [generic_error]
  end.

(** The ids and bodies that the event brings are plain. *)
Definition plain_event (ev : event) : bool :=
  match ev with
  | Select sessionId | AskDelete sessionId => plain sessionId
  | Rename sessionId currentTitle newTitle =>
      plain sessionId && plain currentTitle && plain newTitle
  | Arrives t resp =>
      match t with
      | AwaitSession sessionId | AwaitDelete sessionId => plain sessionId
      | _ => true
      end
      && match resp with
         | Http _ (Some data) => plain data
         | _ => true
         end
  | Loads | Typed _ | Filled _ | Send | NewChat | CancelDelete | ConfirmDelete =>
      true
  end.

(** The body of the response, when it has one, is plain. *)
Definition plain_body (resp : response) : bool :=
  match resp with
  | Http _ (Some data) => plain data
  | _ => true
  end.

(** What the response of the chat endpoint adds to the chat area: the
    message of the reply, with what its rendering has left in it, followed
    by the generic message unless the reply is rendered and is not [null];
    the generic message alone when no reply has arrived. *)
Definition chat_answer (chat : response) : list element :=
  match chat with
  | Http status (Some data) =>
      if status_ok status then
        Message false (rendering_left data)
        :: (if rendered data && negb (is_nullish data) then []
            else [generic_error])
      else [generic_error]
  | _ => [generic_error]
  end.

(** What one send adds to the chat area after the message of the user. *)
Definition send_answer (create chat : response) (st : state) : list element :=
  if truthy (currentSessionId st) then chat_answer chat
  else if create_failed create then [generic_error]
  else chat_answer chat.

(** The stored session has been selected when the page loaded: it is the
    active session and stays in the store, the first load is over, the list
    is asked for again and the detail of the session is asked for (after the
    list the page asked for when it loaded), and the conversation is empty
    until the detail arrives. *)
Definition selected_on_load (id : string) (restored : state * list task) : Prop :=
  currentSessionId (fst restored) = JStr id
  /\ activeSessionId (fst restored) = Some id
  /\ isFirstLoad (fst restored) = false
  /\ network (fst restored) = [GetSessions; GetSessions; GetSession id]
  /\ snd restored = [AwaitSessions; AwaitSession (JStr id)]
  /\ chatStateHistory (fst restored) = JArr []
  /\ lastTutorialSteps (fst restored) = JArr []
  /\ chatHistory (fst restored) = [].

(** The client has landed when the page loaded: the landing state, and the
    list asked for again. *)
Definition landed_on_load (restored : state * list task) : Prop :=
  landed (fst restored)
  /\ snd restored = [AwaitSessions]
  /\ network (fst restored) = [GetSessions; GetSessions].




(** * Properties *)

(** ** Reading a field of an updated state *)

(** [state_simpl] rewrites a field read from an updated state, one update at
    a time, by an equation proved on a state variable. *)
Ltac is_update f :=
  let h := lazymatch f with
           | ?h _ _ => h
           | ?h _ => h
           | ?h => h
           end in
  lazymatch h with
  | set_chatStateHistory => idtac
  | set_lastTutorialSteps => idtac
  | set_currentSessionId => idtac
  | set_isFirstLoad => idtac
  | set_sessionToDelete => idtac
  | set_activeSessionId => idtac
  | set_messageInput => idtac
  | set_sendBtn_disabled => idtac
  | set_chatHistory => idtac
  | set_chatHistory_active => idtac
  | set_welcome_hidden => idtac
  | set_actions_hidden => idtac
  | set_confirmModal_active => idtac
  | set_sidebarContent => idtac
  | console_error => idtac
  | fetch => idtac
  end.

Ltac state_simpl :=
  repeat match goal with
         | |- context [?p (?f ?s)] =>
             lazymatch type of p with state -> _ => idtac end;
             is_update f;
             let s' := fresh "s" in
             let H := fresh "H" in
             let rhs := constr:(fun s' : state =>
                                  ltac:(let r := eval cbn
                                                   [p set_chatStateHistory set_lastTutorialSteps
                                                    set_currentSessionId set_isFirstLoad
                                                    set_sessionToDelete set_activeSessionId
                                                    set_messageInput set_sendBtn_disabled
                                                    set_chatHistory set_chatHistory_active
                                                    set_welcome_hidden set_actions_hidden
                                                    set_confirmModal_active set_sidebarContent
                                                    console_error fetch]
                                                 in (p (f s')) in
                                        exact r)) in
             assert (H : forall s' : state, p (f s') = rhs s') by (intro; reflexivity);
             cbv beta in H; rewrite (H s); clear H
         end.

(** ** What the rendering leaves alone *)

Ltac addMessage_cases :=
  unfold addMessage; simpl;
  repeat match goal with
         | |- context [match chatHistory ?s with _ => _ end] => destruct (chatHistory s)
         | |- context [if ?b then _ else _] => destruct b
         | |- context [match assistant_content ?t ?d ?a with _ => _ end] =>
             destruct (assistant_content t d a)
         end; reflexivity.

Lemma addMessage_chatStateHistory text isUser responseData animate st :
  chatStateHistory (fst (addMessage text isUser responseData animate st))
  = chatStateHistory st.
Proof. addMessage_cases. Qed.

Lemma addMessage_lastTutorialSteps text isUser responseData animate st :
  lastTutorialSteps (fst (addMessage text isUser responseData animate st))
  = lastTutorialSteps st.
Proof. addMessage_cases. Qed.

Lemma addMessage_currentSessionId text isUser responseData animate st :
  currentSessionId (fst (addMessage text isUser responseData animate st))
  = currentSessionId st.
Proof. addMessage_cases. Qed.

Lemma addMessage_activeSessionId text isUser responseData animate st :
  activeSessionId (fst (addMessage text isUser responseData animate st))
  = activeSessionId st.
Proof. addMessage_cases. Qed.

Lemma addMessage_network text isUser responseData animate st :
  network (fst (addMessage text isUser responseData animate st)) = network st.
Proof. addMessage_cases. Qed.

Lemma addMessage_console text isUser responseData animate st :
  console (fst (addMessage text isUser responseData animate st)) = console st.
Proof. addMessage_cases. Qed.

Lemma addMessage_chatHistory text isUser responseData animate st :
  exists content,
    chatHistory (fst (addMessage text isUser responseData animate st))
    = chatHistory st ++ [Message isUser content].
Proof.
  unfold addMessage. destruct st as [? ? ? ? ? ? ? ? shown ? ? ? ? ? ? ?]; simpl.
  destruct isUser.
  - eexists. destruct shown; reflexivity.
  - destruct (assistant_content text responseData animate);
      eexists; destruct shown; reflexivity.
Qed.

(** ** Empty input *)

(** C10.  A send with a blank message field does nothing: the state is the
    one before, whole (history, session, tutorial cache, message field, page
    and requests sent), and no continuation is left waiting. *)
Theorem sendMessage_blank_noop (st : state) :
  trim (messageInput st) = "" ->
  sendMessage st = (st, []).
Proof.
  intros Hblank. unfold sendMessage. rewrite Hblank. reflexivity.
Qed.

Lemma sendMessage_blank_noop_witness :
  sendMessage (set_messageInput "   " (initial None))
  = (set_messageInput "   " (initial None), []).
Proof.
  apply (sendMessage_blank_noop (set_messageInput "   " (initial None))).
  reflexivity.
Defined.

(** ** Reconciliation *)

Lemma push_all_array (items l : list jsval) (st : state) :
  chatStateHistory st = JArr l ->
  push_all items st = (set_chatStateHistory (JArr (l ++ items)) st, Ok tt).
Proof.
  revert l st. induction items as [|item items IH]; intros l st Hl.
  - simpl. rewrite app_nil_r, <- Hl. destruct st; reflexivity.
  - simpl. unfold history_push. rewrite Hl.
    rewrite (IH (l ++ [item])) by reflexivity.
    rewrite <- app_assoc. reflexivity.
Qed.

Lemma ge_lengths (n m : nat) :
  ge (JNum (Z.of_nat n)) (JNum (Z.of_nat m)) = (m <=? n)%nat.
Proof.
  unfold ge, num_cmp; simpl.
  destruct (Nat.leb_spec m n); [apply Z.geb_le | rewrite Z.geb_leb; apply Z.leb_gt]; lia.
Qed.

Lemma reconcile_array (conversation_history : jsval) (local : list jsval)
    (st : state) :
  chatStateHistory st = JArr local ->
  reconcile conversation_history st
  = (match conversation_history with
     | JArr server =>
         if (List.length local <=? List.length server)%nat
         then set_chatStateHistory (JArr server) st
         else st
     | _ => st
     end, Ok tt).
Proof.
  intros Hlocal. unfold reconcile.
  destruct conversation_history as [| | b | n | s | server | ps]; try reflexivity.
  rewrite Hlocal. simpl get. cbv iota. rewrite ge_lengths.
  destruct (List.length local <=? List.length server)%nat; [|reflexivity].
  simpl clear_history.
  rewrite (push_all_array server []) by reflexivity.
  reflexivity.
Qed.

(** C1.  With a local history of length L: a returned [conversation_history]
    that is an array of length S >= L replaces the local history, element
    for element and in order; one with S < L, or anything that is not an
    array, leaves the state as it is.  Reconciliation never throws. *)
Theorem reconcile_monotone (conversation_history : jsval) (local : list jsval)
    (st : state) :
  chatStateHistory st = JArr local ->
  reconcile conversation_history st
  = (match conversation_history with
     | JArr server =>
         if (List.length local <=? List.length server)%nat
         then set_chatStateHistory (JArr server) st
         else st
     | _ => st
     end, Ok tt).
Proof. exact (reconcile_array conversation_history local st). Qed.

Lemma reconcile_monotone_witness :
  reconcile (JArr [JStr "User: hi"; JStr "Assistant: hello"])
    (set_chatStateHistory (JArr [JStr "User: hi"]) (initial None))
  = (set_chatStateHistory (JArr [JStr "User: hi"; JStr "Assistant: hello"])
       (set_chatStateHistory (JArr [JStr "User: hi"]) (initial None)), Ok tt).
Proof.
  apply (reconcile_monotone (JArr [JStr "User: hi"; JStr "Assistant: hello"])
           [JStr "User: hi"]).
  reflexivity.
Defined.

(** ** The text a reply leaves in the history *)

(** C2, as stated, fails: for a clarification whose [clarified_step] has no
    [clarified] text (absent, or empty) the specified rule falls back to
    [content], "Open the gear menu", and the code derives the empty text and
    appends nothing. *)
Lemma clarify_fallback_counterexample :
  (specified_text clarify_without_text = "Open the gear menu"
   /\ assistantText clarify_without_text = Ok (JStr "")
   /\ ~ appends_specified_text clarify_without_text
          (set_chatStateHistory (JArr [JStr "User: clarify step 2"]) (initial None)))
  /\ (specified_text clarify_with_empty_text = "Open the gear menu"
      /\ assistantText clarify_with_empty_text = Ok (JStr "")
      /\ ~ appends_specified_text clarify_with_empty_text
             (set_chatStateHistory (JArr [JStr "User: clarify step 2"]) (initial None))).
Proof.
  split; (split; [reflexivity|]; split; [reflexivity|]);
    unfold appends_specified_text; vm_compute; discriminate.
Qed.

Lemma or_else_text (v : jsval) :
  is_text v = true -> or_else v (JStr "") = JStr (text_of v).
Proof.
  destruct v as [| | b | n | s | l | ps]; try discriminate; intros _;
    try reflexivity.
  unfold or_else; simpl. destruct (String.eqb_spec s ""); subst; reflexivity.
Qed.

Lemma truthy_get (v : jsval) (k : string) :
  truthy v = true -> get v k = Ok (field v k).
Proof.
  unfold field. destruct v; try discriminate; reflexivity.
Qed.

Lemma object_get (ps : list (string * jsval)) (k : string) :
  get (JObj ps) k = Ok (field (JObj ps) k).
Proof. reflexivity. Qed.

(** The text before trimming, on a reply object with typed text fields. *)
Lemma assistantText_selected (ps : list (string * jsval)) :
  text_fields_typed (JObj ps) = true ->
  exists text,
    assistantText (JObj ps) = Ok (JStr text) /\ trim text = selected_text (JObj ps).
Proof.
  unfold text_fields_typed. rewrite !andb_true_iff. intros [[Hc Hs] Hcs].
  unfold assistantText, selected_text. rewrite !object_get. simpl bind.
  set (data := JObj ps) in *.
  rewrite (or_else_text _ Hc).
  destruct (strict_eq (field data "type") (JStr "tutorial")).
  - simpl. rewrite (or_else_text _ Hs). eexists; split; reflexivity.
  - destruct (strict_eq (field data "type") (JStr "tutorial_clarify")).
    + simpl. destruct (truthy (field data "clarified_step")) eqn:Hstep.
      * rewrite (truthy_get _ "clarified" Hstep). simpl in Hcs |- *.
        rewrite (or_else_text _ Hcs). eexists; split; reflexivity.
      * eexists; split; reflexivity.
    + eexists; split; reflexivity.
Qed.

Lemma truthy_text (t : string) : truthy (JStr t) = negb (t =? "")%string.
Proof. reflexivity. Qed.

(** C2, amended.  For a reply object whose text fields hold strings (or are
    absent) and a local history that is an array: a tutorial leaves
    [content], a space and [summary]; a clarification leaves
    [clarified_step.clarified] when it has a [clarified_step] (the empty
    text when that step has no [clarified]) and [content] only when it has
    no [clarified_step]; every other type leaves [content]; the text is
    trimmed and appended as one "Assistant: " entry, and nothing is appended
    when it is empty. *)
Theorem derived_text_selection (ps : list (string * jsval)) (local : list jsval)
    (st : state) :
  text_fields_typed (JObj ps) = true ->
  chatStateHistory st = JArr local ->
  append_assistant (JObj ps) st
  = Ok (if (selected_text (JObj ps) =? "")%string then st
        else set_chatStateHistory
               (JArr (local ++ [JStr ("Assistant: " ++ selected_text (JObj ps))])) st).
Proof.
  intros Htyped Hlocal.
  destruct (assistantText_selected ps Htyped) as [text [Htext Htrim]].
  unfold append_assistant. rewrite Htext. unfold bind, trim_val.
  rewrite truthy_text, Htrim.
  destruct (selected_text (JObj ps) =? "")%string; simpl; [reflexivity|].
  unfold history_push. rewrite Hlocal. reflexivity.
Qed.

Lemma derived_text_selection_witness :
  append_assistant tutorial_with_summary
    (set_chatStateHistory (JArr [JStr "User: how?"]) (initial None))
  = Ok (set_chatStateHistory
          (JArr [JStr "User: how?"; JStr "Assistant: Here is how done"])
          (set_chatStateHistory (JArr [JStr "User: how?"]) (initial None))).
Proof.
  apply (derived_text_selection
           [("type", JStr "tutorial"); ("content", JStr "Here is how");
            ("summary", JStr "done")]
           [JStr "User: how?"]); reflexivity.
Defined.

(** The two examples of the specification. *)
Example derived_text_tutorial :
  selected_text tutorial_with_summary = "Here is how done".
Proof. reflexivity. Qed.

Example derived_text_clarify :
  selected_text
    (JObj [("type", JStr "tutorial_clarify");
           ("clarified_step", JObj [("clarified", JStr "Click the gear icon")])])
  = "Click the gear icon".
Proof. reflexivity. Qed.

(** Where the two rules part: only on a clarification that has a
    [clarified_step] without text. *)
Lemma specified_text_selected (data : jsval) :
  specified_text data = selected_text data
  \/ (strict_eq (field data "type") (JStr "tutorial_clarify") = true
      /\ truthy (field data "clarified_step") = true
      /\ text_of (field (field data "clarified_step") "clarified") = "").
Proof.
  unfold specified_text, selected_text.
  destruct (strict_eq (field data "type") (JStr "tutorial")); [left; reflexivity|].
  destruct (strict_eq (field data "type") (JStr "tutorial_clarify"));
    [|left; reflexivity].
  destruct (truthy (field data "clarified_step")) eqn:Hstep.
  - destruct (String.eqb_spec
                (text_of (field (field data "clarified_step") "clarified")) "")
      as [Hempty|Hfull].
    + right. auto.
    + left. reflexivity.
  - left.
    assert (Hnone : field (field data "clarified_step") "clarified" = JUndef).
    { destruct (field data "clarified_step") as [| | b | n | s | l | qs];
        try discriminate; reflexivity. }
    rewrite Hnone. reflexivity.
Qed.

(** ** What the steps of the send pipeline change *)

Lemma get_ok_field (v : jsval) (k : string) (x : jsval) :
  get v k = Ok x -> forall k', get v k' = Ok (field v k').
Proof.
  unfold field. destruct v; simpl; intros H k'; try discriminate; reflexivity.
Qed.

Lemma get_field (v : jsval) (k : string) (x : jsval) :
  get v k = Ok x -> x = field v k.
Proof. unfold field. intros ->. reflexivity. Qed.

Lemma strict_eq_string (v : jsval) (s : string) :
  strict_eq v (JStr s) = true -> v = JStr s.
Proof.
  destruct v; simpl; try discriminate.
  intros H. apply String.eqb_eq in H. subst. reflexivity.
Qed.

Lemma history_push_inv (item : jsval) (st st' : state) :
  history_push item st = Ok st' ->
  exists l, chatStateHistory st = JArr l
            /\ st' = set_chatStateHistory (JArr (l ++ [item])) st.
Proof.
  unfold history_push. destruct (chatStateHistory st) eqn:Hh; try discriminate.
  intros H. injection H as <-. eauto.
Qed.

Lemma history_push_array (item : jsval) (l : list jsval) (st : state) :
  chatStateHistory st = JArr l ->
  history_push item st = Ok (set_chatStateHistory (JArr (l ++ [item])) st).
Proof. unfold history_push. intros ->. reflexivity. Qed.

Lemma update_tutorial_inv (data : jsval) (st st' : state) :
  update_tutorial data st = Ok st' ->
  (strict_eq (field data "type") (JStr "tutorial") && is_array (field data "steps") = true
   /\ st' = set_lastTutorialSteps (field data "steps") st)
  \/ (strict_eq (field data "type") (JStr "tutorial") && is_array (field data "steps") = false
      /\ st' = st).
Proof.
  unfold update_tutorial.
  destruct (get data "type") as [type|e] eqn:Htype; [|discriminate].
  rewrite (get_ok_field _ _ _ Htype "steps").
  rewrite (get_field _ _ _ Htype). simpl bind.
  destruct (strict_eq (field data "type") (JStr "tutorial")
            && is_array (field data "steps")); intros H; injection H as <-; auto.
Qed.

Lemma append_assistant_inv (data : jsval) (st st' : state) :
  append_assistant data st = Ok st' ->
  st' = st
  \/ exists l text, chatStateHistory st = JArr l
                    /\ st' = set_chatStateHistory (JArr (l ++ [JStr text])) st.
Proof.
  unfold append_assistant, bind.
  destruct (assistantText data) as [text|e]; [|discriminate].
  destruct (trim_val text) as [trimmed|e]; [|discriminate].
  destruct (truthy (JStr trimmed)).
  - intros H. apply history_push_inv in H. destruct H as [l [Hl ->]]. eauto.
  - intros H. injection H as <-. auto.
Qed.

Lemma refresh_after_send_array (l : list jsval) (st : state) :
  chatStateHistory st = JArr l ->
  refresh_after_send st
  = if (List.length l <=? 2)%nat
    then (fetch GetSessions st, [AwaitSessions], Ok tt)
    else (st, [], Ok tt).
Proof.
  intros Hl. unfold refresh_after_send. rewrite Hl. simpl get. cbv iota.
  unfold le, num_cmp. simpl to_number. cbv iota.
  destruct (Nat.leb_spec (List.length l) 2) as [H|H].
  - replace (Z.of_nat (List.length l) <=? 2)%Z with true; [reflexivity|].
    symmetry. apply Z.leb_le. lia.
  - replace (Z.of_nat (List.length l) <=? 2)%Z with false; [reflexivity|].
    symmetry. apply Z.leb_gt. lia.
Qed.

Lemma snd_addMessage (text responseData : jsval) (animate : bool) (st : state) :
  snd (addMessage text false responseData animate st)
  = match assistant_content text responseData animate with
    | Ok _ => Ok tt
    | Throw e => Throw e
    end.
Proof.
  unfold addMessage. simpl.
  destruct (assistant_content text responseData animate); reflexivity.
Qed.

(** *** A reply that is rendered has a text *)

Lemma typeWriter_string (v : jsval) (m : markup) :
  typeWriter v = Ok m -> exists s, v = JStr s.
Proof.
  unfold typeWriter.
  destruct v as [| | b | n | s | l | ps]; try discriminate; eauto.
  - cbn [get bind]. destruct (gt _ _); discriminate.
  - cbn [get bind]. destruct (gt _ _); discriminate.
Qed.

Lemma text_to_type_string (v : jsval) :
  (truthy (or_else v (JStr "")) = true ->
   exists m, typeWriter (or_else v (JStr "")) = Ok m) ->
  exists s, or_else v (JStr "") = JStr s.
Proof.
  unfold or_else. destruct (truthy v) eqn:Hv; [|eauto].
  intros H. destruct (H Hv) as [m Hm]. exact (typeWriter_string _ _ Hm).
Qed.

Lemma clarify_rendered (data : jsval) (html : list markup) :
  renderTutorialClarifyResponse (dataForRender data) = Ok html ->
  truthy (assoc "clarified_step" (own_props data)) = true
  /\ exists s, field (assoc "clarified_step" (own_props data)) "clarified" = JStr s.
Proof.
  unfold renderTutorialClarifyResponse, dataForRender.
  cbn [get assoc bind String.eqb Ascii.eqb Bool.eqb].
  set (cs := assoc "clarified_step" (own_props data)).
  destruct (get cs "step_number") as [number|e] eqn:Hnumber; [|discriminate].
  rewrite (get_ok_field _ _ _ Hnumber "clarified"). cbn [bind].
  destruct (field cs "clarified") as [| | b | n | s | l | ps] eqn:Hclarified;
    try discriminate.
  intros _. split; [|eauto].
  destruct cs as [| | b | n | s' | l | ps]; try discriminate; reflexivity.
Qed.

(** When [addMessage] returns on a reply that is not [null], the text for
    the history is a string: the [trim] of line 693 does not throw. *)
Lemma rendered_text (data : jsval) (content : list markup) (x : jsval) :
  assistant_content (JStr "") data true = Ok content ->
  get data "type" = Ok x ->
  exists t, assistantText data = Ok (JStr t).
Proof.
  intros Hrender Htype.
  unfold assistantText.
  rewrite Htype, (get_ok_field _ _ _ Htype "content"),
    (get_ok_field _ _ _ Htype "summary"),
    (get_ok_field _ _ _ Htype "clarified_step").
  cbn [bind]. rewrite (get_field _ _ _ Htype).
  destruct (strict_eq (field data "type") (JStr "tutorial")) eqn:Htutorial; [eauto|].
  unfold assistant_content, assistant_parts in Hrender.
  destruct (truthy data) eqn:Hdata.
  - rewrite (truthy_get data "content" Hdata), (truthy_get data "type" Hdata) in Hrender.
    cbn [bind] in Hrender. rewrite Htutorial in Hrender.
    destruct (strict_eq (field data "type") (JStr "tutorial_clarify")) eqn:Hclarify.
    + destruct (renderTutorialClarifyResponse (dataForRender data)) as [html|e] eqn:Hhtml;
        [|discriminate].
      apply clarify_rendered in Hhtml. destruct Hhtml as [Hstep [s Hs]].
      assert (Hsame : assoc "clarified_step" (own_props data) = field data "clarified_step").
      { destruct data; try discriminate; reflexivity. }
      rewrite Hsame in Hstep, Hs. rewrite Hstep, (truthy_get _ "clarified" Hstep), Hs.
      cbn [bind]. unfold or_else. destruct (truthy (JStr s)); eauto.
    + destruct (text_to_type_string (field data "content")) as [s Hs];
        [|rewrite Hs; eauto].
      intros Htruthy.
      destruct (if strict_eq (field data "type") (JStr "capabilities")
                then renderCapabilitiesResponse (dataForRender data)
                else renderRegularResponse (dataForRender data)) as [html|e];
        [|discriminate].
      cbn [bind fst snd] in Hrender. rewrite Htruthy in Hrender.
      destruct (typeWriter (or_else (field data "content") (JStr ""))) as [m|e];
        [eauto|discriminate].
  - destruct data; try discriminate; cbn; eauto.
Qed.

Lemma append_assistant_rendered (data : jsval) (content : list markup) (x : jsval)
    (l : list jsval) (st : state) :
  assistant_content (JStr "") data true = Ok content ->
  get data "type" = Ok x ->
  chatStateHistory st = JArr l ->
  exists st', append_assistant data st = Ok st'.
Proof.
  intros Hrender Htype Hl.
  destruct (rendered_text data content x Hrender Htype) as [text Htext].
  unfold append_assistant, bind. rewrite Htext. unfold trim_val.
  destruct (truthy (JStr (trim text))); [|eauto].
  rewrite (history_push_array _ l) by assumption. eauto.
Qed.

(** What [addMessage] shows of a reply: its content, or what the rendering
    had put into the message when it threw. *)
Lemma addMessage_reply (data : jsval) (st : state) :
  chatHistory (fst (addMessage (JStr "") false data true st))
  = chatHistory st ++ [Message false (rendering_left data)].
Proof.
  unfold addMessage, rendering_left.
  destruct st as [? ? ? ? ? ? ? ? shown ? ? ? ? ? ? ?]; simpl.
  destruct (assistant_content (JStr "") data true); destruct shown; reflexivity.
Qed.

(** When the body of the [try] throws on a reply, with a local history that
    is an array, the history, the tutorial cache and the session are the
    ones before the reply, and the page has one more message, with what the
    rendering has left in it. *)
Lemma process_reply_throw (data : jsval) (l : list jsval) (st st' : state)
    (ts : list task) (e : exn) :
  chatStateHistory st = JArr l ->
  process_reply data st = (st', ts, Throw e) ->
  chatStateHistory st' = JArr l
  /\ lastTutorialSteps st' = lastTutorialSteps st
  /\ currentSessionId st' = currentSessionId st
  /\ activeSessionId st' = activeSessionId st
  /\ console st' = console st
  /\ network st' = network st
  /\ chatHistory st' = chatHistory st ++ [Message false (rendering_left data)]
  /\ ts = [].
Proof.
  intros Hl. unfold process_reply.
  pose proof (addMessage_chatStateHistory (JStr "") false data true st) as Hh.
  pose proof (addMessage_lastTutorialSteps (JStr "") false data true st) as Ht.
  pose proof (addMessage_currentSessionId (JStr "") false data true st) as Hc.
  pose proof (addMessage_activeSessionId (JStr "") false data true st) as Ha.
  pose proof (addMessage_console (JStr "") false data true st) as Hk.
  pose proof (addMessage_network (JStr "") false data true st) as Hn.
  pose proof (addMessage_reply data st) as Hm.
  pose proof (snd_addMessage (JStr "") data true st) as Hr.
  destruct (addMessage (JStr "") false data true st) as [st1 r1];
    cbn [fst snd] in Hh, Ht, Hc, Ha, Hk, Hn, Hm, Hr.
  destruct (assistant_content (JStr "") data true) as [content|e0] eqn:Hrender;
    subst r1.
  2: { intros H; injection H as <- <- <-. rewrite Hh, Hl. auto 10. }
  destruct (update_tutorial data st1) as [st2|e2] eqn:Hupd.
  2: { intros H; injection H as <- <- <-. rewrite Hh, Hl. auto 10. }
  assert (Hget : exists x, get data "type" = Ok x).
  { unfold update_tutorial in Hupd.
    destruct (get data "type") as [x|]; [eauto|discriminate]. }
  destruct Hget as [x Hget].
  assert (Hl2 : chatStateHistory st2 = JArr l).
  { apply update_tutorial_inv in Hupd.
    destruct Hupd as [[_ ->]|[_ ->]]; [state_simpl|]; rewrite Hh; exact Hl. }
  destruct (append_assistant_rendered data content x l st2 Hrender Hget Hl2)
    as [st3 Happ].
  rewrite Happ, (get_ok_field _ _ _ Hget "conversation_history").
  assert (Hl3 : exists l3, chatStateHistory st3 = JArr l3).
  { apply append_assistant_inv in Happ.
    destruct Happ as [->|[l2 [text [_ ->]]]]; [eauto|].
    state_simpl. eauto. }
  destruct Hl3 as [l3 Hl3].
  rewrite (reconcile_array _ l3 st3 Hl3).
  match goal with
  | |- context [refresh_after_send ?s] =>
      assert (Hl4 : exists l4, chatStateHistory s = JArr l4)
  end.
  { destruct (field data "conversation_history"); eauto.
    destruct (List.length l3 <=? List.length items)%nat; [state_simpl|]; eauto. }
  destruct Hl4 as [l4 Hl4].
  rewrite (refresh_after_send_array l4 _ Hl4).
  destruct (List.length l4 <=? 2)%nat; intros H; discriminate.
Qed.

Lemma history_only_refl (st : state) : history_only st st.
Proof. exists (chatStateHistory st). destruct st; reflexivity. Qed.

Lemma history_only_trans (a b c : state) :
  history_only a b -> history_only b c -> history_only a c.
Proof. intros [h ->] [h' ->]. exists h'. reflexivity. Qed.

Lemma history_push_only (item : jsval) (st st' : state) :
  history_push item st = Ok st' -> history_only st st'.
Proof.
  intros H. apply history_push_inv in H. destruct H as [l [_ ->]].
  eexists; reflexivity.
Qed.

Lemma push_all_only (items : list jsval) (st : state) :
  history_only st (fst (push_all items st)).
Proof.
  revert st. induction items as [|item items IH]; intros st; simpl.
  - apply history_only_refl.
  - destruct (history_push item st) as [st1|e] eqn:Hpush; simpl.
    + eapply history_only_trans; [eapply history_push_only; eassumption|apply IH].
    + apply history_only_refl.
Qed.

Lemma reconcile_only (conversation_history : jsval) (st : state) :
  history_only st (fst (reconcile conversation_history st)).
Proof.
  unfold reconcile.
  destruct conversation_history; try apply history_only_refl.
  destruct (get (chatStateHistory st) "length"); [|apply history_only_refl].
  match goal with |- context [if ?b then _ else _] => destruct b end;
    [|apply history_only_refl].
  eapply history_only_trans; [|apply push_all_only].
  eexists; reflexivity.
Qed.

Lemma append_assistant_only (data : jsval) (st st' : state) :
  append_assistant data st = Ok st' -> history_only st st'.
Proof.
  intros H. apply append_assistant_inv in H.
  destruct H as [->|[l [text [_ ->]]]]; [apply history_only_refl|].
  eexists; reflexivity.
Qed.

Lemma refresh_after_send_cases (st : state) :
  refresh_after_send st = (fetch GetSessions st, [AwaitSessions], Ok tt)
  \/ (exists r, refresh_after_send st = (st, [], r)).
Proof.
  unfold refresh_after_send.
  destruct (get (chatStateHistory st) "length") as [len|e]; [|eauto].
  destruct (le len (JNum 2)); simpl; eauto.
Qed.

Lemma process_reply_lastTutorialSteps (data : jsval) (st : state) :
  lastTutorialSteps (fst (fst (process_reply data st)))
  = if rendered data && tutorial_with_steps data
    then field data "steps"
    else lastTutorialSteps st.
Proof.
  unfold process_reply, rendered.
  pose proof (addMessage_lastTutorialSteps (JStr "") false data true st) as Ht.
  pose proof (snd_addMessage (JStr "") data true st) as Hr.
  destruct (addMessage (JStr "") false data true st) as [st1 r1]; simpl in Ht, Hr.
  destruct (assistant_content (JStr "") data true) as [content|e]; subst r1;
    [|exact Ht]. simpl andb.
  destruct (update_tutorial data st1) as [st2|e2] eqn:Hupd.
  - assert (Hcache : lastTutorialSteps st2
                     = if tutorial_with_steps data then field data "steps"
                       else lastTutorialSteps st).
    { apply update_tutorial_inv in Hupd. unfold tutorial_with_steps.
      destruct Hupd as [[-> ->]|[-> ->]]; [reflexivity|exact Ht]. }
    rewrite <- Hcache.
    destruct (append_assistant data st2) as [st3|e3] eqn:Happ; [|reflexivity].
    apply append_assistant_only in Happ. destruct Happ as [h3 ->].
    destruct (get data "conversation_history") as [conv|e4]; [|reflexivity].
    pose proof (reconcile_only conv (set_chatStateHistory h3 st2)) as Hrec.
    destruct (reconcile conv (set_chatStateHistory h3 st2)) as [st4 r4].
    simpl in Hrec. destruct Hrec as [h4 ->].
    destruct r4 as [[]|e5]; [|reflexivity].
    destruct (refresh_after_send_cases (set_chatStateHistory h4 (set_chatStateHistory h3 st2)))
      as [->|[r ->]]; reflexivity.
  - simpl. unfold tutorial_with_steps.
    replace (strict_eq (field data "type") (JStr "tutorial")) with false; [exact Ht|].
    unfold update_tutorial in Hupd. unfold field.
    destruct (get data "type") as [x|e] eqn:Htype; [|reflexivity].
    rewrite (get_ok_field _ _ _ Htype "steps") in Hupd. unfold bind in Hupd.
    destruct (strict_eq x (JStr "tutorial") && is_array (field data "steps"));
      discriminate.
Qed.

Lemma send_failed_frame (e : exn) (st : state) :
  chatStateHistory (send_failed e st) = chatStateHistory st
  /\ lastTutorialSteps (send_failed e st) = lastTutorialSteps st
  /\ currentSessionId (send_failed e st) = currentSessionId st
  /\ activeSessionId (send_failed e st) = activeSessionId st
  /\ network (send_failed e st) = network st
  /\ console (send_failed e st) = console st ++ [("Send error:", e)]
  /\ sendBtn_disabled (send_failed e st) = false.
Proof.
  unfold send_failed, set_sendBtn_disabled.
  cbn [chatStateHistory lastTutorialSteps currentSessionId activeSessionId
       network console sendBtn_disabled].
  rewrite addMessage_chatStateHistory, addMessage_lastTutorialSteps,
    addMessage_currentSessionId, addMessage_activeSessionId,
    addMessage_network, addMessage_console.
  repeat split; reflexivity.
Qed.

Lemma generic_error_content :
  assistant_content (JStr "Sorry, something went wrong. Try again.") JNull true
  = Ok [El "div" "" [Marked "Sorry, something went wrong. Try again."]].
Proof. vm_compute. reflexivity. Qed.

Lemma addMessage_assistant_chatHistory (text responseData : jsval)
    (animate : bool) (st : state) (content : list markup) :
  assistant_content text responseData animate = Ok content ->
  chatHistory (fst (addMessage text false responseData animate st))
  = chatHistory st ++ [Message false content].
Proof.
  intros Hcontent. unfold addMessage. rewrite Hcontent.
  destruct st as [? ? ? ? ? ? ? ? shown ? ? ? ? ? ? ?]; simpl.
  destruct shown; reflexivity.
Qed.

Lemma send_failed_chatHistory (e : exn) (st : state) :
  chatHistory (send_failed e st)
  = remove_first_indicator (chatHistory st) ++ [generic_error].
Proof.
  unfold send_failed. cbn [chatHistory set_sendBtn_disabled].
  rewrite (addMessage_assistant_chatHistory _ _ _ _ _ generic_error_content).
  destruct st; reflexivity.
Qed.

(** ** The tutorial cache *)

Lemma chat_resume_lastTutorialSteps (resp : response) (st : state) :
  lastTutorialSteps (fst (chat_resume resp st))
  = match resp with
    | Http status (Some data) =>
        if status_ok status && rendered data && tutorial_with_steps data
        then field data "steps"
        else lastTutorialSteps st
    | _ => lastTutorialSteps st
    end.
Proof.
  unfold chat_resume. destruct resp as [|status [data|]].
  - apply send_failed_frame.
  - destruct (status_ok status); cbn [negb andb fst].
    + pose proof (process_reply_lastTutorialSteps data (removeTypingIndicator st)) as H.
      destruct (process_reply data (removeTypingIndicator st)) as [[st2 ts] [[]|e]];
        cbn [fst] in H |- *.
      * exact H.
      * destruct (send_failed_frame e st2) as [_ [-> _]]. exact H.
    + destruct (send_failed_frame
                  (Error ("HTTP error " ++ string_of_Z status))
                  (removeTypingIndicator st)) as [_ [-> _]]. reflexivity.
  - destruct (status_ok status); cbn [negb andb fst];
      match goal with
      | |- context [send_failed ?e ?s] =>
          destruct (send_failed_frame e s) as [_ [-> _]]
      end; reflexivity.
Qed.

(** C3.  After the response to a chat request, the tutorial cache holds the
    reply's [steps] exactly when the reply arrived with a 2xx status, was
    rendered, has type [tutorial] and its [steps] is an array; in every other
    case (a [tutorial_clarify], any other type, steps that are not an
    array, a failed request) the cache is the one before. *)
Theorem tutorial_cache_stability (resp : response) (st : state) :
  lastTutorialSteps (fst (chat_resume resp st))
  = match resp with
    | Http status (Some data) =>
        if status_ok status && rendered data && tutorial_with_steps data
        then field data "steps"
        else lastTutorialSteps st
    | _ => lastTutorialSteps st
    end.
Proof. exact (chat_resume_lastTutorialSteps resp st). Qed.

Corollary other_reply_keeps_cache (status : Z) (data : jsval) (st : state) :
  strict_eq (field data "type") (JStr "tutorial") = false ->
  lastTutorialSteps (fst (chat_resume (Http status (Some data)) st))
  = lastTutorialSteps st.
Proof.
  intros Htype. rewrite chat_resume_lastTutorialSteps.
  unfold tutorial_with_steps. rewrite Htype, andb_false_r. reflexivity.
Qed.

(** ** A send that fails *)

Lemma chat_resume_failed (resp : response) (st : state) :
  chat_failed resp st = true ->
  exists e st1,
    chat_resume resp st = (send_failed e st1, [])
    /\ ((st1 = st \/ st1 = removeTypingIndicator st)
        \/ exists data ts,
             process_reply data (removeTypingIndicator st) = (st1, ts, Throw e)).
Proof.
  unfold chat_failed, chat_resume. destruct resp as [|status body].
  - intros _. exists NetworkError, st. auto.
  - destruct (status_ok status); cbn [negb orb].
    + destruct body as [data|].
      * destruct (process_reply data (removeTypingIndicator st))
          as [[st2 ts] [[]|e]] eqn:Hreply; cbn [snd]; [discriminate|].
        intros _. exists e, st2. split; [reflexivity|]. right. eauto.
      * intros _. exists SyntaxError, (removeTypingIndicator st). auto.
    + intros _. eexists _, (removeTypingIndicator st). auto.
Qed.

Lemma remove_first_indicator_message (l : list element) (isUser : bool)
    (content : list markup) :
  remove_first_indicator (l ++ [Message isUser content])
  = remove_first_indicator l ++ [Message isUser content].
Proof.
  induction l as [|m l IH]; [reflexivity|].
  destruct m; cbn [remove_first_indicator app]; [rewrite IH|]; reflexivity.
Qed.

Lemma chat_failure_state (resp : response) (st : state) (local : list jsval) :
  chatStateHistory st = JArr local ->
  chat_failed resp st = true ->
  exists e st1,
    chat_resume resp st = (send_failed e st1, [])
    /\ chatStateHistory st1 = JArr local
    /\ lastTutorialSteps st1 = lastTutorialSteps st
    /\ currentSessionId st1 = currentSessionId st
    /\ activeSessionId st1 = activeSessionId st
    /\ console st1 = console st
    /\ network st1 = network st
    /\ (chatHistory st1 = chatHistory st
        \/ chatHistory st1 = remove_first_indicator (chatHistory st)
        \/ exists content,
             chatHistory st1
             = remove_first_indicator (chatHistory st) ++ [Message false content]).
Proof.
  intros Hlocal Hfailed.
  destruct (chat_resume_failed resp st Hfailed) as [e [st1 [Heq Hst1]]].
  exists e, st1. split; [exact Heq|].
  destruct Hst1 as [[->| ->]|[data [ts Hthrow]]].
  - auto 10.
  - auto 10.
  - eapply process_reply_throw in Hthrow; [|exact Hlocal].
    destruct Hthrow as [H1 [H2 [H3 [H4 [H5 [H6 [H7 _]]]]]]].
    repeat (split; [assumption|]). right. right. eexists. exact H7.
Qed.

Lemma chat_failure_page (message : string) (resp : response) (st : state)
    (local : list jsval) :
  chatStateHistory st = JArr local ->
  chat_failed resp st = true ->
  chatHistory (fst (chat_resume resp st))
  = page_after_failure (AwaitChat message) resp st.
Proof.
  intros Hlocal. unfold chat_failed, chat_resume, page_after_failure. cbv zeta.
  assert (Hshown : chatHistory (removeTypingIndicator st)
                   = remove_first_indicator (chatHistory st))
    by (unfold removeTypingIndicator; state_simpl; reflexivity).
  destruct resp as [|status body].
  - intros _. cbn [fst]. apply send_failed_chatHistory.
  - destruct (status_ok status); cbn [negb orb].
    + destruct body as [data|].
      * assert (Hl : chatStateHistory (removeTypingIndicator st) = JArr local)
          by (unfold removeTypingIndicator; state_simpl; exact Hlocal).
        destruct (process_reply data (removeTypingIndicator st))
          as [[st2 ts] [[]|e]] eqn:Hreply; cbn [snd]; [discriminate|].
        intros _. cbn [fst].
        destruct (process_reply_throw data local _ st2 ts e Hl Hreply)
          as (_ & _ & _ & _ & _ & _ & Hpage & _).
        rewrite send_failed_chatHistory, Hpage, Hshown,
          remove_first_indicator_message, <- app_assoc.
        reflexivity.
      * intros _. cbn [fst]. rewrite send_failed_chatHistory, Hshown. reflexivity.
    + intros _. cbn [fst].
      destruct body; rewrite send_failed_chatHistory, Hshown; reflexivity.
Qed.

Lemma create_resume_failed (message : string) (resp : response) (st : state) :
  create_failed resp = true ->
  exists e, create_resume message resp st = (send_failed e st, []).
Proof.
  unfold create_failed, create_resume.
  destruct resp as [|status [sessData|]]; try (intros _; eexists; reflexivity).
  destruct sessData; try discriminate; intros _; eexists; reflexivity.
Qed.

(** C7.  When the [try] of [sendMessage] throws, on the answer of the
    session endpoint (request rejected, body that is not JSON or is [null])
    or on the response of the chat endpoint (request rejected, status
    outside 2xx, body that does not parse, or a body whose processing
    throws), with a local history that is an array, which already holds the
    optimistic user entry: the local history is exactly the one before the
    response (no assistant text, no reconciliation), the session and the
    stored pointer are unchanged, the error is logged once, no refresh is
    started, no request is sent and the send button is enabled again.  On the
    page the typing indicator goes and the generic message is added, once
    and last; before it stands the message of the reply, with what its
    rendering has left in it, when it is the processing of the reply that
    throws. *)
Theorem send_error_atomicity (t : task) (resp : response) (st : state)
    (local : list jsval) :
  chatStateHistory st = JArr local ->
  send_step_failed t resp st = true ->
  let st' := fst (resume t resp st) in
  chatStateHistory st' = JArr local
  /\ currentSessionId st' = currentSessionId st
  /\ activeSessionId st' = activeSessionId st
  /\ (exists e, console st' = console st ++ [("Send error:", e)])
  /\ chatHistory st' = page_after_failure t resp st
  /\ snd (resume t resp st) = []
  /\ network st' = network st
  /\ sendBtn_disabled st' = false.
Proof.
  intros Hlocal Hfailed st'. subst st'.
  destruct t as [| |message|message| |]; try discriminate; cbn [resume].
  - destruct (create_resume_failed message resp st Hfailed) as [e ->].
    cbn [fst snd].
    destruct (send_failed_frame e st) as [Hh [_ [Hc [Ha [Hn [Hk Hb]]]]]].
    rewrite Hh, Hc, Ha, Hn, Hk, Hb, send_failed_chatHistory.
    repeat split; eauto.
  - cbn [send_step_failed] in Hfailed.
    pose proof (chat_failure_page message resp st local Hlocal Hfailed) as Hpage.
    destruct (chat_failure_state resp st local Hlocal Hfailed)
      as [e [st1 [Heq [H1 [_ [H3 [H4 [H5 [H6 _]]]]]]]]].
    rewrite Heq in Hpage |- *. cbn [fst snd] in Hpage |- *.
    destruct (send_failed_frame e st1) as [Hh [_ [Hc [Ha [Hn [Hk Hb]]]]]].
    rewrite Hh, Hc, Ha, Hn, Hk, Hb, H1, H3, H4, H5, H6.
    repeat split; eauto.
Qed.

Lemma send_error_atomicity_witness :
  let t := AwaitChat "hi" in
  let resp := Http 200 (Some (JObj [("content", JNum 5)])) in
  let st := waiting_for_reply in
  let st' := fst (resume t resp st) in
  chatStateHistory st' = JArr [JStr "User: hi"]
  /\ currentSessionId st' = currentSessionId st
  /\ activeSessionId st' = activeSessionId st
  /\ (exists e, console st' = console st ++ [("Send error:", e)])
  /\ chatHistory st' = page_after_failure t resp st
  /\ snd (resume t resp st) = []
  /\ network st' = network st
  /\ sendBtn_disabled st' = false.
Proof.
  apply (send_error_atomicity (AwaitChat "hi")
           (Http 200 (Some (JObj [("content", JNum 5)]))) waiting_for_reply
           [JStr "User: hi"]);
    vm_compute; reflexivity.
Defined.

(** A reply whose text is a number: the text container of [typeWriter] is
    in its message when [marked] refuses the text. *)
Example failed_send_number_content :
  page_after_failure (AwaitChat "hi")
    (Http 200 (Some (JObj [("content", JNum 5)]))) waiting_for_reply
  = [Message false [El "div" "" []]; generic_error].
Proof. vm_compute. reflexivity. Qed.

(** The failures by kind, and two bodies of the wrong shape. *)
Example chat_failed_rejected (st : state) : chat_failed Rejected st = true.
Proof. reflexivity. Qed.

Example chat_failed_status (body : option jsval) (st : state) :
  chat_failed (Http 500 body) st = true.
Proof. reflexivity. Qed.

Example chat_failed_not_json (status : Z) (st : state) :
  chat_failed (Http status None) st = true.
Proof. unfold chat_failed. apply orb_true_r. Qed.

Example chat_failed_null_body :
  chat_failed (Http 200 (Some JNull)) waiting_for_reply = true.
Proof. reflexivity. Qed.

Example chat_failed_clarify_without_step :
  chat_failed
    (Http 200 (Some (JObj [("type", JStr "tutorial_clarify");
                           ("content", JStr "Step 2 again")])))
    waiting_for_reply = true.
Proof. reflexivity. Qed.

(** ** A send that goes through, and the requests sent *)

Lemma process_reply_ok (data : jsval) (l : list jsval) (st st' : state)
    (ts : list task) :
  chatStateHistory st = JArr l ->
  process_reply data st = (st', ts, Ok tt) ->
  currentSessionId st' = currentSessionId st
  /\ activeSessionId st' = activeSessionId st
  /\ console st' = console st
  /\ exists l',
       chatStateHistory st' = JArr l'
       /\ network st' = network st ++ (if (List.length l' <=? 2)%nat then [GetSessions] else [])
       /\ ts = (if (List.length l' <=? 2)%nat then [AwaitSessions] else [])
       /\ exists appended,
            (appended = l \/ exists text, appended = l ++ [JStr text])
            /\ l' = match field data "conversation_history" with
                    | JArr server =>
                        if (List.length appended <=? List.length server)%nat
                        then server else appended
                    | _ => appended
                    end.
Proof.
  intros Hl. unfold process_reply.
  pose proof (addMessage_chatStateHistory (JStr "") false data true st) as Hh.
  pose proof (addMessage_currentSessionId (JStr "") false data true st) as Hc.
  pose proof (addMessage_activeSessionId (JStr "") false data true st) as Ha.
  pose proof (addMessage_console (JStr "") false data true st) as Hk.
  pose proof (addMessage_network (JStr "") false data true st) as Hn.
  destruct (addMessage (JStr "") false data true st) as [st1 [[]|e1]];
    cbn [fst] in Hh, Hc, Ha, Hk, Hn; [|discriminate].
  destruct (update_tutorial data st1) as [st2|e2] eqn:Hupd; [|discriminate].
  assert (H2 : exists t, st2 = set_lastTutorialSteps t st1).
  { apply update_tutorial_inv in Hupd. destruct Hupd as [[_ ->]|[_ ->]]; eauto.
    exists (lastTutorialSteps st1). destruct st1; reflexivity. }
  destruct H2 as [t ->].
  destruct (append_assistant data (set_lastTutorialSteps t st1)) as [st3|e3] eqn:Happ;
    [|discriminate].
  assert (H3 : exists l3,
             st3 = set_chatStateHistory (JArr l3) (set_lastTutorialSteps t st1)
             /\ (l3 = l \/ exists text, l3 = l ++ [JStr text])).
  { apply append_assistant_inv in Happ.
    destruct Happ as [->|[l2 [text [Hl2 ->]]]].
    - exists l. split; [|auto]. rewrite <- Hl, <- Hh. destruct st1; reflexivity.
    - exists (l2 ++ [JStr text]). split; [reflexivity|]. right. exists text.
      cbn [chatStateHistory set_lastTutorialSteps] in Hl2.
      rewrite Hh, Hl in Hl2. injection Hl2 as <-. reflexivity. }
  destruct H3 as [l3 [-> Hl3]].
  destruct (get data "conversation_history") as [conv|e4] eqn:Hconv; [|discriminate].
  apply get_field in Hconv. subst conv.
  rewrite (reconcile_array _ l3) by reflexivity.
  set (l4 := match field data "conversation_history" with
             | JArr server =>
                 if (List.length l3 <=? List.length server)%nat then server else l3
             | _ => l3
             end).
  match goal with
  | |- context [refresh_after_send ?s] =>
      assert (H4 : s = set_chatStateHistory (JArr l4) (set_lastTutorialSteps t st1))
  end.
  { unfold l4. destruct (field data "conversation_history"); try reflexivity.
    destruct (List.length l3 <=? List.length items)%nat; reflexivity. }
  rewrite H4.
  rewrite (refresh_after_send_array l4) by reflexivity.
  destruct (List.length l4 <=? 2)%nat eqn:Hlen; intros H; injection H as <- <-;
    state_simpl; rewrite Hc, Ha, Hk, Hn; repeat split; exists l4; rewrite Hlen;
    repeat split; try reflexivity; try (rewrite app_nil_r; reflexivity);
    exists l3; split; auto.
Qed.

(** What the response of the chat endpoint can change, for a local history
    that is an array: never the session; the history stays an array; at most
    one request is sent, the refresh of the session list. *)
Lemma chat_resume_frame (resp : response) (st : state) (l : list jsval) :
  chatStateHistory st = JArr l ->
  currentSessionId (fst (chat_resume resp st)) = currentSessionId st
  /\ activeSessionId (fst (chat_resume resp st)) = activeSessionId st
  /\ (exists l', chatStateHistory (fst (chat_resume resp st)) = JArr l')
  /\ ((network (fst (chat_resume resp st)) = network st
       /\ snd (chat_resume resp st) = [])
      \/ (network (fst (chat_resume resp st)) = network st ++ [GetSessions]
          /\ snd (chat_resume resp st) = [AwaitSessions])).
Proof.
  intros Hl. destruct (chat_failed resp st) eqn:Hfailed.
  - destruct (chat_failure_state resp st l Hl Hfailed)
      as [e [st1 [-> [H1 [_ [H3 [H4 [_ [H6 _]]]]]]]]].
    cbn [fst snd].
    destruct (send_failed_frame e st1) as [Hh [_ [Hc [Ha [Hn _]]]]].
    rewrite Hh, Hc, Ha, Hn, H1, H3, H4, H6. repeat split; eauto.
  - unfold chat_failed in Hfailed. unfold chat_resume.
    destruct resp as [|status body]; [discriminate|].
    destruct (status_ok status); [|discriminate]. cbn [negb orb] in Hfailed |- *.
    destruct body as [data|]; [|discriminate].
    pose proof (process_reply_ok data l (removeTypingIndicator st)) as Hok.
    destruct (process_reply data (removeTypingIndicator st))
      as [[st2 ts] [[]|e2]]; [|discriminate].
    destruct (Hok st2 ts Hl eq_refl) as [Hc [Ha [_ [l' [Hh [Hn [Hts _]]]]]]].
    cbn [fst snd chatStateHistory currentSessionId activeSessionId network
         set_sendBtn_disabled].
    rewrite Hc, Ha, Hh, Hn, Hts. repeat split; eauto.
    destruct (List.length l' <=? 2)%nat; [right|left; rewrite app_nil_r]; auto.
Qed.

Lemma sendMessage_array (st : state) (l : list jsval) :
  chatStateHistory st = JArr l ->
  trim (messageInput st) <> "" ->
  sendMessage st
  = let message := trim (messageInput st) in
    let st5 :=
      showTypingIndicator
        (set_sendBtn_disabled true
           (set_messageInput ""
              (set_chatStateHistory (JArr (l ++ [JStr ("User: " ++ message)]))
                 (fst (addMessage (JStr message) true JNull true st))))) in
    if negb (truthy (currentSessionId st))
    then (fetch PostSessions st5, [AwaitCreate message])
    else post_chat message st5.
Proof.
  intros Hl Hm. unfold sendMessage.
  destruct (String.eqb_spec (trim (messageInput st)) ""); [contradiction|].
  rewrite (history_push_array _ l)
    by (rewrite addMessage_chatStateHistory; exact Hl).
  cbv zeta. unfold post_chat, showTypingIndicator. state_simpl.
  rewrite addMessage_currentSessionId, addMessage_lastTutorialSteps. reflexivity.
Qed.

Lemma sending_frame (message : string) (l : list jsval) (st : state) :
  chatStateHistory (sending message l st) = JArr (l ++ [JStr ("User: " ++ message)])
  /\ lastTutorialSteps (sending message l st) = lastTutorialSteps st
  /\ currentSessionId (sending message l st) = currentSessionId st
  /\ activeSessionId (sending message l st) = activeSessionId st
  /\ network (sending message l st) = network st
  /\ console (sending message l st) = console st.
Proof.
  unfold sending, showTypingIndicator. state_simpl.
  rewrite addMessage_lastTutorialSteps, addMessage_currentSessionId,
    addMessage_activeSessionId, addMessage_network, addMessage_console.
  repeat split; reflexivity.
Qed.

Lemma roundtrip_with_session (create chat : response) (st : state) (l : list jsval) :
  chatStateHistory st = JArr l ->
  trim (messageInput st) <> "" ->
  truthy (currentSessionId st) = true ->
  send_roundtrip create chat st
  = chat_resume chat
      (fetch (PostChat (trim (messageInput st)) (currentSessionId st)
                (lastTutorialSteps st))
         (sending (trim (messageInput st)) l st)).
Proof.
  intros Hl Hm Hsession. unfold send_roundtrip.
  rewrite (sendMessage_array st l Hl Hm). cbv zeta. rewrite Hsession.
  fold (sending (trim (messageInput st)) l st).
  unfold post_chat, negb, resume.
  destruct (sending_frame (trim (messageInput st)) l st) as [_ [-> [-> _]]].
  reflexivity.
Qed.

Lemma roundtrip_creating (status : Z) (sessData id : jsval) (chat : response)
    (st : state) (l : list jsval) :
  chatStateHistory st = JArr l ->
  trim (messageInput st) <> "" ->
  truthy (currentSessionId st) = false ->
  get sessData "session_id" = Ok id ->
  send_roundtrip (Http status (Some sessData)) chat st
  = chat_resume chat
      (fetch (PostChat (trim (messageInput st)) id (lastTutorialSteps st))
         (set_activeSessionId (Some (to_str id))
            (set_currentSessionId id
               (fetch PostSessions (sending (trim (messageInput st)) l st))))).
Proof.
  intros Hl Hm Hsession Hid. unfold send_roundtrip.
  rewrite (sendMessage_array st l Hl Hm). cbv zeta. rewrite Hsession.
  fold (sending (trim (messageInput st)) l st).
  unfold negb, resume, create_resume. rewrite Hid. unfold post_chat.
  state_simpl.
  destruct (sending_frame (trim (messageInput st)) l st) as [_ [-> _]].
  reflexivity.
Qed.

(** ** Lazy creation of the session *)

(** C4.  From a state without active session (and a local history that is
    an array), the user sends [m1], then [m2], both not blank, and the
    session endpoint answers with the id [sid], a string that is not empty.
    The first send asks for one session, then sends the chat request with
    [sid]; [sid] is the active id and is in the per-tab store.  The second
    send sends its chat request with the same [sid] and asks for no session.
    Besides these, each send sends at most the refresh of the session
    list. *)
Theorem lazy_session_creation_once (st : state) (local : list jsval)
    (m1 m2 sid : string) (status : Z) (sessData : jsval)
    (chat1 create2 chat2 : response) :
  chatStateHistory st = JArr local ->
  truthy (currentSessionId st) = false ->
  trim m1 <> "" ->
  trim m2 <> "" ->
  get sessData "session_id" = Ok (JStr sid) ->
  sid <> "" ->
  let first := send_roundtrip (Http status (Some sessData)) chat1 (type_input m1 st) in
  let second := send_roundtrip create2 chat2 (type_input m2 (fst first)) in
  exists refresh1 refresh2,
    network (fst first)
    = network st
      ++ [PostSessions; PostChat (trim m1) (JStr sid) (lastTutorialSteps st)]
      ++ refresh1
    /\ network (fst second)
       = network (fst first)
         ++ [PostChat (trim m2) (JStr sid) (lastTutorialSteps (fst first))]
         ++ refresh2
    /\ (refresh1 = [] \/ refresh1 = [GetSessions])
    /\ (refresh2 = [] \/ refresh2 = [GetSessions])
    /\ currentSessionId (fst first) = JStr sid
    /\ activeSessionId (fst first) = Some sid
    /\ currentSessionId (fst second) = JStr sid
    /\ activeSessionId (fst second) = Some sid.
Proof.
  intros Hlocal Hnone Hm1 Hm2 Hid Hsid first second.
  assert (Hfirst : first
                   = chat_resume chat1
                       (fetch (PostChat (trim m1) (JStr sid) (lastTutorialSteps st))
                          (set_activeSessionId (Some sid)
                             (set_currentSessionId (JStr sid)
                                (fetch PostSessions
                                   (sending (trim m1) local (type_input m1 st))))))).
  { unfold first.
    rewrite (roundtrip_creating status sessData (JStr sid) chat1 (type_input m1 st) local);
      auto. }
  set (asked := fetch (PostChat (trim m1) (JStr sid) (lastTutorialSteps st)) _) in Hfirst.
  destruct (sending_frame (trim m1) local (type_input m1 st))
    as [Hh1 [_ [_ [_ [Hn1 _]]]]].
  assert (Hasked : chatStateHistory asked = JArr (local ++ [JStr ("User: " ++ trim m1)])
                   /\ currentSessionId asked = JStr sid
                   /\ activeSessionId asked = Some sid
                   /\ network asked
                      = network st
                        ++ [PostSessions;
                            PostChat (trim m1) (JStr sid) (lastTutorialSteps st)]).
  { unfold asked. state_simpl. rewrite Hh1, Hn1. unfold type_input. state_simpl.
    rewrite <- app_assoc. repeat split; reflexivity. }
  destruct Hasked as [Hh [Hc [Ha Hn]]].
  destruct (chat_resume_frame chat1 asked _ Hh) as [Hc1 [Ha1 [[l1 Hl1] Hreq1]]].
  rewrite <- Hfirst in Hc1, Ha1, Hl1, Hreq1.
  rewrite Hc in Hc1. rewrite Ha in Ha1. rewrite Hn in Hreq1.
  assert (Hsecond : second
                    = chat_resume chat2
                        (fetch (PostChat (trim m2) (JStr sid) (lastTutorialSteps (fst first)))
                           (sending (trim m2) l1 (type_input m2 (fst first))))).
  { unfold second.
    rewrite (roundtrip_with_session create2 chat2 (type_input m2 (fst first)) l1);
      auto.
    - unfold type_input. state_simpl. rewrite Hc1. reflexivity.
    - unfold type_input. state_simpl. rewrite Hc1. unfold truthy.
      destruct (String.eqb_spec sid ""); [contradiction|reflexivity]. }
  set (asked2 := fetch _ _) in Hsecond.
  destruct (sending_frame (trim m2) l1 (type_input m2 (fst first)))
    as [Hh2 [_ [Hc2 [Ha2 [Hn2 _]]]]].
  assert (Hasked2 : chatStateHistory asked2 = JArr (l1 ++ [JStr ("User: " ++ trim m2)])
                    /\ currentSessionId asked2 = JStr sid
                    /\ activeSessionId asked2 = Some sid
                    /\ network asked2
                       = network (fst first)
                         ++ [PostChat (trim m2) (JStr sid) (lastTutorialSteps (fst first))]).
  { unfold asked2. state_simpl. rewrite Hh2, Hc2, Ha2, Hn2.
    unfold type_input. state_simpl.
    rewrite Hc1, Ha1. repeat split; reflexivity. }
  destruct Hasked2 as [Hh' [Hc' [Ha' Hn']]].
  destruct (chat_resume_frame chat2 asked2 _ Hh') as [Hc3 [Ha3 [_ Hreq2]]].
  rewrite <- Hsecond in Hc3, Ha3, Hreq2.
  rewrite Hc' in Hc3. rewrite Ha' in Ha3. rewrite Hn' in Hreq2.
  destruct Hreq1 as [[Hr1 _]|[Hr1 _]]; destruct Hreq2 as [[Hr2 _]|[Hr2 _]];
    [exists [], [] | exists [], [GetSessions]
     | exists [GetSessions], [] | exists [GetSessions], [GetSessions]];
    (split; [rewrite Hr1, <- ?app_assoc, ?app_nil_r; reflexivity|];
     split; [rewrite Hr2, <- ?app_assoc, ?app_nil_r; reflexivity|];
     repeat split; auto).
Qed.

Lemma lazy_session_creation_once_witness :
  currentSessionId
    (fst (send_roundtrip Rejected (Http 200 (Some clarify_step_one))
            (type_input "clarify step 1"
               (fst (send_roundtrip session_created (Http 200 (Some tutorial_two_steps))
                       (type_input "How to add a new region?" landing))))))
  = JStr "A".
Proof.
  destruct (lazy_session_creation_once landing [] "How to add a new region?"
              "clarify step 1" "A" 200 (JObj [("session_id", JStr "A")])
              (Http 200 (Some tutorial_two_steps)) Rejected
              (Http 200 (Some clarify_step_one)))
    as [refresh1 [refresh2 H]].
  - reflexivity.
  - reflexivity.
  - vm_compute. discriminate.
  - vm_compute. discriminate.
  - reflexivity.
  - discriminate.
  - apply H.
Defined.

(** The scenario of the specification: new chat, a question, a tutorial with
    two steps, then "clarify step 1".  The second request carries the two
    steps as [last_tutorial], and the cache still holds them after the
    clarification. *)
Example tutorial_then_clarify :
  let first := send_roundtrip session_created (Http 200 (Some tutorial_two_steps))
                 (type_input "How to add a new region?" landing) in
  let second := send_roundtrip Rejected (Http 200 (Some clarify_step_one))
                  (type_input "clarify step 1" (fst first)) in
  lastTutorialSteps (fst first) = field tutorial_two_steps "steps"
  /\ network (fst second)
     = network (fst first)
       ++ [PostChat "clarify step 1" (JStr "A") (field tutorial_two_steps "steps")]
  /\ lastTutorialSteps (fst second) = field tutorial_two_steps "steps"
  /\ chatStateHistory (fst second)
     = JArr [JStr "User: How to add a new region?";
             JStr "Assistant: Here is how to add a region.";
             JStr "User: clarify step 1";
             JStr "Assistant: Settings is the gear icon at the top right."].
Proof. vm_compute. repeat split; reflexivity. Qed.

(** ** Refreshing the session list *)

(** C9, as stated, fails.  The network is down for the first message, so no
    session is created and the user entry stays in the local history; the
    second message creates the session "A" and is answered: the history has
    three entries, and nothing refreshes the session list.  Nor does
    anything when the first message creates the session and the chat request
    is then rejected. *)
Lemma creation_without_refresh :
  (~ creation_refreshes session_created (Http 200 (Some greeting)) retrying
   /\ snd (send_roundtrip session_created (Http 200 (Some greeting)) retrying) = []
   /\ requests_since retrying
        (fst (send_roundtrip session_created (Http 200 (Some greeting)) retrying))
      = [PostSessions; PostChat "hello again" (JStr "A") (JArr [])]
   /\ chatStateHistory
        (fst (send_roundtrip session_created (Http 200 (Some greeting)) retrying))
      = JArr [JStr "User: hello"; JStr "User: hello again"; JStr "Assistant: Hi!"])
  /\ (~ creation_refreshes session_created Rejected (type_input "hello" landing)
      /\ snd (send_roundtrip session_created Rejected (type_input "hello" landing)) = []
      /\ requests_since landing
           (fst (send_roundtrip session_created Rejected (type_input "hello" landing)))
         = [PostSessions; PostChat "hello" (JStr "A") (JArr [])]).
Proof.
  split; (split; [|repeat split; vm_compute; reflexivity]);
    unfold creation_refreshes; vm_compute; intros H;
    destruct (H (or_introl eq_refl)) as [H'|[H'|[]]]; discriminate.
Qed.

Lemma newChat_refresh (st : state) :
  snd (newChat st) = [AwaitSessions]
  /\ network (fst (newChat st)) = network st ++ [GetSessions].
Proof.
  unfold newChat, fetchSessions. cbn [fst snd]. state_simpl. auto.
Qed.

Lemma confirmDelete_resume_refresh (sessionId : jsval) (resp : response) (st : state) :
  snd (confirmDelete_resume sessionId resp st)
  = (if response_ok resp then [AwaitSessions] else [])
  /\ network (fst (confirmDelete_resume sessionId resp st))
     = network st ++ (if response_ok resp then [GetSessions] else []).
Proof.
  unfold confirmDelete_resume, response_ok. destruct resp as [|status body].
  - cbn [fst snd]. state_simpl. rewrite app_nil_r. auto.
  - destruct (status_ok status).
    + destruct (strict_eq (currentSessionId st) sessionId).
      * destruct (newChat_refresh (set_currentSessionId JNull st)) as [-> ->].
        state_simpl. auto.
      * unfold fetchSessions. cbn [fst snd]. state_simpl. auto.
    + cbn [fst snd]. rewrite app_nil_r. auto.
Qed.

Lemma renameSession_resume_refresh (resp : response) (st : state) :
  snd (renameSession_resume resp st)
  = (if response_ok resp then [AwaitSessions] else [])
  /\ network (fst (renameSession_resume resp st))
     = network st ++ (if response_ok resp then [GetSessions] else []).
Proof.
  unfold renameSession_resume, response_ok. destruct resp as [|status body].
  - cbn [fst snd]. state_simpl. rewrite app_nil_r. auto.
  - destruct (status_ok status).
    + unfold fetchSessions. cbn [fst snd]. state_simpl. auto.
    + cbn [fst snd]. rewrite app_nil_r. auto.
Qed.

Lemma chat_resume_refresh (resp : response) (st : state) (local : list jsval) :
  chatStateHistory st = JArr local ->
  snd (chat_resume resp st)
  = (if refresh_due resp st then [AwaitSessions] else [])
  /\ network (fst (chat_resume resp st))
     = network st ++ (if refresh_due resp st then [GetSessions] else []).
Proof.
  intros Hlocal. unfold refresh_due.
  destruct (chat_failed resp st) eqn:Hfailed; cbn [negb andb].
  - destruct (chat_failure_state resp st local Hlocal Hfailed)
      as [e [st1 [-> [_ [_ [_ [_ [_ [H6 _]]]]]]]]].
    cbn [fst snd]. destruct (send_failed_frame e st1) as [_ [_ [_ [_ [-> _]]]]].
    rewrite H6, app_nil_r. auto.
  - unfold chat_failed in Hfailed. unfold chat_resume.
    destruct resp as [|status body]; [discriminate|].
    destruct (status_ok status); [|discriminate]. cbn [negb orb] in Hfailed |- *.
    destruct body as [data|]; [|discriminate].
    pose proof (process_reply_ok data local (removeTypingIndicator st)) as Hok.
    destruct (process_reply data (removeTypingIndicator st))
      as [[st2 ts] [[]|e2]]; [|discriminate].
    destruct (Hok st2 ts Hlocal eq_refl) as [_ [_ [_ [l' [Hh [Hn [Hts _]]]]]]].
    cbn [fst snd]. state_simpl. rewrite Hh, Hn, Hts. auto.
Qed.

(** C9, amended.  A delete and a rename that the server accepts (2xx) each
    start one refresh of the session list, and a refused or failed one
    starts none.  A send starts one refresh exactly when it goes through
    without error and leaves at most two entries in the local history (the
    first exchange of a conversation), whether or not it created the
    session; a send that fails starts none. *)
Theorem session_list_refresh (sessionId : jsval) (resp : response) (st : state)
    (local : list jsval) :
  chatStateHistory st = JArr local ->
  (snd (confirmDelete_resume sessionId resp st)
   = (if response_ok resp then [AwaitSessions] else [])
   /\ network (fst (confirmDelete_resume sessionId resp st))
      = network st ++ (if response_ok resp then [GetSessions] else []))
  /\ (snd (renameSession_resume resp st)
      = (if response_ok resp then [AwaitSessions] else [])
      /\ network (fst (renameSession_resume resp st))
         = network st ++ (if response_ok resp then [GetSessions] else []))
  /\ (snd (chat_resume resp st)
      = (if refresh_due resp st then [AwaitSessions] else [])
      /\ network (fst (chat_resume resp st))
         = network st ++ (if refresh_due resp st then [GetSessions] else [])).
Proof.
  intros Hlocal. split; [|split].
  - apply confirmDelete_resume_refresh.
  - apply renameSession_resume_refresh.
  - apply (chat_resume_refresh resp st local Hlocal).
Qed.

Lemma session_list_refresh_witness :
  snd (chat_resume (Http 200 (Some tutorial_two_steps))
         (set_chatStateHistory (JArr [JStr "User: How to add a new region?"]) landing))
  = [AwaitSessions].
Proof.
  apply (session_list_refresh JNull (Http 200 (Some tutorial_two_steps))
           (set_chatStateHistory (JArr [JStr "User: How to add a new region?"]) landing)
           [JStr "User: How to add a new region?"]).
  reflexivity.
Defined.

(** ** Replaying a loaded history *)

Lemma addMessage_isFirstLoad text isUser responseData animate st :
  isFirstLoad (fst (addMessage text isUser responseData animate st))
  = isFirstLoad st.
Proof. addMessage_cases. Qed.

Lemma replay_entry_frame (msg : jsval) (st : state) :
  chatStateHistory (fst (replay_entry msg st)) = chatStateHistory st
  /\ lastTutorialSteps (fst (replay_entry msg st)) = lastTutorialSteps st
  /\ currentSessionId (fst (replay_entry msg st)) = currentSessionId st
  /\ activeSessionId (fst (replay_entry msg st)) = activeSessionId st
  /\ isFirstLoad (fst (replay_entry msg st)) = isFirstLoad st
  /\ network (fst (replay_entry msg st)) = network st
  /\ console (fst (replay_entry msg st)) = console st.
Proof.
  unfold replay_entry.
  destruct msg as [| | b | n | s | l | ps]; try (cbn [fst]; auto 8).
  - destruct (startsWith s "User: ");
      [|destruct (startsWith s "Assistant: "); [|cbn [fst]; auto 8]];
      rewrite addMessage_chatStateHistory, addMessage_lastTutorialSteps,
        addMessage_currentSessionId, addMessage_activeSessionId,
        addMessage_isFirstLoad, addMessage_network, addMessage_console; auto 8.
  - cbn [get bind]. destruct (strict_eq _ (JStr "user"));
      [|destruct (strict_eq _ (JStr "assistant")); [|cbn [fst]; auto 8]];
      rewrite addMessage_chatStateHistory, addMessage_lastTutorialSteps,
        addMessage_currentSessionId, addMessage_activeSessionId,
        addMessage_isFirstLoad, addMessage_network, addMessage_console; auto 8.
Qed.

Lemma replay_frame (msgs : list jsval) (st : state) :
  chatStateHistory (fst (replay msgs st)) = chatStateHistory st
  /\ lastTutorialSteps (fst (replay msgs st)) = lastTutorialSteps st
  /\ currentSessionId (fst (replay msgs st)) = currentSessionId st
  /\ activeSessionId (fst (replay msgs st)) = activeSessionId st
  /\ isFirstLoad (fst (replay msgs st)) = isFirstLoad st
  /\ network (fst (replay msgs st)) = network st
  /\ console (fst (replay msgs st)) = console st.
Proof.
  revert st. induction msgs as [|msg rest IH]; intros st; cbn [replay].
  - cbn [fst]. auto 8.
  - pose proof (replay_entry_frame msg st) as Hentry.
    destruct (replay_entry msg st) as [st1 [[]|e]]; cbn [fst] in Hentry |- *.
    + destruct (IH st1) as [H1 [H2 [H3 [H4 [H5 [H6 H7]]]]]].
      destruct Hentry as [E1 [E2 [E3 [E4 [E5 [E6 E7]]]]]].
      rewrite H1, H2, H3, H4, H5, H6, H7. auto 8.
    + exact Hentry.
Qed.

(** ** Resetting the tutorial cache *)

Lemma hydrate_lastTutorialSteps (data : jsval) (st : state) :
  lastTutorialSteps (fst (hydrate data st))
  = match data with
    | JNull | JUndef => lastTutorialSteps st
    | _ => JArr []
    end.
Proof.
  unfold hydrate.
  destruct (get data "history") as [history|e] eqn:Hget.
  - assert (Hdata : match data with
                    | JNull | JUndef => lastTutorialSteps st
                    | _ => JArr []
                    end = JArr []).
    { destruct data; try reflexivity; discriminate. }
    rewrite Hdata. clear Hdata.
    match goal with
    | |- context [get ?h "length"] => destruct (get h "length") as [len|e]
    end; [|cbn [fst]; state_simpl; reflexivity].
    destruct (gt len (JNum 0)).
    + match goal with
      | |- context [match ?h with JArr _ => _ | _ => _ end] => destruct h
      end; try (cbn [fst]; state_simpl; reflexivity).
      match goal with |- context [replay ?m ?s] =>
        destruct (replay_frame m s) as [_ [-> _]] end.
      state_simpl. reflexivity.
    + cbn [fst]. state_simpl. reflexivity.
  - cbn [fst]. state_simpl.
    destruct data; try discriminate; reflexivity.
Qed.

Lemma selectSession_resume_lastTutorialSteps (resp : response) (st : state) :
  lastTutorialSteps (selectSession_resume resp st)
  = if session_loaded resp then JArr [] else lastTutorialSteps st.
Proof.
  unfold selectSession_resume, session_loaded.
  destruct resp as [|status [data|]].
  - state_simpl. reflexivity.
  - destruct (status_ok status); cbn [negb andb].
    + pose proof (hydrate_lastTutorialSteps data st) as H.
      destruct (hydrate data st) as [st1 [[]|e]]; cbn [fst] in H; state_simpl;
        rewrite H; destruct data; reflexivity.
    + state_simpl. reflexivity.
  - destruct (status_ok status); cbn [negb andb]; state_simpl; reflexivity.
Qed.

(** C8, amended.  [newChat] empties the tutorial cache, and so does the
    arrival of the detail of a selected session (2xx, a body that is not
    [null]).  The send path never empties it, neither at its start nor when
    it creates the session: the cache is empty at a creation only because
    [newChat], or the start of the page, left it so. *)
Theorem tutorial_cache_reset (st : state) (resp : response) (message : string) :
  lastTutorialSteps (fst (newChat st)) = JArr []
  /\ (if session_loaded resp
      then lastTutorialSteps (selectSession_resume resp st) = JArr []
      else True)
  /\ lastTutorialSteps (fst (sendMessage st)) = lastTutorialSteps st
  /\ lastTutorialSteps (fst (create_resume message resp st)) = lastTutorialSteps st.
Proof.
  split; [|split; [|split]].
  - unfold newChat, fetchSessions. cbn [fst]. state_simpl. reflexivity.
  - pose proof (selectSession_resume_lastTutorialSteps resp st) as H.
    destruct (session_loaded resp); [exact H|exact I].
  - unfold sendMessage.
    destruct (trim (messageInput st) =? "")%string; [reflexivity|].
    destruct (history_push _ _) as [st2|e] eqn:Hpush; cbn [fst].
    + apply history_push_inv in Hpush. destruct Hpush as [l [_ ->]].
      match goal with |- context [if ?b then _ else _] => destruct b end;
        unfold post_chat, showTypingIndicator; cbn [fst]; state_simpl;
        apply addMessage_lastTutorialSteps.
    + state_simpl. apply addMessage_lastTutorialSteps.
  - unfold create_resume.
    destruct resp as [|status [sessData|]];
      try (cbn [fst]; apply send_failed_frame).
    destruct (get sessData "session_id"); cbn [fst].
    + unfold post_chat. cbn [fst]. state_simpl. reflexivity.
    + apply send_failed_frame.
Qed.

(** C8, as stated, fails.  The user starts a new chat while a reply is on
    its way: the reply fills the cache after [newChat] emptied it, and the
    next send creates session "B" with the steps shown in session "A" in the
    cache, and sends them as its [last_tutorial].  And when the user selects
    session "B" and the server answers 500, "B" is the active session and
    the cache still holds the steps of "A". *)
Lemma stale_tutorial_cache :
  (let asked := fst (sendMessage (type_input "How to add an area?" after_tutorial)) in
   let fresh := fst (newChat asked) in
   let replied := fst (chat_resume (Http 200 (Some tutorial_two_steps)) fresh) in
   let created := fst (send_roundtrip (Http 200 (Some (JObj [("session_id", JStr "B")])))
                         Rejected (type_input "clarify step 1" replied)) in
   lastTutorialSteps fresh = JArr []
   /\ currentSessionId replied = JNull
   /\ requests_since replied created
      = [PostSessions;
         PostChat "clarify step 1" (JStr "B") (field tutorial_two_steps "steps")]
   /\ currentSessionId created = JStr "B"
   /\ lastTutorialSteps created = field tutorial_two_steps "steps")
  /\ ~ selection_resets_cache (JStr "B") (Http 500 None) after_tutorial
  /\ (let st := selectSession_resume (Http 500 None)
                  (fst (selectSession (JStr "B") after_tutorial)) in
      currentSessionId st = JStr "B"
      /\ lastTutorialSteps st = field tutorial_two_steps "steps").
Proof.
  split; [vm_compute; repeat split; reflexivity|]. split.
  - unfold selection_resets_cache. vm_compute. intros H.
    specialize (H eq_refl). discriminate.
  - vm_compute. repeat split; reflexivity.
Qed.

(** ** Restoring the session when the page loads *)

Lemma set_sidebarContent_twice (a b : sidebar) (st : state) :
  set_sidebarContent a (set_sidebarContent b st) = set_sidebarContent a st.
Proof. destruct st; reflexivity. Qed.

Lemma sidebar_items_objects (current : jsval) (sessions : list jsval) :
  forallb is_object sessions = true ->
  exists items, sidebar_items current sessions = Ok items.
Proof.
  induction sessions as [|s rest IH]; cbn [forallb sidebar_items]; [eauto|].
  intros H. apply andb_true_iff in H. destruct H as [Hs Hrest].
  destruct s; try discriminate. destruct (IH Hrest) as [items ->].
  cbn [get bind]. eauto.
Qed.

Lemma some_session_objects (id : string) (sessions : list jsval) :
  forallb is_object sessions = true ->
  some_session id sessions = Ok (listed id sessions).
Proof.
  induction sessions as [|s rest IH]; cbn [forallb some_session listed existsb];
    [reflexivity|].
  intros H. apply andb_true_iff in H. destruct H as [Hs Hrest].
  destruct s; try discriminate. cbn [get bind]. unfold field at 1. cbn [get].
  destruct (strict_eq (assoc "session_id" props) (JStr id)); [reflexivity|].
  rewrite (IH Hrest). reflexivity.
Qed.

Lemma displaySessions_objects (sessions : list jsval) (st : state) :
  forallb is_object sessions = true ->
  exists content,
    displaySessions (JArr sessions) st = (set_sidebarContent content st, Ok tt).
Proof.
  intros Hobjects. unfold displaySessions. cbn [truthy negb get].
  destruct (strict_eq _ (JNum 0)).
  - exists NoChatsYet. rewrite set_sidebarContent_twice. reflexivity.
  - destruct (sidebar_items_objects
                (currentSessionId (set_sidebarContent SidebarBlank st))
                sessions Hobjects) as [items ->].
    exists (RecentChats items). rewrite set_sidebarContent_twice. reflexivity.
Qed.

Lemma selectSession_isFirstLoad (sessionId : jsval) (b : bool) (st : state) :
  selectSession sessionId (set_isFirstLoad b st)
  = (set_isFirstLoad b (fst (selectSession sessionId st)),
     snd (selectSession sessionId st)).
Proof.
  unfold selectSession, fetchSessions. state_simpl.
  destruct (strict_eq (currentSessionId st) sessionId); [reflexivity|].
  destruct st; reflexivity.
Qed.

Lemma newChat_landed (st : state) :
  landed (set_isFirstLoad false (fst (newChat st)))
  /\ snd (newChat st) = [AwaitSessions].
Proof.
  unfold landed, newChat, fetchSessions. cbn [fst snd]. state_simpl.
  repeat split; reflexivity.
Qed.

Lemma newChat_landed_on_load (st st2 : state) (ts : list task) :
  newChat st = (st2, ts) ->
  network st = [GetSessions] ->
  landed_on_load (set_isFirstLoad false st2, ts).
Proof.
  intros Hnew Hnet.
  pose proof (newChat_landed st) as [Hlanded Hts].
  pose proof (newChat_refresh st) as [_ Hrefresh].
  rewrite Hnew in Hlanded, Hts, Hrefresh. cbn [fst snd] in Hlanded, Hts, Hrefresh.
  unfold landed_on_load. cbn [fst snd].
  split; [exact Hlanded|]. split; [exact Hts|].
  state_simpl. rewrite Hrefresh, Hnet. reflexivity.
Qed.

Lemma restore_sessions (stored : option string) (status : Z) (data : jsval)
    (sessions : list jsval) :
  get data "sessions" = Ok (JArr sessions) ->
  forallb is_object sessions = true ->
  let loading := fst (fetchSessions (initial stored)) in
  let shown := fst (displaySessions (JArr sessions) loading) in
  let restored := fetchSessions_resume (Http status (Some data)) loading in
  match stored with
  | Some id =>
      if negb (id =? "")%string && listed id sessions
      then restored = selectSession (JStr id) (set_isFirstLoad false shown)
           /\ selected_on_load id restored
      else landed_on_load restored
  | None => landed_on_load restored
  end.
Proof.
  intros Hget Hobjects loading shown restored.
  destruct (displaySessions_objects sessions loading Hobjects) as [content Hshow].
  assert (Hshown : shown = set_sidebarContent content loading).
  { unfold shown. rewrite Hshow. reflexivity. }
  assert (Hrestored : restored
                      = match restore data loading with
                        | (st1, ts, Ok _) => (st1, ts)
                        | (st1, _, Throw e) =>
                            (console_error "Error fetching sessions:" e st1, [])
                        end) by reflexivity.
  unfold restore in Hrestored. rewrite Hget, Hshow, <- Hshown in Hrestored.
  assert (Hfirst : isFirstLoad shown = true) by (rewrite Hshown; reflexivity).
  assert (Hstored : activeSessionId shown = stored) by (rewrite Hshown; reflexivity).
  assert (Hcurrent : currentSessionId shown = JNull) by (rewrite Hshown; reflexivity).
  assert (Hnet : network shown = [GetSessions]) by (rewrite Hshown; reflexivity).
  assert (Hhistory : chatStateHistory shown = JArr []
                     /\ lastTutorialSteps shown = JArr []
                     /\ chatHistory shown = [])
    by (rewrite Hshown; repeat split; reflexivity).
  rewrite Hfirst, Hstored in Hrestored.
  destruct stored as [id|].
  - unfold truthy in Hrestored. unfold sessionExists in Hrestored.
    rewrite (some_session_objects id sessions Hobjects) in Hrestored.
    destruct (negb (id =? "")%string); cbn [andb].
    + destruct (listed id sessions).
      * assert (Heq : restored
                      = selectSession (JStr id) (set_isFirstLoad false shown)).
        { rewrite selectSession_isFirstLoad.
          destruct (selectSession (JStr id) shown) as [st2 ts]. exact Hrestored. }
        split; [exact Heq|]. rewrite Heq.
        unfold selected_on_load, selectSession.
        assert (Hnull : currentSessionId (set_isFirstLoad false shown) = JNull)
          by (state_simpl; exact Hcurrent).
        rewrite Hnull. cbn [strict_eq]. unfold fetchSessions. cbn [fst snd].
        state_simpl. destruct Hhistory as (-> & -> & ->). rewrite Hnet.
        repeat split; reflexivity.
      * assert (Hnet' : network (set_activeSessionId None shown) = [GetSessions])
          by (state_simpl; exact Hnet).
        destruct (newChat (set_activeSessionId None shown)) as [st2 ts] eqn:Hnew.
        rewrite Hrestored. exact (newChat_landed_on_load _ _ _ Hnew Hnet').
    + destruct (newChat shown) as [st2 ts] eqn:Hnew.
      rewrite Hrestored. exact (newChat_landed_on_load _ _ _ Hnew Hnet).
  - destruct (newChat shown) as [st2 ts] eqn:Hnew.
    rewrite Hrestored. exact (newChat_landed_on_load _ _ _ Hnew Hnet).
Qed.

(** C5.  The page loads with [stored] in the per-tab store, and the server
    answers the list of sessions, an array of plain objects.  Without a
    stored id (or with an empty one) the client lands: no active session, no
    pointer, no history, an empty cache, the welcome page.  With a stored id
    that is not the [session_id] of a listed session, the pointer is removed
    and the client lands.  With a stored id that is listed, the session is
    selected: it is the active session, the pointer stays, the list is asked
    for again and the detail of the session is asked for, and the
    conversation is empty until the detail arrives.  The state, the requests
    and the continuations are those of a call [selectSession(id)] made once
    the list is shown and the first load is over, hence the conversation is
    the same whatever the server then answers. *)
Theorem restore_on_load (stored : option string) (status : Z) (data : jsval)
    (sessions : list jsval) :
  get data "sessions" = Ok (JArr sessions) ->
  forallb is_object sessions = true ->
  forallb plain sessions = true ->
  let loading := fst (fetchSessions (initial stored)) in
  let shown := fst (displaySessions (JArr sessions) loading) in
  let restored := fetchSessions_resume (Http status (Some data)) loading in
  match stored with
  | Some id =>
      if negb (id =? "")%string && listed id sessions
      then restored = selectSession (JStr id) (set_isFirstLoad false shown)
           /\ selected_on_load id restored
      else landed_on_load restored
  | None => landed_on_load restored
  end.
Proof.
  intros Hget Hobjects _. exact (restore_sessions stored status data sessions Hget Hobjects).
Qed.

Lemma restore_on_load_witness :
  let restored :=
    fetchSessions_resume (Http 200 (Some (JObj [("sessions", JArr two_sessions)])))
      (fst (fetchSessions (initial (Some "B")))) in
  restored
  = selectSession (JStr "B")
      (set_isFirstLoad false
         (fst (displaySessions (JArr two_sessions)
                 (fst (fetchSessions (initial (Some "B")))))))
  /\ selected_on_load "B" restored.
Proof.
  apply (restore_on_load (Some "B") 200 (JObj [("sessions", JArr two_sessions)])
           two_sessions); reflexivity.
Defined.

(** The three cases on the list of [two_sessions]; in the last one the
    detail of the session then arrives in the legacy form. *)
Example restore_nothing_stored :
  landed (fst (fetchSessions_resume
                 (Http 200 (Some (JObj [("sessions", JArr two_sessions)])))
                 (fst (fetchSessions (initial None))))).
Proof. vm_compute. repeat split; reflexivity. Qed.

Example restore_deleted_elsewhere :
  let st := fst (fetchSessions_resume
                   (Http 200 (Some (JObj [("sessions", JArr two_sessions)])))
                   (fst (fetchSessions (initial (Some "C"))))) in
  landed st /\ activeSessionId st = None.
Proof. vm_compute. repeat split; reflexivity. Qed.

Example restore_then_load :
  let restored := fst (fetchSessions_resume
                         (Http 200 (Some (JObj [("sessions", JArr two_sessions)])))
                         (fst (fetchSessions (initial (Some "B"))))) in
  let loaded := selectSession_resume
                  (Http 200 (Some (JObj [("history",
                                           JArr [JStr "User: hi";
                                                 JStr "Assistant: hello"])])))
                  restored in
  currentSessionId loaded = JStr "B"
  /\ activeSessionId loaded = Some "B"
  /\ chatStateHistory loaded = JArr [JStr "User: hi"; JStr "Assistant: hello"]
  /\ chatHistory loaded
     = [Message true [Escaped "hi"]; Message false [Marked "hello"]].
Proof. vm_compute. repeat split; reflexivity. Qed.

(** ** Legacy and structured entries of a loaded history *)







Lemma addMessage_user_chatHistory (text responseData : jsval) (animate : bool)
    (st : state) :
  chatHistory (fst (addMessage text true responseData animate st))
  = chatHistory st ++ [Message true [Escaped (dom_string text)]].
Proof.
  unfold addMessage. destruct st as [? ? ? ? ? ? ? ? shown ? ? ? ? ? ? ?]; simpl.
  destruct shown; reflexivity.
Qed.







(** The example of the specification, with entries in neither form in
    between: the mixed history and the fully structured one show the same
    two messages. *)
Example hydrate_mixed_history :
  let mixed := JObj [("history",
                       JArr [JStr "User: hi"; JNull; JStr "System: reset";
                             JObj [("role", JStr "tool"); ("content", JStr "x")];
                             JObj [("role", JStr "assistant");
                                   ("content", JStr "hello")]])] in
  let all_structured := JObj [("history",
                                JArr [JObj [("role", JStr "user");
                                            ("content", JStr "hi")];
                                      JObj [("role", JStr "assistant");
                                            ("content", JStr "hello")]])] in
  chatHistory (fst (hydrate mixed landing))
  = [Message true [Escaped "hi"]; Message false [Marked "hello"]]
  /\ chatHistory (fst (hydrate all_structured landing))
     = [Message true [Escaped "hi"]; Message false [Marked "hello"]]
  /\ snd (hydrate mixed landing) = Ok tt.
Proof. vm_compute. repeat split; reflexivity. Qed.

(** * Further properties *)

(** ** Fields that the conversation leaves alone *)

Lemma kept_currentSessionId : kept currentSessionId.
Proof. repeat split; intros; reflexivity. Qed.

Lemma kept_activeSessionId : kept activeSessionId.
Proof. repeat split; intros; reflexivity. Qed.

Lemma kept_isFirstLoad : kept isFirstLoad.
Proof. repeat split; intros; reflexivity. Qed.

Lemma kept_messageInput : kept messageInput.
Proof. repeat split; intros; reflexivity. Qed.

Lemma kept_sessionToDelete : kept sessionToDelete.
Proof. repeat split; intros; reflexivity. Qed.

Lemma kept_confirmModal_active : kept confirmModal_active.
Proof. repeat split; intros; reflexivity. Qed.

Lemma kept_sidebarContent : kept sidebarContent.
Proof. repeat split; intros; reflexivity. Qed.

Section Kept.

Context {A : Type} (p : state -> A).
Hypothesis Hkept : kept p.

Lemma addMessage_kept text isUser responseData animate st :
  p (fst (addMessage text isUser responseData animate st)) = p st.
Proof.
  destruct Hkept as (_ & _ & H3 & H4 & H5 & H6 & _).
  unfold addMessage. cbv zeta.
  destruct (chatHistory (set_chatHistory_active true st));
    destruct isUser; try destruct (assistant_content text responseData animate);
    cbn [fst]; rewrite ?H3, ?H6, ?H5, ?H4; reflexivity.
Qed.

Lemma send_failed_kept e st : p (send_failed e st) = p st.
Proof.
  pose proof Hkept as (_ & _ & H3 & _ & _ & _ & H7 & H8 & _).
  unfold send_failed, removeTypingIndicator.
  rewrite H7, addMessage_kept, H8, H3. reflexivity.
Qed.

Lemma process_reply_kept data st :
  p (fst (fst (process_reply data st))) = p st.
Proof.
  pose proof Hkept as (H1 & H2 & _ & _ & _ & _ & _ & _ & H9).
  unfold process_reply.
  pose proof (addMessage_kept (JStr "") false data true st) as Ht.
  destruct (addMessage (JStr "") false data true st) as [st1 r1]; cbn [fst] in Ht.
  destruct r1 as [[]|e]; [|exact Ht].
  destruct (update_tutorial data st1) as [st2|e2] eqn:Hupd; [|exact Ht].
  assert (H2' : p st2 = p st).
  { apply update_tutorial_inv in Hupd.
    destruct Hupd as [[_ ->]|[_ ->]]; [rewrite H2|]; exact Ht. }
  destruct (append_assistant data st2) as [st3|e3] eqn:Happ; [|exact H2'].
  apply append_assistant_only in Happ. destruct Happ as [h3 ->].
  destruct (get data "conversation_history") as [conv|e4];
    [|cbn [fst]; rewrite H1; exact H2'].
  pose proof (reconcile_only conv (set_chatStateHistory h3 st2)) as Hrec.
  destruct (reconcile conv (set_chatStateHistory h3 st2)) as [st4 r4].
  cbn [fst] in Hrec. destruct Hrec as [h4 ->].
  destruct r4 as [[]|e5]; [|cbn [fst]; rewrite !H1; exact H2'].
  destruct (refresh_after_send_cases
              (set_chatStateHistory h4 (set_chatStateHistory h3 st2)))
    as [->|[r ->]]; cbn [fst]; rewrite ?H9, !H1; exact H2'.
Qed.

Lemma chat_resume_kept resp st : p (fst (chat_resume resp st)) = p st.
Proof.
  pose proof Hkept as (_ & _ & H3 & _ & _ & _ & H7 & _).
  unfold chat_resume. destruct resp as [|status body].
  - cbn [fst]. apply send_failed_kept.
  - destruct (negb (status_ok status)).
    + cbn [fst]. rewrite send_failed_kept. apply H3.
    + destruct body as [data|].
      * pose proof (process_reply_kept data (removeTypingIndicator st)) as H.
        destruct (process_reply data (removeTypingIndicator st)) as [[st2 ts] [[]|e]];
          cbn [fst] in *; rewrite ?H7, ?send_failed_kept, H; apply H3.
      * cbn [fst]. rewrite send_failed_kept. apply H3.
Qed.

Lemma replay_entry_kept msg st : p (fst (replay_entry msg st)) = p st.
Proof.
  unfold replay_entry.
  destruct msg as [| | b | n | s | l | ps]; try reflexivity.
  - destruct (startsWith s "User: "); [apply addMessage_kept|].
    destruct (startsWith s "Assistant: "); [apply addMessage_kept|reflexivity].
  - destruct (get (JObj ps) "role"), (get (JObj ps) "content"), (get (JObj ps) "data");
      try reflexivity.
    destruct (strict_eq a (JStr "user")); [apply addMessage_kept|].
    destruct (strict_eq a (JStr "assistant")); [apply addMessage_kept|reflexivity].
Qed.

Lemma replay_kept msgs st : p (fst (replay msgs st)) = p st.
Proof.
  revert st. induction msgs as [|msg msgs IH]; intros st; [reflexivity|].
  cbn [replay].
  pose proof (replay_entry_kept msg st) as H.
  destruct (replay_entry msg st) as [st1 [[]|e]]; cbn [fst] in H.
  - rewrite IH. exact H.
  - exact H.
Qed.

Lemma hydrate_kept data st : p (fst (hydrate data st)) = p st.
Proof.
  pose proof Hkept as (H1 & H2 & H3 & H4 & H5 & H6 & _).
  unfold hydrate.
  destruct (get data "history") as [history|e]; [|cbn [fst]; apply H3].
  match goal with
  | |- context [get ?h "length"] => destruct (get h "length") as [len|e]
  end; [|cbn [fst]; rewrite H2, H1; apply H3].
  destruct (gt len (JNum 0)).
  - match goal with
    | |- context [match ?h with JArr _ => _ | _ => _ end] => destruct h
    end; try (cbn [fst]; rewrite H4, H6, H5, H2, H1; apply H3).
    rewrite replay_kept. rewrite H4, H6, H5, H2, H1; apply H3.
  - cbn [fst]. rewrite H4, H6, H5, H2, H1; apply H3.
Qed.

Lemma selectSession_resume_kept resp st : p (selectSession_resume resp st) = p st.
Proof.
  pose proof Hkept as (_ & _ & _ & _ & _ & _ & _ & H8 & _).
  unfold selectSession_resume. destruct resp as [|status body]; [apply H8|].
  destruct (negb (status_ok status)); [apply H8|].
  destruct body as [data|]; [|apply H8].
  pose proof (hydrate_kept data st) as H.
  destruct (hydrate data st) as [st1 [[]|e]]; cbn [fst] in H; rewrite ?H8; exact H.
Qed.

End Kept.

Lemma sendMessage_kept {A : Type} (p : state -> A) (st : state) :
  kept p -> (forall v s, p (set_messageInput v s) = p s) ->
  p (fst (sendMessage st)) = p st.
Proof.
  intros Hk Hm. pose proof Hk as (H1 & _ & H3 & _ & _ & _ & H7 & H8 & H9).
  unfold sendMessage.
  destruct (trim (messageInput st) =? "")%string; [reflexivity|].
  cbv zeta.
  match goal with
  | |- context [history_push ?i ?s] => destruct (history_push i s) as [st2|e] eqn:Hpush
  end.
  - apply history_push_inv in Hpush. destruct Hpush as [l [_ ->]].
    unfold showTypingIndicator, post_chat.
    match goal with
    | |- context [negb (truthy ?c)] => destruct (negb (truthy c))
    end; cbn [fst]; rewrite H9, H3, H7, Hm, H1; apply addMessage_kept; exact Hk.
  - cbn [fst]. rewrite H8. apply addMessage_kept. exact Hk.
Qed.

Lemma create_resume_kept {A : Type} (p : state -> A) (message : string)
    (resp : response) (st : state) :
  kept p ->
  (forall v s, p (set_currentSessionId v s) = p s) ->
  (forall v s, p (set_activeSessionId v s) = p s) ->
  p (fst (create_resume message resp st)) = p st.
Proof.
  intros Hk Hc Ha. pose proof Hk as (_ & _ & _ & _ & _ & _ & _ & _ & H9).
  unfold create_resume. destruct resp as [|status [sessData|]];
    try (cbn [fst]; apply send_failed_kept; exact Hk).
  destruct (get sessData "session_id") as [id|e];
    [|cbn [fst]; apply send_failed_kept; exact Hk].
  unfold post_chat. cbn [fst]. rewrite H9, Ha, Hc. reflexivity.
Qed.

(** ** The sidebar *)

Lemma displaySessions_sidebar (sessions : jsval) (st : state) :
  exists content, fst (displaySessions sessions st) = set_sidebarContent content st.
Proof.
  unfold displaySessions.
  destruct (negb (truthy sessions));
    [exists NoChatsYet; cbn [fst]; apply set_sidebarContent_twice|].
  destruct (get sessions "length") as [len|e]; [|exists SidebarBlank; reflexivity].
  destruct (strict_eq len (JNum 0));
    [exists NoChatsYet; cbn [fst]; apply set_sidebarContent_twice|].
  destruct sessions; try (exists SidebarBlank; reflexivity).
  match goal with
  | |- context [sidebar_items ?c ?l] => destruct (sidebar_items c l) as [its|e]
  end.
  - exists (RecentChats its). cbn [fst]. apply set_sidebarContent_twice.
  - exists SidebarBlank. reflexivity.
Qed.

(** ** The stored pointer and the active session *)

Lemma synced_same (st st' : state) :
  currentSessionId st' = currentSessionId st ->
  activeSessionId st' = activeSessionId st ->
  pointer_synced st -> pointer_synced st'.
Proof. unfold pointer_synced. intros -> ->. exact (fun H => H). Qed.

Lemma selectSession_synced (sessionId : jsval) (st : state) :
  pointer_synced st -> pointer_synced (fst (selectSession sessionId st)).
Proof.
  intros H. unfold selectSession.
  destruct (strict_eq (currentSessionId st) sessionId); [exact H|].
  unfold fetchSessions, pointer_synced. cbn [fst]. state_simpl.
  right. reflexivity.
Qed.

Lemma selectSession_stored (id : string) (st : state) :
  activeSessionId st = Some id ->
  pointer_synced (fst (selectSession (JStr id) st)).
Proof.
  intros H. unfold selectSession.
  destruct (strict_eq (currentSessionId st) (JStr id)) eqn:Heq.
  - apply strict_eq_string in Heq. right. cbn [fst]. rewrite H, Heq. reflexivity.
  - unfold fetchSessions, pointer_synced. cbn [fst]. state_simpl.
    right. reflexivity.
Qed.

Lemma selectSession_isFirstLoad_kept (sessionId : jsval) (st : state) :
  isFirstLoad (fst (selectSession sessionId st)) = isFirstLoad st.
Proof.
  unfold selectSession.
  destruct (strict_eq (currentSessionId st) sessionId); [reflexivity|].
  unfold fetchSessions. cbn [fst]. state_simpl. reflexivity.
Qed.

Lemma newChat_fields (st : state) :
  currentSessionId (fst (newChat st)) = JNull
  /\ activeSessionId (fst (newChat st)) = None
  /\ chatStateHistory (fst (newChat st)) = JArr []
  /\ isFirstLoad (fst (newChat st)) = isFirstLoad st.
Proof.
  unfold newChat, fetchSessions. cbn [fst]. state_simpl. repeat split; reflexivity.
Qed.

Lemma newChat_synced (st : state) : pointer_synced (fst (newChat st)).
Proof.
  destruct (newChat_fields st) as (Hc & Ha & _). left. split; assumption.
Qed.

(** The list of sessions arrives after the first load has completed: only
    the sidebar and the log can change. *)
Lemma fetchSessions_resume_later (resp : response) (st : state) :
  isFirstLoad st = false ->
  snd (fetchSessions_resume resp st) = []
  /\ exists st1,
       (st1 = st \/ exists content, st1 = set_sidebarContent content st)
       /\ (fst (fetchSessions_resume resp st) = st1
           \/ exists e, fst (fetchSessions_resume resp st)
                        = console_error "Error fetching sessions:" e st1).
Proof.
  intros Hfirst. unfold fetchSessions_resume.
  destruct resp as [|status [data|]].
  - split; [reflexivity|]. exists st. split; [left; reflexivity|].
    right. exists NetworkError. reflexivity.
  - unfold restore.
    destruct (get data "sessions") as [sessions|e].
    + destruct (displaySessions_sidebar sessions st) as [content Hc].
      destruct (displaySessions sessions st) as [st1 [[]|e]]; cbn [fst] in Hc; subst st1.
      * assert (Hf : isFirstLoad (set_sidebarContent content st) = false)
          by (state_simpl; exact Hfirst).
        rewrite Hf. split; [reflexivity|].
        exists (set_sidebarContent content st). split; [right; eauto|left; reflexivity].
      * split; [reflexivity|].
        exists (set_sidebarContent content st). split; [right; eauto|].
        right. exists e. reflexivity.
    + split; [reflexivity|]. exists st. split; [left; reflexivity|].
      right. exists e. reflexivity.
  - split; [reflexivity|]. exists st. split; [left; reflexivity|].
    right. exists SyntaxError. reflexivity.
Qed.

Lemma fetchSessions_resume_later_kept {A : Type} (p : state -> A)
    (resp : response) (st : state) :
  kept p -> (forall v s, p (set_sidebarContent v s) = p s) ->
  isFirstLoad st = false ->
  p (fst (fetchSessions_resume resp st)) = p st.
Proof.
  intros Hk Hs Hfirst. pose proof Hk as (_ & _ & _ & _ & _ & _ & _ & H8 & _).
  destruct (fetchSessions_resume_later resp st Hfirst)
    as (_ & st1 & [->|[content ->]] & [->|[e ->]]);
    rewrite ?H8, ?Hs; reflexivity.
Qed.

(** The first load completes: the pointer names the active session. *)
Lemma fetchSessions_resume_synced (resp : response) (st : state) :
  isFirstLoad st = true ->
  isFirstLoad (fst (fetchSessions_resume resp st)) = false ->
  pointer_synced (fst (fetchSessions_resume resp st)).
Proof.
  intros Hfirst. unfold fetchSessions_resume.
  destruct resp as [|status [data|]];
    try (cbn [fst]; state_simpl; rewrite Hfirst; discriminate).
  unfold restore.
  destruct (get data "sessions") as [sessions|e];
    [|cbn [fst]; state_simpl; rewrite Hfirst; discriminate].
  destruct (displaySessions_sidebar sessions st) as [content Hc].
  destruct (displaySessions sessions st) as [st1 [[]|e]]; cbn [fst] in Hc; subst st1;
    [|cbn [fst]; state_simpl; rewrite Hfirst; discriminate].
  assert (Hf : isFirstLoad (set_sidebarContent content st) = true)
    by (state_simpl; exact Hfirst).
  rewrite Hf.
  assert (Hsynced : forall s, pointer_synced s -> pointer_synced (set_isFirstLoad false s)).
  { intros s. apply synced_same; state_simpl; reflexivity. }
  destruct (activeSessionId (set_sidebarContent content st)) as [id|] eqn:Hptr.
  - destruct (truthy (JStr id)).
    + destruct (sessionExists id sessions) as [[|]|e];
        [| |cbn [fst]; state_simpl; rewrite Hfirst; discriminate].
      * pose proof (selectSession_stored id _ Hptr) as H.
        destruct (selectSession (JStr id) (set_sidebarContent content st)) as [st2 ts].
        cbn [fst] in *. intros _. apply Hsynced, H.
      * match goal with
        | |- context [newChat ?s] =>
            pose proof (newChat_synced s) as H; destruct (newChat s) as [st2 ts]
        end.
        cbn [fst] in *. intros _. apply Hsynced, H.
    + match goal with
      | |- context [newChat ?s] =>
          pose proof (newChat_synced s) as H; destruct (newChat s) as [st2 ts]
      end.
      cbn [fst] in *. intros _. apply Hsynced, H.
  - match goal with
    | |- context [newChat ?s] =>
        pose proof (newChat_synced s) as H; destruct (newChat s) as [st2 ts]
    end.
    cbn [fst] in *. intros _. apply Hsynced, H.
Qed.

(** ** The client, event by event *)

Lemma step_isFirstLoad (ev : event) (st : state) :
  (forall resp, ev <> Arrives AwaitSessions resp) ->
  isFirstLoad (step ev st) = isFirstLoad st.
Proof.
  intros Hev.
  destruct ev as [ |text|text| |id| |id| | |id cur new|t resp]; cbn [step].
  - unfold fetchSessions. cbn [fst]. state_simpl. reflexivity.
  - unfold type_input. state_simpl. reflexivity.
  - state_simpl. reflexivity.
  - apply sendMessage_kept; [apply kept_isFirstLoad|reflexivity].
  - apply selectSession_isFirstLoad_kept.
  - apply newChat_fields.
  - unfold deleteSession. state_simpl. reflexivity.
  - unfold closeConfirmModal. state_simpl. reflexivity.
  - unfold confirmDelete. destruct (negb (truthy (sessionToDelete st))); [reflexivity|].
    unfold closeConfirmModal. cbn [fst]. state_simpl. reflexivity.
  - unfold renameSession. destruct (negb (truthy new) || strict_eq new cur); [reflexivity|].
    cbn [fst]. state_simpl. reflexivity.
  - destruct t; cbn [resume].
    + exfalso. apply (Hev resp). reflexivity.
    + cbn [fst]. apply selectSession_resume_kept, kept_isFirstLoad.
    + apply create_resume_kept; [apply kept_isFirstLoad|reflexivity|reflexivity].
    + apply chat_resume_kept, kept_isFirstLoad.
    + unfold confirmDelete_resume. destruct resp as [|status body];
        [cbn [fst]; state_simpl; reflexivity|].
      destruct (status_ok status); [|reflexivity].
      destruct (strict_eq (currentSessionId st) sessionId).
      * destruct (newChat_fields (set_currentSessionId JNull st)) as (_ & _ & _ & ->).
        state_simpl. reflexivity.
      * unfold fetchSessions. cbn [fst]. state_simpl. reflexivity.
    + unfold renameSession_resume. destruct resp as [|status body];
        [cbn [fst]; state_simpl; reflexivity|].
      destruct (status_ok status); [|reflexivity].
      unfold fetchSessions. cbn [fst]. state_simpl. reflexivity.
Qed.

Lemma step_synced (ev : event) (st : state) :
  (forall resp, ev <> Arrives AwaitSessions resp) ->
  pointer_synced st -> pointer_synced (step ev st).
Proof.
  intros Hev H.
  destruct ev as [ |text|text| |id| |id| | |id cur new|t resp]; cbn [step].
  - revert H. unfold fetchSessions. cbn [fst].
    apply synced_same; state_simpl; reflexivity.
  - revert H. unfold type_input. apply synced_same; state_simpl; reflexivity.
  - revert H. apply synced_same; state_simpl; reflexivity.
  - revert H. apply synced_same; apply sendMessage_kept;
      solve [apply kept_currentSessionId | apply kept_activeSessionId | reflexivity].
  - apply selectSession_synced, H.
  - apply newChat_synced.
  - revert H. unfold deleteSession. apply synced_same; state_simpl; reflexivity.
  - revert H. unfold closeConfirmModal. apply synced_same; state_simpl; reflexivity.
  - unfold confirmDelete. destruct (negb (truthy (sessionToDelete st))); [exact H|].
    revert H. unfold closeConfirmModal. cbn [fst].
    apply synced_same; state_simpl; reflexivity.
  - unfold renameSession. destruct (negb (truthy new) || strict_eq new cur); [exact H|].
    revert H. cbn [fst]. apply synced_same; state_simpl; reflexivity.
  - destruct t; cbn [resume].
    + exfalso. apply (Hev resp). reflexivity.
    + revert H. cbn [fst]. apply synced_same; apply selectSession_resume_kept;
        [apply kept_currentSessionId | apply kept_activeSessionId].
    + unfold create_resume.
      assert (Hfail : forall e, pointer_synced (send_failed e st)).
      { intros e. revert H. apply synced_same; apply send_failed_kept;
          [apply kept_currentSessionId | apply kept_activeSessionId]. }
      destruct resp as [|status [sessData|]]; try (cbn [fst]; apply Hfail).
      destruct (get sessData "session_id") as [id|e]; [|cbn [fst]; apply Hfail].
      unfold post_chat, pointer_synced. cbn [fst]. state_simpl. right. reflexivity.
    + revert H. apply synced_same; apply chat_resume_kept;
        [apply kept_currentSessionId | apply kept_activeSessionId].
    + unfold confirmDelete_resume. destruct resp as [|status body].
      * revert H. cbn [fst]. apply synced_same; state_simpl; reflexivity.
      * destruct (status_ok status); [|exact H].
        destruct (strict_eq (currentSessionId st) sessionId); [apply newChat_synced|].
        revert H. unfold fetchSessions. cbn [fst].
        apply synced_same; state_simpl; reflexivity.
    + unfold renameSession_resume. destruct resp as [|status body].
      * revert H. cbn [fst]. apply synced_same; state_simpl; reflexivity.
      * destruct (status_ok status); [|exact H].
        revert H. unfold fetchSessions. cbn [fst].
        apply synced_same; state_simpl; reflexivity.
Qed.

Lemma event_cases (ev : event) :
  (exists resp, ev = Arrives AwaitSessions resp)
  \/ (forall resp, ev <> Arrives AwaitSessions resp).
Proof.
  destruct ev as [ |text|text| |id| |id| | |id cur new|t resp];
    try (right; discriminate).
  destruct t; try (right; discriminate). left. eauto.
Qed.

Lemma step_loaded_synced (ev : event) (st : state) :
  (isFirstLoad st = false -> pointer_synced st) ->
  isFirstLoad (step ev st) = false -> pointer_synced (step ev st).
Proof.
  intros Hinv. destruct (event_cases ev) as [[resp ->]|Hev].
  - cbn [step resume]. destruct (isFirstLoad st) eqn:Hfirst.
    + apply fetchSessions_resume_synced, Hfirst.
    + intros _. generalize (Hinv eq_refl).
      apply synced_same; apply fetchSessions_resume_later_kept;
        solve [apply kept_currentSessionId | apply kept_activeSessionId
              | reflexivity | exact Hfirst].
  - rewrite (step_isFirstLoad ev st Hev). intros Hfirst.
    apply step_synced; [exact Hev|apply Hinv, Hfirst].
Qed.

Lemma run_loaded_synced (evs : list event) (st : state) :
  (isFirstLoad st = false -> pointer_synced st) ->
  isFirstLoad (run evs st) = false -> pointer_synced (run evs st).
Proof.
  revert st. induction evs as [|ev evs IH]; intros st Hinv; [exact Hinv|].
  cbn [run]. apply IH. apply step_loaded_synced, Hinv.
Qed.

(** X1.  Whatever the user does and whatever the server answers, with plain
    ids and plain bodies, from the start of the page on: once the first load
    of the session list has completed, the pointer stored for the tab names
    the active session, or is absent when there is none. *)
Theorem run_pointer_synced (stored : option string) (evs : list event) :
  forallb plain_event evs = true ->
  isFirstLoad (run evs (initial stored)) = false ->
  pointer_synced (run evs (initial stored)).
Proof.
  intros _. apply run_loaded_synced. intros H. discriminate H.
Qed.

Lemma run_pointer_synced_witness :
  pointer_synced
    (run [Loads;
          Arrives AwaitSessions (Http 200 (Some (JObj [("sessions", JArr two_sessions)])));
          Typed "hello"; Send;
          Arrives (AwaitCreate "hello") session_created]
       (initial (Some "C"))).
Proof.
  apply (run_pointer_synced (Some "C")); vm_compute; reflexivity.
Defined.

(** ** The local history stays an array *)

Lemma hydrate_chatStateHistory (data : jsval) (st : state) :
  chatStateHistory (fst (hydrate data st))
  = match data with
    | JNull | JUndef => chatStateHistory st
    | _ => or_else (field data "history") (JArr [])
    end.
Proof.
  unfold hydrate, field.
  destruct (get data "history") as [history|e] eqn:Hget.
  - assert (Hdata : match data with
                    | JNull | JUndef => chatStateHistory st
                    | _ => or_else history (JArr [])
                    end = or_else history (JArr [])).
    { destruct data; try reflexivity; discriminate. }
    rewrite Hdata. clear Hdata.
    match goal with
    | |- context [get ?h "length"] => destruct (get h "length") as [len|e]
    end; [|cbn [fst]; state_simpl; reflexivity].
    destruct (gt len (JNum 0)).
    + match goal with
      | |- context [match ?h with JArr _ => _ | _ => _ end] => destruct h eqn:Hh
      end; try (cbn [fst]; state_simpl; reflexivity).
      match goal with |- context [replay ?m ?s] =>
        destruct (replay_frame m s) as [-> _] end.
      state_simpl. reflexivity.
    + cbn [fst]. state_simpl. reflexivity.
  - cbn [fst]. state_simpl.
    destruct data; try discriminate; reflexivity.
Qed.

Lemma selectSession_resume_chatStateHistory (resp : response) (st : state) :
  chatStateHistory (selectSession_resume resp st)
  = if session_loaded resp then loaded_history resp else chatStateHistory st.
Proof.
  unfold selectSession_resume, session_loaded, loaded_history.
  destruct resp as [|status [data|]].
  - state_simpl. reflexivity.
  - destruct (status_ok status); cbn [negb andb].
    + pose proof (hydrate_chatStateHistory data st) as H.
      destruct (hydrate data st) as [st1 [[]|e]]; cbn [fst] in H; state_simpl;
        rewrite H; destruct data; reflexivity.
    + state_simpl. reflexivity.
  - destruct (status_ok status); cbn [negb andb]; state_simpl; reflexivity.
Qed.

Lemma selectSession_chatStateHistory (sessionId : jsval) (st : state) :
  chatStateHistory (fst (selectSession sessionId st)) = chatStateHistory st.
Proof.
  unfold selectSession.
  destruct (strict_eq (currentSessionId st) sessionId); [reflexivity|].
  unfold fetchSessions. cbn [fst]. state_simpl. reflexivity.
Qed.

Lemma sendMessage_history_array (st : state) :
  is_array (chatStateHistory st) = true ->
  is_array (chatStateHistory (fst (sendMessage st))) = true.
Proof.
  intros H. destruct (chatStateHistory st) as [| | | | |l|] eqn:Hl; try discriminate.
  destruct (String.eqb_spec (trim (messageInput st)) "") as [Hblank|Hblank].
  - unfold sendMessage. rewrite Hblank. cbn [String.eqb fst]. rewrite Hl. reflexivity.
  - rewrite (sendMessage_array st l Hl Hblank). cbv zeta. unfold post_chat.
    destruct (negb (truthy (currentSessionId st))); cbn [fst];
      unfold showTypingIndicator; state_simpl; reflexivity.
Qed.

Lemma fetchSessions_resume_chatStateHistory (resp : response) (st : state) :
  chatStateHistory (fst (fetchSessions_resume resp st)) = chatStateHistory st
  \/ chatStateHistory (fst (fetchSessions_resume resp st)) = JArr [].
Proof.
  unfold fetchSessions_resume.
  destruct resp as [|status [data|]];
    try (left; cbn [fst]; state_simpl; reflexivity).
  unfold restore.
  destruct (get data "sessions") as [sessions|e];
    [|left; cbn [fst]; state_simpl; reflexivity].
  destruct (displaySessions_sidebar sessions st) as [content Hc].
  destruct (displaySessions sessions st) as [st1 [[]|e]]; cbn [fst] in Hc; subst st1;
    [|left; cbn [fst]; state_simpl; reflexivity].
  assert (Hnew : forall s,
             chatStateHistory (set_isFirstLoad false (fst (newChat s))) = JArr []).
  { intros s. state_simpl. apply newChat_fields. }
  destruct (isFirstLoad (set_sidebarContent content st));
    [|left; cbn [fst]; state_simpl; reflexivity].
  destruct (activeSessionId (set_sidebarContent content st)) as [id|].
  - destruct (truthy (JStr id)).
    + destruct (sessionExists id sessions) as [[|]|e];
        [| |left; cbn [fst]; state_simpl; reflexivity].
      * left.
        pose proof (selectSession_chatStateHistory (JStr id)
                      (set_sidebarContent content st)) as H.
        destruct (selectSession (JStr id) (set_sidebarContent content st)) as [st2 ts].
        cbn [fst] in *. state_simpl. rewrite H. state_simpl. reflexivity.
      * right.
        match goal with
        | |- context [newChat ?s] =>
            pose proof (Hnew s) as H; destruct (newChat s) as [st2 ts]
        end.
        exact H.
    + right.
      match goal with
      | |- context [newChat ?s] =>
          pose proof (Hnew s) as H; destruct (newChat s) as [st2 ts]
      end.
      exact H.
  - right.
    match goal with
    | |- context [newChat ?s] =>
        pose proof (Hnew s) as H; destruct (newChat s) as [st2 ts]
    end.
    exact H.
Qed.

Lemma step_history_array (ev : event) (st : state) :
  history_well_typed ev = true ->
  is_array (chatStateHistory st) = true ->
  is_array (chatStateHistory (step ev st)) = true.
Proof.
  intros Hev H.
  destruct ev as [ |text|text| |id| |id| | |id cur new|t resp]; cbn [step].
  - unfold fetchSessions. cbn [fst]. state_simpl. exact H.
  - unfold type_input. state_simpl. exact H.
  - state_simpl. exact H.
  - apply sendMessage_history_array, H.
  - rewrite selectSession_chatStateHistory. exact H.
  - destruct (newChat_fields st) as (_ & _ & -> & _). reflexivity.
  - unfold deleteSession. state_simpl. exact H.
  - unfold closeConfirmModal. state_simpl. exact H.
  - unfold confirmDelete. destruct (negb (truthy (sessionToDelete st))); [exact H|].
    unfold closeConfirmModal. cbn [fst]. state_simpl. exact H.
  - unfold renameSession. destruct (negb (truthy new) || strict_eq new cur); [exact H|].
    cbn [fst]. state_simpl. exact H.
  - destruct t; cbn [resume].
    + destruct (fetchSessions_resume_chatStateHistory resp st) as [->| ->];
        [exact H|reflexivity].
    + cbn [fst]. rewrite selectSession_resume_chatStateHistory.
      destruct (session_loaded resp) eqn:Hloaded; [|exact H].
      destruct resp as [|status [data|]]; try discriminate.
      cbn [history_well_typed loaded_history] in *. unfold or_else.
      destruct (field data "history"); try discriminate; try reflexivity;
        cbn [negb] in Hev; apply negb_true_iff in Hev; rewrite Hev; reflexivity.
    + unfold create_resume.
      assert (Hfail : forall e, is_array (chatStateHistory (send_failed e st)) = true).
      { intros e. destruct (send_failed_frame e st) as (-> & _). exact H. }
      destruct resp as [|status [sessData|]]; try (cbn [fst]; apply Hfail).
      destruct (get sessData "session_id") as [sid|e]; [|cbn [fst]; apply Hfail].
      unfold post_chat. cbn [fst]. state_simpl. exact H.
    + destruct (chatStateHistory st) as [| | | | |l|] eqn:Hl; try discriminate.
      destruct (chat_resume_frame resp st l Hl) as (_ & _ & [l' ->] & _).
      reflexivity.
    + unfold confirmDelete_resume. destruct resp as [|status body];
        [cbn [fst]; state_simpl; exact H|].
      destruct (status_ok status); [|exact H].
      destruct (strict_eq (currentSessionId st) sessionId).
      * destruct (newChat_fields (set_currentSessionId JNull st)) as (_ & _ & -> & _).
        reflexivity.
      * unfold fetchSessions. cbn [fst]. state_simpl. exact H.
    + unfold renameSession_resume. destruct resp as [|status body];
        [cbn [fst]; state_simpl; exact H|].
      destruct (status_ok status); [|exact H].
      unfold fetchSessions. cbn [fst]. state_simpl. exact H.
Qed.

Lemma run_history_is_array (evs : list event) (st : state) :
  forallb history_well_typed evs = true ->
  is_array (chatStateHistory st) = true ->
  is_array (chatStateHistory (run evs st)) = true.
Proof.
  revert st. induction evs as [|ev evs IH]; intros st Hevs H; [exact H|].
  cbn [forallb] in Hevs. apply andb_true_iff in Hevs. destruct Hevs as [Hev Hevs].
  cbn [run]. apply IH; [exact Hevs|]. apply step_history_array; assumption.
Qed.

(** X2.  As long as every session detail that arrives has an array as its
    [history], or none, the local history is an array after any sequence of
    events from the start of the page on, whatever the replies to the
    messages contain. *)
Theorem run_history_array (stored : option string) (evs : list event) :
  forallb history_well_typed evs = true ->
  exists l, chatStateHistory (run evs (initial stored)) = JArr l.
Proof.
  intros Hevs.
  pose proof (run_history_is_array evs (initial stored) Hevs eq_refl) as H.
  destruct (chatStateHistory (run evs (initial stored))); try discriminate.
  eauto.
Qed.

Lemma run_history_array_witness :
  exists l,
    chatStateHistory
      (run [Loads;
            Arrives AwaitSessions (Http 200 (Some (JObj [("sessions", JArr two_sessions)])));
            Arrives (AwaitSession (JStr "B"))
              (Http 200 (Some (JObj [("history", JNull)])));
            Typed "hello"; Send;
            Arrives (AwaitChat "hello")
              (Http 200 (Some (JObj [("content", JStr "Hi!");
                                     ("conversation_history", JStr "none")])))]
         (initial (Some "B")))
    = JArr l.
Proof.
  apply (run_history_array (Some "B")). vm_compute. reflexivity.
Defined.

(** X3.  Once the first load has completed, the arrival of the session list
    is harmless, whatever it contains: it starts nothing, sends nothing, and
    leaves the conversation, the session, the pointer, the message field and
    the chat area as they are.  Only the sidebar and the log can change. *)
Theorem refresh_is_harmless (resp : response) (st : state) :
  isFirstLoad st = false ->
  let st' := fst (fetchSessions_resume resp st) in
  snd (fetchSessions_resume resp st) = []
  /\ network st' = network st
  /\ chatStateHistory st' = chatStateHistory st
  /\ lastTutorialSteps st' = lastTutorialSteps st
  /\ currentSessionId st' = currentSessionId st
  /\ activeSessionId st' = activeSessionId st
  /\ messageInput st' = messageInput st
  /\ sendBtn_disabled st' = sendBtn_disabled st
  /\ chatHistory st' = chatHistory st
  /\ chatHistory_active st' = chatHistory_active st
  /\ welcome_hidden st' = welcome_hidden st
  /\ isFirstLoad st' = false.
Proof.
  intros Hfirst st'. subst st'.
  destruct (fetchSessions_resume_later resp st Hfirst)
    as (Hts & st1 & [->|[content ->]] & [->|[e ->]]);
    (split; [exact Hts|]); state_simpl; rewrite Hfirst; repeat split; reflexivity.
Qed.

Lemma refresh_is_harmless_witness :
  chatStateHistory
    (fst (fetchSessions_resume (Http 200 (Some (JObj [("sessions", JNum 7)])))
            after_tutorial))
  = chatStateHistory after_tutorial.
Proof.
  apply (refresh_is_harmless (Http 200 (Some (JObj [("sessions", JNum 7)])))
           after_tutorial).
  vm_compute. reflexivity.
Defined.

(** ** Loading a session *)

(** X4.  When the detail of a session arrives (2xx, a body that is not
    [null]), the local history becomes the [history] of the body as it is,
    entries of any form included, or an empty array when the body has none;
    this holds even when the replay of the history throws.  On any other
    response the local history is kept. *)
Theorem loaded_history_verbatim (resp : response) (st : state) :
  chatStateHistory (selectSession_resume resp st)
  = if session_loaded resp then loaded_history resp else chatStateHistory st.
Proof. exact (selectSession_resume_chatStateHistory resp st). Qed.

Lemma addMessage_page (text : jsval) (isUser : bool) (responseData : jsval)
    (animate : bool) :
  exists content r,
    forall st,
      chatHistory (fst (addMessage text isUser responseData animate st))
      = chatHistory st ++ [Message isUser content]
      /\ snd (addMessage text isUser responseData animate st) = r.
Proof.
  unfold addMessage. destruct isUser.
  - do 2 eexists. intros [? ? ? ? ? ? ? ? shown ? ? ? ? ? ? ?]; simpl.
    destruct shown; split; reflexivity.
  - destruct (assistant_content text responseData animate);
      do 2 eexists; intros [? ? ? ? ? ? ? ? shown ? ? ? ? ? ? ?]; simpl;
      destruct shown; split; reflexivity.
Qed.

Lemma replay_entry_page (msg : jsval) :
  exists shown r,
    (List.length shown <= 1)%nat
    /\ no_indicator shown = true
    /\ forall st,
         chatHistory (fst (replay_entry msg st)) = chatHistory st ++ shown
         /\ snd (replay_entry msg st) = r.
Proof.
  assert (Hnone : exists shown r,
             (List.length shown <= 1)%nat
             /\ no_indicator shown = true
             /\ forall st : state,
                  chatHistory st = chatHistory st ++ shown /\ Ok tt = r).
  { exists [], (Ok tt). repeat split; [apply Nat.le_0_l|symmetry; apply app_nil_r]. }
  assert (Hadd : forall text isUser responseData,
             exists shown r,
               (List.length shown <= 1)%nat
               /\ no_indicator shown = true
               /\ forall st,
                    chatHistory (fst (addMessage text isUser responseData false st))
                    = chatHistory st ++ shown
                    /\ snd (addMessage text isUser responseData false st) = r).
  { intros text isUser responseData.
    destruct (addMessage_page text isUser responseData false) as (content & r & H).
    exists [Message isUser content], r. repeat split; try apply H. apply Nat.le_refl. }
  unfold replay_entry.
  destruct msg as [| | b | n | s | l | ps]; try exact Hnone.
  - destruct (startsWith s "User: "); [apply Hadd|].
    destruct (startsWith s "Assistant: "); [apply Hadd|exact Hnone].
  - destruct (get (JObj ps) "role"), (get (JObj ps) "content"), (get (JObj ps) "data");
      try (exists [], (Throw TypeError); repeat split;
           [apply Nat.le_0_l|symmetry; apply app_nil_r]).
    destruct (strict_eq a (JStr "user")); [apply Hadd|].
    destruct (strict_eq a (JStr "assistant")); [apply Hadd|exact Hnone].
Qed.

Lemma replay_page (msgs : list jsval) :
  exists shown r,
    (List.length shown <= List.length msgs)%nat
    /\ no_indicator shown = true
    /\ forall st,
         chatHistory (fst (replay msgs st)) = chatHistory st ++ shown
         /\ snd (replay msgs st) = r.
Proof.
  induction msgs as [|msg msgs IH].
  - exists [], (Ok tt). repeat split; [apply Nat.le_0_l|symmetry; apply app_nil_r].
  - destruct (replay_entry_page msg) as (shown1 & r1 & Hlen1 & Hno1 & H1).
    destruct IH as (shown2 & r2 & Hlen2 & Hno2 & H2).
    destruct r1 as [[]|e].
    + exists (shown1 ++ shown2), r2. split; [|split].
      * rewrite length_app. cbn [List.length]. lia.
      * unfold no_indicator in *. rewrite forallb_app, Hno1, Hno2. reflexivity.
      * intros st. cbn [replay]. destruct (H1 st) as [Hshown Hr].
        destruct (replay_entry msg st) as [st1 r]. cbn [fst snd] in *. subst r.
        destruct (H2 st1) as [Hshown2 Hr2]. rewrite Hshown2, Hshown, app_assoc.
        split; [reflexivity|exact Hr2].
    + exists shown1, (Throw e). split; [|split].
      * cbn [List.length]. lia.
      * exact Hno1.
      * intros st. cbn [replay]. destruct (H1 st) as [Hshown Hr].
        destruct (replay_entry msg st) as [st1 r]. cbn [fst snd] in *. subst r.
        split; [exact Hshown|reflexivity].
Qed.

Lemma hydrate_page (data : jsval) :
  exists shown,
    no_indicator shown = true
    /\ (forall msgs, field data "history" = JArr msgs ->
                     (List.length shown <= List.length msgs)%nat)
    /\ forall st, chatHistory (fst (hydrate data st)) = shown.
Proof.
  unfold hydrate, field.
  destruct (get data "history") as [history|e].
  - destruct (or_else history (JArr [])) as [| |b|n|s|msgs|ps] eqn:Hh.
    1-5, 7: exists []; split; [reflexivity|]; split;
      [intros msgs _; apply Nat.le_0_l|];
      intros st; state_simpl;
      match goal with
      | |- context [get ?h "length"] => destruct (get h "length") as [len|e]
      end; [|cbn [fst]; state_simpl; reflexivity];
      destruct (gt len (JNum 0)); cbn [fst]; state_simpl; reflexivity.
    destruct (replay_page msgs) as (shown & r & Hlen & Hno & H).
    exists (if gt (JNum (Z.of_nat (List.length msgs))) (JNum 0) then shown else []).
    split; [|split].
    + destruct (gt _ _); [exact Hno|reflexivity].
    + intros msgs' ->. unfold or_else in Hh. cbn [truthy] in Hh.
      injection Hh as ->. destruct (gt _ _); [exact Hlen|apply Nat.le_0_l].
    + intros st. state_simpl.
      change (get (JArr msgs) "length")
        with (Ok (A := jsval) (JNum (Z.of_nat (List.length msgs)))).
      cbv iota. destruct (gt _ _).
      * state_simpl. destruct (H (set_chatHistory_active true
                                   (set_actions_hidden true
                                      (set_welcome_hidden true
                                         (set_lastTutorialSteps (JArr [])
                                            (set_chatStateHistory (JArr msgs)
                                               (set_chatHistory [] st)))))))
          as [-> _].
        state_simpl. reflexivity.
      * cbn [fst]. state_simpl. reflexivity.
  - exists []. split; [reflexivity|]. split; [intros msgs H; discriminate H|].
    intros st. cbn [fst]. state_simpl. reflexivity.
Qed.

(** X5.  What the chat area shows after the detail of a session has arrived
    (2xx, JSON) depends on the body alone: nothing of what was shown before
    remains, also when the body is malformed or the replay throws.  It shows
    no typing indicator, and at most one message for each entry of the
    history. *)
Theorem loaded_page (status : Z) (data : jsval) :
  status_ok status = true ->
  exists shown,
    no_indicator shown = true
    /\ (forall msgs, field data "history" = JArr msgs ->
                     (List.length shown <= List.length msgs)%nat)
    /\ forall st,
         chatHistory (selectSession_resume (Http status (Some data)) st) = shown.
Proof.
  intros Hok. destruct (hydrate_page data) as (shown & Hno & Hlen & H).
  exists shown. split; [exact Hno|]. split; [exact Hlen|].
  intros st. unfold selectSession_resume. rewrite Hok. cbn [negb].
  specialize (H st). destruct (hydrate data st) as [st1 [[]|e]]; cbn [fst] in H;
    state_simpl; exact H.
Qed.

Lemma loaded_page_witness :
  exists shown,
    no_indicator shown = true
    /\ (forall msgs,
          field (JObj [("history", JArr [JStr "User: hi"; JNum 3])]) "history"
          = JArr msgs ->
          (List.length shown <= List.length msgs)%nat)
    /\ forall st,
         chatHistory
           (selectSession_resume
              (Http 200 (Some (JObj [("history", JArr [JStr "User: hi"; JNum 3])])))
              st)
         = shown.
Proof.
  apply (loaded_page 200 (JObj [("history", JArr [JStr "User: hi"; JNum 3])])).
  reflexivity.
Defined.

(** ** Rendering *)

Lemma forEach_buttons (actions : list jsval) (html : list markup) :
  forEach (fun action html => Ok (html ++ [Button (dom_string action)])) actions html
  = Ok (html ++ map (fun action => Button (dom_string action)) actions).
Proof.
  revert html. induction actions as [|action actions IH]; intros html.
  - cbn [forEach map]. rewrite app_nil_r. reflexivity.
  - cbn [forEach map bind]. rewrite IH, <- app_assoc. reflexivity.
Qed.

Lemma renderSuggestedActions_array (actions : list jsval) :
  renderSuggestedActions (JArr actions)
  = Ok match actions with
       | [] => []
       | _ :: _ => action_buttons actions
       end.
Proof.
  unfold renderSuggestedActions. destruct actions as [|action actions]; [reflexivity|].
  cbn [truthy negb].
  change (get (JArr (action :: actions)) "length")
    with (Ok (A := jsval) (JNum (Z.of_nat (List.length (action :: actions))))).
  cbn [bind strict_eq].
  replace (Z.of_nat (List.length (action :: actions)) =? 0)%Z with false
    by (symmetry; apply Z.eqb_neq; cbn [List.length]; lia).
  cbn [forEach_val]. rewrite forEach_buttons. reflexivity.
Qed.

(** X6.  Plain suggested actions become one button each, in the order of
    the array, labelled with the action; an empty array, or no actions at
    all, gives nothing.  Anything else that is not an array makes the
    rendering throw, unless it has a [length] of 0. *)
Theorem suggested_actions_buttons (actions : jsval) :
  plain actions = true ->
  renderSuggestedActions actions
  = match actions with
    | JArr [] => Ok []
    | JArr l => Ok (action_buttons l)
    | _ =>
        if negb (truthy actions) || strict_eq (field actions "length") (JNum 0)
        then Ok []
        else Throw TypeError
    end.
Proof.
  intros _. destruct actions as [| |b|n|s|l|ps]; try reflexivity.
  - destruct b; reflexivity.
  - unfold renderSuggestedActions. cbn [truthy]. destruct (n =? 0)%Z; reflexivity.
  - unfold renderSuggestedActions, field. cbn [truthy].
    destruct (s =? "")%string; cbn [negb orb]; [reflexivity|].
    destruct (get (JStr s) "length") as [len|e] eqn:Hlen; [|discriminate].
    cbn [bind]. destruct (strict_eq len (JNum 0)); reflexivity.
  - rewrite renderSuggestedActions_array. destruct l; reflexivity.
Qed.

Lemma suggested_actions_buttons_witness :
  renderSuggestedActions (JArr [JStr "How to edit a region?"; JNum 2])
  = Ok (action_buttons [JStr "How to edit a region?"; JNum 2]).
Proof.
  apply (suggested_actions_buttons (JArr [JStr "How to edit a region?"; JNum 2])).
  reflexivity.
Defined.

Lemma sidebar_items_map (current : jsval) (sessions : list jsval) :
  sidebar_items current sessions
  = if forallb (fun s => negb (is_nullish s)) sessions
    then Ok (map (item_of current) sessions)
    else Throw TypeError.
Proof.
  induction sessions as [|session sessions IH]; [reflexivity|].
  cbn [sidebar_items forallb map]. unfold item_of at 1. unfold field.
  destruct session; cbn [get bind is_nullish negb andb]; try reflexivity;
    rewrite IH; destruct (forallb _ sessions); reflexivity.
Qed.

(** X7.  The sidebar for a list of plain sessions: "No chats yet" for the
    empty list; otherwise one item for each session, in the order of the
    list, with the title of the session ("Untitled Chat" when it has none)
    and marked active when its id is the active session.  A [null] entry
    makes the display throw, and the sidebar stays blank. *)
Theorem displaySessions_list (sessions : list jsval) (st : state) :
  forallb plain sessions = true ->
  displaySessions (JArr sessions) st
  = if forallb (fun s => negb (is_nullish s)) sessions
    then (set_sidebarContent
            match sessions with
            | [] => NoChatsYet
            | _ :: _ => RecentChats (map (item_of (currentSessionId st)) sessions)
            end st, Ok tt)
    else (set_sidebarContent SidebarBlank st, Throw TypeError).
Proof.
  intros _. unfold displaySessions. cbn [truthy negb].
  change (get (JArr sessions) "length")
    with (Ok (A := jsval) (JNum (Z.of_nat (List.length sessions)))).
  cbv iota. destruct sessions as [|session sessions].
  - cbn [List.length Z.of_nat strict_eq Z.eqb forallb].
    rewrite set_sidebarContent_twice. reflexivity.
  - cbn [strict_eq].
    replace (Z.of_nat (List.length (session :: sessions)) =? 0)%Z with false
      by (symmetry; apply Z.eqb_neq; cbn [List.length]; lia).
    rewrite sidebar_items_map. state_simpl.
    destruct (forallb _ (session :: sessions)); [|reflexivity].
    rewrite set_sidebarContent_twice. reflexivity.
Qed.

Lemma displaySessions_list_witness :
  displaySessions (JArr two_sessions) landing
  = (set_sidebarContent
       (RecentChats (map (item_of (currentSessionId landing)) two_sessions))
       landing, Ok tt).
Proof.
  apply (displaySessions_list two_sessions landing). reflexivity.
Defined.

Lemma typeWriter_text (s : string) : typeWriter (JStr s) = Ok (Marked s).
Proof.
  unfold typeWriter.
  change (get (JStr s) "length")
    with (Ok (A := jsval) (JNum (Z.of_nat (String.length s)))).
  cbn [bind]. destruct (gt _ _); reflexivity.
Qed.

Lemma typeWriter_not_text (v : jsval) :
  is_string v = false -> exists e, typeWriter v = Throw e.
Proof.
  intros Hv. destruct (typeWriter v) as [m|e] eqn:H; [|eauto].
  apply typeWriter_string in H. destruct H as [s ->]. discriminate.
Qed.

(** X8.  The animated rendering of an assistant message (a live reply) and
    the instant one (a replayed entry) throw on the same inputs; when they
    do not, they show the same text, through [marked], and the same
    structured content, and differ only in the blocks put around them. *)
Theorem rendering_modes (text responseData : jsval) :
  match assistant_content text responseData true,
        assistant_content text responseData false with
  | Ok live, Ok still =>
      exists prose complex,
        (prose = [] \/ exists s, prose = [Marked s])
        /\ still = prose ++ wrap "" complex
        /\ live = (if nonempty prose
                   then El "div" "" prose :: wrap "fade-in" complex
                   else complex)
  | Throw _, Throw _ => True
  | _, _ => False
  end.
Proof.
  unfold assistant_content, assistant_parts.
  match goal with
  | |- context [bind ?m _] =>
      match m with
      | (if truthy responseData then _ else _) => destruct m as [[t complex]|e]
      end
  end; [|exact I].
  cbn [bind fst snd].
  destruct (truthy t) eqn:Ht.
  - destruct (is_string t) eqn:Hs.
    + destruct t; try discriminate. rewrite typeWriter_text. cbn [bind marked_parse].
      exists [Marked s], complex. split; [right; eauto|]. split; reflexivity.
    + destruct (typeWriter_not_text t Hs) as [e ->].
      destruct t; try discriminate; exact I.
  - exists [], complex. split; [left; reflexivity|]. split; reflexivity.
Qed.

(** ** Replies of the documented shapes *)

Lemma returns_Ok {A : Type} (a : A) : returns (Ok a).
Proof. exists a. reflexivity. Qed.

Lemma returns_bind {A B : Type} (m : res A) (k : A -> res B) :
  returns m -> (forall a, returns (k a)) -> returns (x <- m ;; k x).
Proof. intros [a ->] Hk. apply Hk. Qed.

Lemma returns_forEach {S : Type} (f : jsval -> S -> res S) (l : list jsval) :
  (forall x acc, In x l -> returns (f x acc)) ->
  forall acc, returns (forEach f l acc).
Proof.
  induction l as [|x l IH]; intros Hf acc; [apply returns_Ok|].
  cbn [forEach]. apply returns_bind; [apply Hf; left; reflexivity|].
  intros acc'. apply IH. intros y acc'' Hy. apply Hf. right. exact Hy.
Qed.

Lemma get_non_nullish (v : jsval) (k : string) :
  is_nullish v = false -> get v k = Ok (field v k).
Proof. unfold field. destruct v; try discriminate; reflexivity. Qed.

Lemma marked_parse_returns (v : jsval) :
  is_text v = true -> returns (marked_parse (or_else v (JStr ""))).
Proof.
  unfold or_else. destruct v; try discriminate; intros _; cbn [truthy];
    try apply returns_Ok.
  destruct (negb (s =? "")%string); apply returns_Ok.
Qed.

Lemma optional_marked_returns (v : jsval) (k : markup -> res (list markup)) :
  (forall m, returns (k m)) -> is_text v = true ->
  returns (if truthy v then m <- marked_parse v ;; k m else Ok []).
Proof.
  intros Hk. destruct v; try discriminate; intros _; cbn [truthy];
    try apply returns_Ok.
  destruct (negb (s =? "")%string); [apply Hk|apply returns_Ok].
Qed.

Lemma renderSuggestedActions_returns (v : jsval) :
  is_list v = true -> returns (renderSuggestedActions v).
Proof.
  destruct v; try discriminate; intros _; try apply returns_Ok.
  rewrite renderSuggestedActions_array. apply returns_Ok.
Qed.

Lemma step_image_returns (step : jsval) :
  is_nullish step = false -> is_text (field step "image") = true ->
  returns (step_image step).
Proof.
  intros Hstep Himage. unfold step_image.
  rewrite (get_non_nullish step "image" Hstep). cbn [bind].
  destruct (field step "image"); try discriminate; cbn [truthy]; try apply returns_Ok.
  destruct (negb (s =? "")%string); [|apply returns_Ok].
  rewrite (get_non_nullish step "step_number" Hstep). apply returns_Ok.
Qed.

Lemma list_block_returns (v : jsval) (f : jsval -> list markup -> res (list markup))
    (k : list markup -> res (list markup)) :
  is_list v = true ->
  (forall x acc, In x (items_of v) -> returns (f x acc)) ->
  (forall items, returns (k items)) ->
  returns (if truthy v then
             len <- get v "length" ;;
             if gt len (JNum 0) then items <- forEach_val f v [] ;; k items
             else Ok []
           else Ok []).
Proof.
  intros Hv Hf Hk. destruct v; try discriminate; try apply returns_Ok.
  cbn [truthy].
  change (get (JArr items) "length")
    with (Ok (A := jsval) (JNum (Z.of_nat (List.length items)))).
  cbn [bind]. destruct (gt _ _); [|apply returns_Ok].
  apply returns_bind; [|exact Hk]. cbn [forEach_val].
  apply returns_forEach. exact Hf.
Qed.

Lemma well_formed_step_inv (key : string) (step : jsval) :
  well_formed_step key step = true ->
  is_nullish step = false
  /\ (exists s, field step key = JStr s)
  /\ is_text (field step "image") = true.
Proof.
  unfold well_formed_step. intros H.
  apply andb_true_iff in H. destruct H as [H Himage].
  apply andb_true_iff in H. destruct H as [Hstep Htext].
  apply negb_true_iff in Hstep.
  destruct (field step key); try discriminate. eauto.
Qed.

Lemma well_formed_complex (ps : list (string * jsval)) :
  shaped_reply (JObj ps) = true ->
  returns (if strict_eq (field (JObj ps) "type") (JStr "tutorial") then
             renderTutorialResponse (dataForRender (JObj ps))
           else if strict_eq (field (JObj ps) "type") (JStr "tutorial_clarify") then
             renderTutorialClarifyResponse (dataForRender (JObj ps))
           else if strict_eq (field (JObj ps) "type") (JStr "capabilities") then
             renderCapabilitiesResponse (dataForRender (JObj ps))
           else renderRegularResponse (dataForRender (JObj ps))).
Proof.
  unfold shaped_reply. intros H.
  apply andb_true_iff in H. destruct H as [H Htype].
  apply andb_true_iff in H. destruct H as [_ Hactions].
  cbn [field get] in Hactions.
  unfold dataForRender. cbn [own_props].
  destruct (strict_eq (field (JObj ps) "type") (JStr "tutorial")).
  { apply andb_true_iff in Htype. destruct Htype as [Htype Hcompletion].
    apply andb_true_iff in Htype. destruct Htype as [Htype Htip].
    apply andb_true_iff in Htype. destruct Htype as [Htype Hsteps].
    apply andb_true_iff in Htype. destruct Htype as [Hnote Hlist].
    cbn [field get] in Hcompletion, Htip, Hsteps, Hnote, Hlist.
    unfold renderTutorialResponse.
    cbn [get assoc String.eqb Ascii.eqb Bool.eqb bind].
    apply returns_bind;
      [apply optional_marked_returns; [intros; apply returns_Ok|exact Hnote]|].
    intros note. apply returns_bind.
    - apply list_block_returns; [exact Hlist| |intros; apply returns_Ok].
      intros step acc Hin.
      assert (Hstep : well_formed_step "text" step = true).
      { rewrite forallb_forall in Hsteps. apply Hsteps, Hin. }
      apply well_formed_step_inv in Hstep. destruct Hstep as (Hnn & [t Ht] & Himage).
      rewrite (get_non_nullish step "step_number" Hnn),
        (get_non_nullish step "text" Hnn), Ht.
      cbn [bind marked_parse].
      apply returns_bind; [apply step_image_returns; assumption|].
      intros; apply returns_Ok.
    - intros container.
      apply returns_bind; [apply marked_parse_returns, Htip|]. intros tip.
      apply returns_bind; [apply marked_parse_returns, Hcompletion|]. intros completion.
      apply returns_bind; [apply renderSuggestedActions_returns, Hactions|].
      intros; apply returns_Ok. }
  destruct (strict_eq (field (JObj ps) "type") (JStr "tutorial_clarify")).
  { cbn [field get] in Htype.
    apply well_formed_step_inv in Htype. destruct Htype as (Hnn & [t Ht] & Himage).
    unfold renderTutorialClarifyResponse.
    cbn [get assoc String.eqb Ascii.eqb Bool.eqb bind].
    rewrite (get_non_nullish _ "step_number" Hnn), (get_non_nullish _ "clarified" Hnn), Ht.
    cbn [bind marked_parse].
    apply returns_bind; [apply step_image_returns; assumption|]. intros image.
    apply returns_bind; [apply renderSuggestedActions_returns, Hactions|].
    intros; apply returns_Ok. }
  destruct (strict_eq (field (JObj ps) "type") (JStr "capabilities")).
  { apply andb_true_iff in Htype. destruct Htype as [Hlist Hfeatures].
    cbn [field get] in Hlist, Hfeatures.
    unfold renderCapabilitiesResponse.
    cbn [get assoc String.eqb Ascii.eqb Bool.eqb bind].
    apply returns_bind.
    - destruct (assoc "features" ps) as [| |b|n|s|features|fs] eqn:Hf;
        try discriminate; try apply returns_Ok.
      cbn [truthy].
      change (get (JArr features) "length")
        with (Ok (A := jsval) (JNum (Z.of_nat (List.length features)))).
      cbn [bind]. destruct (gt _ _); [|apply returns_Ok].
      cbn [forEach_val]. apply returns_forEach. intros feature acc Hin.
      assert (Hnn : is_nullish feature = false).
      { cbn [items_of] in Hfeatures. rewrite forallb_forall in Hfeatures.
        apply negb_true_iff, Hfeatures, Hin. }
      rewrite (get_non_nullish feature "icon" Hnn),
        (get_non_nullish feature "title" Hnn),
        (get_non_nullish feature "description" Hnn).
      apply returns_Ok.
    - intros cards.
      apply returns_bind; [apply renderSuggestedActions_returns, Hactions|].
      intros; apply returns_Ok. }
  cbn [field get] in Htype.
  unfold renderRegularResponse.
  cbn [get assoc String.eqb Ascii.eqb Bool.eqb bind].
  apply returns_bind;
    [apply optional_marked_returns; [intros; apply returns_Ok|exact Htype]|].
  intros completion.
  apply returns_bind; [apply renderSuggestedActions_returns, Hactions|].
  intros; apply returns_Ok.
Qed.

Lemma well_formed_shaped (data : jsval) :
  well_formed_reply data = true -> shaped_reply data = true /\ plain data = true.
Proof. unfold well_formed_reply. intros H. apply andb_true_iff in H. exact H. Qed.

Lemma well_formed_renders (data : jsval) (animate : bool) :
  shaped_reply data = true ->
  returns (assistant_content (JStr "") data animate).
Proof.
  intros H. destruct data as [| | | | | |ps]; try discriminate.
  destruct (well_formed_complex ps H) as [complex Hcomplex].
  unfold shaped_reply in H.
  apply andb_true_iff in H. destruct H as [H _].
  apply andb_true_iff in H. destruct H as [H _].
  apply andb_true_iff in H. destruct H as [_ Hcontent].
  unfold assistant_content, assistant_parts. cbn [truthy].
  change (get (JObj ps) "content") with (Ok (A := jsval) (field (JObj ps) "content")).
  change (get (JObj ps) "type") with (Ok (A := jsval) (field (JObj ps) "type")).
  cbn [bind]. rewrite Hcomplex. cbn [bind fst snd].
  assert (Htext : or_else (field (JObj ps) "content") (JStr "") = JStr ""
                  \/ exists s, or_else (field (JObj ps) "content") (JStr "") = JStr s
                               /\ truthy (JStr s) = true).
  { unfold or_else. destruct (field (JObj ps) "content"); try discriminate; auto.
    destruct (truthy (JStr s)) eqn:Hs; eauto. }
  destruct Htext as [-> | [s [-> Hs]]].
  - destruct animate; cbn [truthy String.eqb negb bind]; apply returns_Ok.
  - rewrite Hs. destruct animate.
    + rewrite typeWriter_text. apply returns_Ok.
    + apply returns_Ok.
Qed.

(** ** When the processing of a reply throws *)

Lemma process_reply_outcome (data : jsval) (l : list jsval) (st : state) :
  chatStateHistory st = JArr l ->
  reply_accepted data st = rendered data && negb (is_nullish data).
Proof.
  intros Hl. unfold reply_accepted, process_reply, rendered.
  pose proof (addMessage_chatStateHistory (JStr "") false data true st) as Hh.
  pose proof (snd_addMessage (JStr "") data true st) as Hr.
  destruct (addMessage (JStr "") false data true st) as [st1 r1];
    cbn [fst snd] in Hh, Hr.
  destruct (assistant_content (JStr "") data true) as [content|e0] eqn:Hrender;
    subst r1; [|reflexivity].
  cbn [andb].
  destruct (update_tutorial data st1) as [st2|e2] eqn:Hupd.
  2: { unfold update_tutorial in Hupd.
       destruct (get data "type") as [x|e3] eqn:Htype.
       - rewrite (get_ok_field _ _ _ Htype "steps") in Hupd. unfold bind in Hupd.
         destruct (strict_eq x (JStr "tutorial") && is_array (field data "steps"));
           discriminate.
       - destruct data; cbn [get] in Htype; try discriminate; reflexivity. }
  assert (Hget : exists x, get data "type" = Ok x).
  { unfold update_tutorial in Hupd.
    destruct (get data "type") as [x|]; [eauto|discriminate]. }
  destruct Hget as [x Hget].
  assert (Hnn : is_nullish data = false)
    by (destruct data; try reflexivity; discriminate).
  rewrite Hnn. cbn [negb].
  assert (Hl2 : chatStateHistory st2 = JArr l).
  { apply update_tutorial_inv in Hupd.
    destruct Hupd as [[_ ->]|[_ ->]]; [state_simpl|]; rewrite Hh; exact Hl. }
  destruct (append_assistant_rendered data content x l st2 Hrender Hget Hl2)
    as [st3 Happ].
  rewrite Happ, (get_ok_field _ _ _ Hget "conversation_history").
  assert (Hl3 : exists l3, chatStateHistory st3 = JArr l3).
  { apply append_assistant_inv in Happ.
    destruct Happ as [->|[l2 [text [_ ->]]]]; [eauto|].
    state_simpl. eauto. }
  destruct Hl3 as [l3 Hl3].
  rewrite (reconcile_array _ l3 st3 Hl3).
  match goal with
  | |- context [refresh_after_send ?s] =>
      assert (Hl4 : exists l4, chatStateHistory s = JArr l4)
  end.
  { destruct (field data "conversation_history"); eauto.
    destruct (List.length l3 <=? List.length items)%nat; [state_simpl|]; eauto. }
  destruct Hl4 as [l4 Hl4].
  rewrite (refresh_after_send_array l4 _ Hl4).
  destruct (List.length l4 <=? 2)%nat; reflexivity.
Qed.

Lemma chat_failed_cases (resp : response) (l : list jsval) (st : state) :
  chatStateHistory st = JArr l ->
  chat_failed resp st
  = match resp with
    | Rejected => true
    | Http status body =>
        negb (status_ok status)
        || match body with
           | None => true
           | Some data => negb (rendered data) || is_nullish data
           end
    end.
Proof.
  intros Hl. unfold chat_failed. destruct resp as [|status [data|]]; try reflexivity.
  f_equal.
  assert (Hl' : chatStateHistory (removeTypingIndicator st) = JArr l)
    by (unfold removeTypingIndicator; state_simpl; exact Hl).
  pose proof (process_reply_outcome data l _ Hl') as H. unfold reply_accepted in H.
  destruct (snd (process_reply data (removeTypingIndicator st)));
    destruct (rendered data), (is_nullish data); cbn in H |- *; congruence.
Qed.

(** X9.  With a local history that is an array, a send fails on a response
    of the chat endpoint whose body is plain in exactly these cases: the
    request is rejected, the status is not 2xx, the body is not JSON, the
    body is [null], or the rendering of the reply throws.  Nothing else in
    the reply (its history, its summary, its steps) can make it fail. *)
Theorem send_fails_exactly (resp : response) (l : list jsval) (st : state) :
  chatStateHistory st = JArr l ->
  plain_body resp = true ->
  chat_failed resp st
  = match resp with
    | Rejected => true
    | Http status body =>
        negb (status_ok status)
        || match body with
           | None => true
           | Some data => negb (rendered data) || is_nullish data
           end
    end.
Proof. intros Hl _. exact (chat_failed_cases resp l st Hl). Qed.

Lemma send_fails_exactly_witness :
  chat_failed
    (Http 200 (Some (JObj [("type", JStr "general"); ("content", JStr "Hi!");
                           ("conversation_history", JNum 4);
                           ("summary", JObj [])])))
    waiting_for_reply
  = false.
Proof.
  rewrite (send_fails_exactly _ [JStr "User: hi"] waiting_for_reply); reflexivity.
Defined.

(** X10.  A well-formed reply (plain, of one of the documented shapes) is
    always rendered, live and replayed; with a 2xx status and a local
    history that is an array, the send that receives it does not fail. *)
Theorem well_formed_reply_shown (status : Z) (data : jsval) (l : list jsval)
    (st : state) :
  well_formed_reply data = true ->
  status_ok status = true ->
  chatStateHistory st = JArr l ->
  returns (assistant_content (JStr "") data true)
  /\ returns (assistant_content (JStr "") data false)
  /\ chat_failed (Http status (Some data)) st = false.
Proof.
  intros H Hok Hl. apply well_formed_shaped in H. destruct H as [H _].
  split; [apply well_formed_renders, H|].
  split; [apply well_formed_renders, H|].
  rewrite (chat_failed_cases _ l st Hl), Hok.
  unfold rendered. destruct (well_formed_renders data true H) as [content ->].
  destruct data; try discriminate. reflexivity.
Qed.

Lemma well_formed_reply_shown_witness :
  returns (assistant_content (JStr "") tutorial_two_steps true)
  /\ returns (assistant_content (JStr "") tutorial_two_steps false)
  /\ chat_failed (Http 200 (Some tutorial_two_steps)) waiting_for_reply = false.
Proof.
  apply (well_formed_reply_shown 200 tutorial_two_steps [JStr "User: hi"]
           waiting_for_reply); reflexivity.
Defined.

(** ** The chat area after a send *)

Lemma process_reply_rendering {A : Type} (p : state -> A) (data : jsval) (st : state) :
  (forall v s, p (set_chatStateHistory v s) = p s) ->
  (forall v s, p (set_lastTutorialSteps v s) = p s) ->
  (forall r s, p (fetch r s) = p s) ->
  p (fst (fst (process_reply data st)))
  = p (fst (addMessage (JStr "") false data true st)).
Proof.
  intros H1 H2 H9. unfold process_reply.
  destruct (addMessage (JStr "") false data true st) as [st1 r1]; cbn [fst].
  destruct r1 as [[]|e]; [|reflexivity].
  destruct (update_tutorial data st1) as [st2|e2] eqn:Hupd; [|reflexivity].
  assert (H2' : p st2 = p st1).
  { apply update_tutorial_inv in Hupd.
    destruct Hupd as [[_ ->]|[_ ->]]; [apply H2|reflexivity]. }
  destruct (append_assistant data st2) as [st3|e3] eqn:Happ; [|exact H2'].
  apply append_assistant_only in Happ. destruct Happ as [h3 ->].
  destruct (get data "conversation_history") as [conv|e4];
    [|cbn [fst]; rewrite H1; exact H2'].
  pose proof (reconcile_only conv (set_chatStateHistory h3 st2)) as Hrec.
  destruct (reconcile conv (set_chatStateHistory h3 st2)) as [st4 r4].
  cbn [fst] in Hrec. destruct Hrec as [h4 ->].
  destruct r4 as [[]|e5]; [|cbn [fst]; rewrite !H1; exact H2'].
  destruct (refresh_after_send_cases
              (set_chatStateHistory h4 (set_chatStateHistory h3 st2)))
    as [->|[r ->]]; cbn [fst]; rewrite ?H9, !H1; exact H2'.
Qed.

Lemma remove_first_indicator_none (l : list element) :
  no_indicator l = true -> remove_first_indicator l = l.
Proof.
  induction l as [|m l IH]; [reflexivity|].
  unfold no_indicator in *. cbn [forallb]. intros H.
  apply andb_true_iff in H. destruct H as [Hm Hl].
  destruct m; [|discriminate]. cbn [remove_first_indicator]. rewrite IH; auto.
Qed.

Lemma remove_first_indicator_last (l rest : list element) :
  no_indicator l = true ->
  remove_first_indicator (l ++ TypingIndicator :: rest) = l ++ rest.
Proof.
  induction l as [|m l IH]; [reflexivity|].
  unfold no_indicator in *. cbn [forallb]. intros H.
  apply andb_true_iff in H. destruct H as [Hm Hl].
  destruct m; [|discriminate]. cbn [app remove_first_indicator]. rewrite IH; auto.
Qed.

Lemma sending_chatHistory (message : string) (l : list jsval) (st : state) :
  chatHistory (sending message l st)
  = chatHistory st ++ [Message true [Escaped message]; TypingIndicator].
Proof.
  unfold sending, showTypingIndicator. state_simpl.
  rewrite addMessage_user_chatHistory, <- app_assoc. reflexivity.
Qed.

(** What the response of the chat endpoint leaves in the chat area, once
    the indicator is removed. *)
Lemma chat_resume_page (resp : response) (st : state) (l : list jsval)
    (shown : list element) :
  chatStateHistory st = JArr l ->
  remove_first_indicator (chatHistory st) = shown ->
  no_indicator shown = true ->
  chatHistory (fst (chat_resume resp st)) = shown ++ chat_answer resp.
Proof.
  intros Hl Hshown Hno. unfold chat_resume, chat_answer.
  assert (Hrem : chatHistory (removeTypingIndicator st) = shown)
    by (unfold removeTypingIndicator; state_simpl; exact Hshown).
  assert (Hfail : forall e,
             chatHistory (send_failed e (removeTypingIndicator st))
             = shown ++ [generic_error]).
  { intros e. rewrite send_failed_chatHistory, Hrem.
    rewrite (remove_first_indicator_none shown Hno). reflexivity. }
  destruct resp as [|status body].
  - cbn [fst]. rewrite send_failed_chatHistory, Hshown. reflexivity.
  - destruct (status_ok status); cbn [negb]; [|destruct body; apply Hfail].
    destruct body as [data|]; [|apply Hfail].
    assert (Hl' : chatStateHistory (removeTypingIndicator st) = JArr l)
      by (unfold removeTypingIndicator; state_simpl; exact Hl).
    pose proof (process_reply_outcome data l _ Hl') as Haccepted.
    unfold reply_accepted in Haccepted. rewrite <- Haccepted.
    pose proof (process_reply_rendering chatHistory data (removeTypingIndicator st)
                  (fun _ _ => eq_refl) (fun _ _ => eq_refl) (fun _ _ => eq_refl))
      as Hpage.
    rewrite addMessage_reply, Hrem in Hpage.
    destruct (process_reply data (removeTypingIndicator st)) as [[st2 ts] [[]|e]];
      cbn [fst snd] in *.
    + state_simpl. exact Hpage.
    + rewrite send_failed_chatHistory, Hpage, remove_first_indicator_message,
        (remove_first_indicator_none shown Hno), <- app_assoc.
      reflexivity.
Qed.

Lemma roundtrip_without_session (create chat : response) (st : state)
    (l : list jsval) :
  chatStateHistory st = JArr l ->
  trim (messageInput st) <> "" ->
  truthy (currentSessionId st) = false ->
  send_roundtrip create chat st
  = let '(st2, ts2) := create_resume (trim (messageInput st)) create
                         (fetch PostSessions (sending (trim (messageInput st)) l st)) in
    match ts2 with
    | [AwaitChat message'] => chat_resume chat st2
    | _ => (st2, ts2)
    end.
Proof.
  intros Hl Hm Hsession. unfold send_roundtrip.
  rewrite (sendMessage_array st l Hl Hm). cbv zeta. rewrite Hsession.
  fold (sending (trim (messageInput st)) l st).
  reflexivity.
Qed.

Lemma no_indicator_answer (shown : list element) (chat : response) :
  no_indicator shown = true ->
  no_indicator (shown ++ chat_answer chat) = true.
Proof.
  intros Hno. unfold no_indicator in *. rewrite forallb_app, Hno.
  unfold chat_answer. destruct chat as [|status [data|]]; try reflexivity.
  destruct (status_ok status); [|reflexivity].
  destruct (rendered data && negb (is_nullish data)); reflexivity.
Qed.

(** X11.  One send, from a chat area without typing indicator, a local
    history that is an array and a message that is not blank, answered by
    plain bodies: the chat area gets the user's message, trimmed, and after
    it what the answers decide, and nothing else.  That is the generic error
    alone when the session endpoint gives no session, or when the chat
    request is rejected, its status is not 2xx or its body is not JSON; and
    otherwise the message of the reply, holding what its rendering has left
    in it, followed by the generic error unless the reply is rendered and is
    not [null].  No typing indicator is left, the send button is enabled
    again and the message field is empty. *)
Theorem roundtrip_page (create chat : response) (st : state) (l : list jsval) :
  chatStateHistory st = JArr l ->
  trim (messageInput st) <> "" ->
  no_indicator (chatHistory st) = true ->
  plain_body create = true ->
  plain_body chat = true ->
  let st' := fst (send_roundtrip create chat st) in
  chatHistory st'
  = chatHistory st ++ Message true [Escaped (trim (messageInput st))]
                      :: send_answer create chat st
  /\ no_indicator (chatHistory st') = true
  /\ sendBtn_disabled st' = false
  /\ messageInput st' = "".
Proof.
  intros Hl Hm Hno _ _ st'. subst st'.
  set (m := trim (messageInput st)) in *.
  set (user := Message true [Escaped m]).
  assert (Huser : no_indicator (chatHistory st ++ [user]) = true).
  { unfold no_indicator in *. rewrite forallb_app, Hno. reflexivity. }
  assert (Hsending : forall s',
             chatHistory s' = chatHistory (sending m l st) ->
             remove_first_indicator (chatHistory s') = chatHistory st ++ [user]).
  { intros s' ->. rewrite sending_chatHistory.
    replace (chatHistory st ++ [Message true [Escaped m]; TypingIndicator])
      with ((chatHistory st ++ [user]) ++ [TypingIndicator])
      by (rewrite <- app_assoc; reflexivity).
    rewrite (remove_first_indicator_last _ [] Huser). apply app_nil_r. }
  assert (Hinput : messageInput (sending m l st) = "")
    by (unfold sending, showTypingIndicator; state_simpl; reflexivity).
  assert (Hhistory : chatStateHistory (sending m l st)
                     = JArr (l ++ [JStr ("User: " ++ m)]))
    by apply sending_frame.
  assert (Hchat : forall s',
             chatHistory s' = chatHistory (sending m l st) ->
             chatStateHistory s' = chatStateHistory (sending m l st) ->
             messageInput s' = "" ->
             chatHistory (fst (chat_resume chat s'))
             = chatHistory st ++ user :: chat_answer chat
             /\ no_indicator (chatHistory (fst (chat_resume chat s'))) = true
             /\ sendBtn_disabled (fst (chat_resume chat s')) = false
             /\ messageInput (fst (chat_resume chat s')) = "").
  { intros s' Hpage Hh Hi. rewrite Hhistory in Hh.
    pose proof (chat_resume_page chat s' _ _ Hh (Hsending s' Hpage) Huser) as Hanswer.
    split; [|split; [|split]].
    - rewrite Hanswer, <- app_assoc. reflexivity.
    - rewrite Hanswer. apply no_indicator_answer. exact Huser.
    - unfold chat_resume.
      destruct chat as [|status [data|]];
        try (destruct (negb (status_ok status))); cbn [fst];
        try apply send_failed_frame.
      destruct (process_reply data (removeTypingIndicator s')) as [[st2 ts] [[]|e]];
        cbn [fst]; [state_simpl; reflexivity|apply send_failed_frame].
    - rewrite (chat_resume_kept messageInput kept_messageInput). exact Hi. }
  assert (Hfailed : forall e s',
             chatHistory s' = chatHistory (sending m l st) ->
             messageInput s' = "" ->
             chatHistory (send_failed e s') = chatHistory st ++ user :: [generic_error]
             /\ no_indicator (chatHistory (send_failed e s')) = true
             /\ sendBtn_disabled (send_failed e s') = false
             /\ messageInput (send_failed e s') = "").
  { intros e s' Hpage Hi.
    assert (Hshown : chatHistory (send_failed e s')
                     = (chatHistory st ++ [user]) ++ [generic_error])
      by (rewrite send_failed_chatHistory, (Hsending s' Hpage); reflexivity).
    split; [|split; [|split]].
    - rewrite Hshown, <- app_assoc. reflexivity.
    - rewrite Hshown. unfold no_indicator in *. rewrite forallb_app, Huser.
      reflexivity.
    - apply send_failed_frame.
    - rewrite (send_failed_kept messageInput kept_messageInput). exact Hi. }
  unfold send_answer.
  destruct (truthy (currentSessionId st)) eqn:Hsession.
  - rewrite (roundtrip_with_session create chat st l Hl Hm Hsession). fold m.
    apply Hchat; state_simpl; [reflexivity|reflexivity|exact Hinput].
  - rewrite (roundtrip_without_session create chat st l Hl Hm Hsession). fold m.
    unfold create_resume, create_failed.
    destruct create as [|status [sessData|]];
      try (cbn [fst]; apply Hfailed; state_simpl; [reflexivity|exact Hinput]).
    destruct (get sessData "session_id") as [id|e] eqn:Hid.
    + assert (Hnn : is_nullish sessData = false)
        by (destruct sessData; try reflexivity; discriminate).
      rewrite Hnn. unfold post_chat.
      apply Hchat; state_simpl; [reflexivity|reflexivity|exact Hinput].
    + assert (Hnn : is_nullish sessData = true)
        by (destruct sessData; try discriminate; reflexivity).
      rewrite Hnn. cbn [fst].
      apply Hfailed; state_simpl; [reflexivity|exact Hinput].
Qed.

Lemma roundtrip_page_witness :
  let create := session_created in
  let chat := Http 200 (Some (JObj [("content", JNum 5)])) in
  let st := type_input "  hello " landing in
  let st' := fst (send_roundtrip create chat st) in
  chatHistory st'
  = chatHistory st ++ Message true [Escaped (trim (messageInput st))]
                      :: send_answer create chat st
  /\ no_indicator (chatHistory st') = true
  /\ sendBtn_disabled st' = false
  /\ messageInput st' = "".
Proof.
  apply (roundtrip_page session_created (Http 200 (Some (JObj [("content", JNum 5)])))
           (type_input "  hello " landing) []);
    solve [reflexivity | vm_compute; discriminate].
Defined.

(** The same send, computed: the reply's text is a number, [marked] refuses
    it, and the text container of [typeWriter] stays in the message. *)
Example roundtrip_number_content :
  chatHistory
    (fst (send_roundtrip session_created
            (Http 200 (Some (JObj [("content", JNum 5)])))
            (type_input "  hello " landing)))
  = [Message true [Escaped "hello"]; Message false [El "div" "" []]; generic_error].
Proof. vm_compute. reflexivity. Qed.

(** ** What a response leaves alone *)

(** X12.  The response of the chat endpoint and the detail of a session,
    whatever they are, never change the text that is in the message field
    (what the user typed while waiting is kept), the active session, the
    stored pointer, the deletion waiting for its confirmation, or the
    sidebar. *)
Theorem responses_keep_the_rest (resp : response) (st : state) :
  (messageInput (fst (chat_resume resp st)) = messageInput st
   /\ currentSessionId (fst (chat_resume resp st)) = currentSessionId st
   /\ activeSessionId (fst (chat_resume resp st)) = activeSessionId st
   /\ sessionToDelete (fst (chat_resume resp st)) = sessionToDelete st
   /\ confirmModal_active (fst (chat_resume resp st)) = confirmModal_active st
   /\ sidebarContent (fst (chat_resume resp st)) = sidebarContent st)
  /\ (messageInput (selectSession_resume resp st) = messageInput st
      /\ currentSessionId (selectSession_resume resp st) = currentSessionId st
      /\ activeSessionId (selectSession_resume resp st) = activeSessionId st
      /\ sessionToDelete (selectSession_resume resp st) = sessionToDelete st
      /\ confirmModal_active (selectSession_resume resp st) = confirmModal_active st
      /\ sidebarContent (selectSession_resume resp st) = sidebarContent st).
Proof.
  split; repeat split;
    solve [ apply chat_resume_kept;
            first [ apply kept_messageInput | apply kept_currentSessionId
                  | apply kept_activeSessionId | apply kept_sessionToDelete
                  | apply kept_confirmModal_active | apply kept_sidebarContent ]
          | apply selectSession_resume_kept;
            first [ apply kept_messageInput | apply kept_currentSessionId
                  | apply kept_activeSessionId | apply kept_sessionToDelete
                  | apply kept_confirmModal_active | apply kept_sidebarContent ] ].
Qed.

(** ** A local history that is not an array *)

(** X13.  When the local history is not an array (a session was loaded
    whose [history] is, say, a string), a send of a message that is not
    blank shows the message and stops there: the [push] throws outside the
    [try], nothing is sent, the history and the message field stay as they
    are, and the error is not handled. *)
Theorem send_without_array_history (st : state) :
  is_array (chatStateHistory st) = false ->
  trim (messageInput st) <> "" ->
  let st' := fst (sendMessage st) in
  snd (sendMessage st) = []
  /\ network st' = network st
  /\ chatStateHistory st' = chatStateHistory st
  /\ messageInput st' = messageInput st
  /\ sendBtn_disabled st' = sendBtn_disabled st
  /\ chatHistory st'
     = chatHistory st ++ [Message true [Escaped (trim (messageInput st))]]
  /\ console st' = console st ++ [("Uncaught (in promise)", TypeError)].
Proof.
  intros Hh Hm st'. subst st'. unfold sendMessage.
  destruct (String.eqb_spec (trim (messageInput st)) "") as [Hblank|_];
    [contradiction|].
  cbv zeta. unfold history_push.
  rewrite addMessage_chatStateHistory.
  assert (Hsent : sendBtn_disabled
                    (fst (addMessage (JStr (trim (messageInput st))) true JNull true st))
                  = sendBtn_disabled st) by addMessage_cases.
  destruct (chatStateHistory st) eqn:Hl; try discriminate;
    cbn [fst snd]; state_simpl;
    rewrite ?addMessage_network, ?addMessage_chatStateHistory, ?addMessage_console,
      ?addMessage_user_chatHistory, ?Hsent,
      ?(addMessage_kept messageInput kept_messageInput), ?Hl;
    repeat split; reflexivity.
Qed.

Lemma send_without_array_history_witness :
  let st := type_input "hello"
              (selectSession_resume
                 (Http 200 (Some (JObj [("history", JStr "none")])))
                 (fst (selectSession (JStr "A") landing))) in
  snd (sendMessage st) = []
  /\ network (fst (sendMessage st)) = network st.
Proof.
  cbv zeta.
  destruct (send_without_array_history
              (type_input "hello"
                 (selectSession_resume
                    (Http 200 (Some (JObj [("history", JStr "none")])))
                    (fst (selectSession (JStr "A") landing)))))
    as (H1 & H2 & _); [reflexivity|vm_compute; discriminate|].
  split; assumption.
Defined.

(** ** Selecting and deleting sessions *)

Lemma selectSession_current (id : string) (st : state) :
  currentSessionId (fst (selectSession (JStr id) st)) = JStr id.
Proof.
  unfold selectSession.
  destruct (strict_eq (currentSessionId st) (JStr id)) eqn:Heq.
  - apply strict_eq_string in Heq. exact Heq.
  - unfold fetchSessions. cbn [fst]. state_simpl. reflexivity.
Qed.

Lemma selectSession_same (id : string) (st : state) :
  currentSessionId st = JStr id -> selectSession (JStr id) st = (st, []).
Proof.
  intros H. unfold selectSession. rewrite H. cbn [strict_eq].
  rewrite String.eqb_refl. reflexivity.
Qed.

(** X14.  Once a session has been selected, selecting it again does
    nothing and sends nothing, neither while its detail is awaited nor after
    the response, whatever the response was: a load that failed is not
    retried by selecting the session again. *)
Theorem selectSession_again (id : string) (resp : response) (st : state) :
  let selected := fst (selectSession (JStr id) st) in
  selectSession (JStr id) selected = (selected, [])
  /\ selectSession (JStr id) (selectSession_resume resp selected)
     = (selectSession_resume resp selected, []).
Proof.
  cbv zeta. split; apply selectSession_same.
  - apply selectSession_current.
  - rewrite (selectSession_resume_kept currentSessionId kept_currentSessionId).
    apply selectSession_current.
Qed.

Lemma closeConfirmModal_deleteSession (sessionId : jsval) (st : state) :
  closeConfirmModal (deleteSession sessionId st) = closeConfirmModal st.
Proof. destruct st; reflexivity. Qed.

(** X15.  The confirmation of a deletion sends the DELETE request of the
    session that was asked for (a plain id), once: a second confirmation, or
    a confirmation after the dialog was cancelled, does nothing.  When the id
    asked for is falsy (an empty string, [null]), the confirmation does
    nothing and the dialog stays open. *)
Theorem confirmDelete_once (sessionId : jsval) (st : state) :
  plain sessionId = true ->
  confirmDelete (deleteSession sessionId st)
  = (if truthy sessionId
     then (fetch (DeleteSession (to_str sessionId)) (closeConfirmModal st),
           [AwaitDelete sessionId])
     else (deleteSession sessionId st, []))
  /\ confirmDelete (fst (confirmDelete st)) = (fst (confirmDelete st), [])
  /\ confirmDelete (closeConfirmModal st) = (closeConfirmModal st, []).
Proof.
  intros _. split; [|split].
  - unfold confirmDelete.
    assert (H : sessionToDelete (deleteSession sessionId st) = sessionId)
      by (unfold deleteSession; state_simpl; reflexivity).
    rewrite H. destruct (truthy sessionId); cbn [negb]; [|reflexivity].
    rewrite closeConfirmModal_deleteSession. reflexivity.
  - unfold confirmDelete at 2 3.
    destruct (negb (truthy (sessionToDelete st))) eqn:Hfalsy; cbn [fst].
    + unfold confirmDelete. rewrite Hfalsy. reflexivity.
    + unfold confirmDelete.
      assert (H : sessionToDelete
                    (fetch (DeleteSession (to_str (sessionToDelete st)))
                       (closeConfirmModal st)) = JNull)
        by (unfold closeConfirmModal; state_simpl; reflexivity).
      rewrite H. reflexivity.
  - unfold confirmDelete.
    assert (H : sessionToDelete (closeConfirmModal st) = JNull)
      by (unfold closeConfirmModal; state_simpl; reflexivity).
    rewrite H. reflexivity.
Qed.

Lemma confirmDelete_once_witness :
  confirmDelete (deleteSession (JStr "A") after_tutorial)
  = (fetch (DeleteSession "A") (closeConfirmModal after_tutorial),
     [AwaitDelete (JStr "A")])
  /\ confirmDelete (fst (confirmDelete after_tutorial))
     = (fst (confirmDelete after_tutorial), [])
  /\ confirmDelete (closeConfirmModal after_tutorial)
     = (closeConfirmModal after_tutorial, []).
Proof.
  apply (confirmDelete_once (JStr "A") after_tutorial). reflexivity.
Defined.

Lemma newChat_page (st : state) :
  lastTutorialSteps (fst (newChat st)) = JArr []
  /\ chatHistory (fst (newChat st)) = []
  /\ messageInput (fst (newChat st)) = ""
  /\ sessionToDelete (fst (newChat st)) = sessionToDelete st
  /\ confirmModal_active (fst (newChat st)) = confirmModal_active st.
Proof.
  unfold newChat, fetchSessions. cbn [fst]. state_simpl. repeat split; reflexivity.
Qed.

(** X16.  A deletion from the click to the answer, for a session whose id
    is a string that is not empty: the user asks for the deletion, confirms,
    and the server answers.  Exactly one DELETE request goes out, for that
    session, followed by a refresh of the list when the server accepted; the
    dialog is closed.  When the server accepted and the session was the
    active one, the client is in a new chat: no session, no pointer, an
    empty history, an empty tutorial cache, an empty chat area and message
    field.  In every other case (another session, a refusal, a request that
    failed) the session, the pointer, the conversation, the chat area and
    the message field are as before. *)
Theorem delete_flow (id : string) (resp : response) (st : state) :
  id <> "" ->
  let sessionId := JStr id in
  let st' := run [AskDelete sessionId; ConfirmDelete;
                  Arrives (AwaitDelete sessionId) resp] st in
  network st'
  = network st ++ DeleteSession id
                  :: (if response_ok resp then [GetSessions] else [])
  /\ sessionToDelete st' = JNull
  /\ confirmModal_active st' = false
  /\ if response_ok resp && strict_eq (currentSessionId st) sessionId
     then currentSessionId st' = JNull
          /\ activeSessionId st' = None
          /\ chatStateHistory st' = JArr []
          /\ lastTutorialSteps st' = JArr []
          /\ chatHistory st' = []
          /\ messageInput st' = ""
     else currentSessionId st' = currentSessionId st
          /\ activeSessionId st' = activeSessionId st
          /\ chatStateHistory st' = chatStateHistory st
          /\ lastTutorialSteps st' = lastTutorialSteps st
          /\ chatHistory st' = chatHistory st
          /\ messageInput st' = messageInput st.
Proof.
  intros Hid sessionId st'. subst st'. cbn [run step resume].
  assert (Htruthy : truthy sessionId = true).
  { unfold sessionId. cbn [truthy]. apply negb_true_iff, String.eqb_neq, Hid. }
  assert (Hconfirm : fst (confirmDelete (deleteSession sessionId st))
                     = fetch (DeleteSession id) (closeConfirmModal st)).
  { unfold confirmDelete.
    assert (H : sessionToDelete (deleteSession sessionId st) = sessionId)
      by (unfold deleteSession; state_simpl; reflexivity).
    rewrite H, Htruthy. cbn [negb fst]. rewrite closeConfirmModal_deleteSession.
    reflexivity. }
  rewrite Hconfirm. clear Hconfirm.
  set (asked := fetch (DeleteSession id) (closeConfirmModal st)).
  assert (Hasked : network asked = network st ++ [DeleteSession id]
                   /\ sessionToDelete asked = JNull
                   /\ confirmModal_active asked = false
                   /\ currentSessionId asked = currentSessionId st
                   /\ activeSessionId asked = activeSessionId st
                   /\ chatStateHistory asked = chatStateHistory st
                   /\ lastTutorialSteps asked = lastTutorialSteps st
                   /\ chatHistory asked = chatHistory st
                   /\ messageInput asked = messageInput st).
  { unfold asked, closeConfirmModal. state_simpl. repeat split; reflexivity. }
  destruct Hasked as (Hn & Hd & Hm & Hc & Ha & Hh & Ht & Hp & Hi).
  destruct (confirmDelete_resume_refresh sessionId resp asked) as [_ Hnet].
  rewrite Hnet, Hn, <- app_assoc. split; [reflexivity|].
  unfold confirmDelete_resume, response_ok.
  destruct resp as [|status body].
  - cbn [fst andb]. state_simpl. auto 10.
  - destruct (status_ok status); cbn [andb]; [|auto 10].
    rewrite Hc. destruct (strict_eq (currentSessionId st) sessionId).
    + destruct (newChat_fields (set_currentSessionId JNull asked)) as (-> & -> & -> & _).
      destruct (newChat_page (set_currentSessionId JNull asked))
        as (-> & -> & -> & -> & ->).
      state_simpl. auto 10.
    + unfold fetchSessions. cbn [fst]. state_simpl. auto 10.
Qed.

Lemma delete_flow_witness :
  let sessionId := JStr "A" in
  let resp := Http 204 None in
  let st := after_tutorial in
  let st' := run [AskDelete sessionId; ConfirmDelete;
                  Arrives (AwaitDelete sessionId) resp] st in
  network st'
  = network st ++ DeleteSession "A"
                  :: (if response_ok resp then [GetSessions] else [])
  /\ sessionToDelete st' = JNull
  /\ confirmModal_active st' = false
  /\ if response_ok resp && strict_eq (currentSessionId st) sessionId
     then currentSessionId st' = JNull
          /\ activeSessionId st' = None
          /\ chatStateHistory st' = JArr []
          /\ lastTutorialSteps st' = JArr []
          /\ chatHistory st' = []
          /\ messageInput st' = ""
     else currentSessionId st' = currentSessionId st
          /\ activeSessionId st' = activeSessionId st
          /\ chatStateHistory st' = chatStateHistory st
          /\ lastTutorialSteps st' = lastTutorialSteps st
          /\ chatHistory st' = chatHistory st
          /\ messageInput st' = messageInput st.
Proof.
  apply (delete_flow "A" (Http 204 None) after_tutorial). discriminate.
Defined.

(** ** The recording timer *)

Lemma timer_text_small :
  forallb (fun n => (timer_text (Z.of_nat n) =? minutes_seconds (Z.of_nat n))%string)
    (seq 0 (Z.to_nat 6000)) = true.
Proof. vm_compute. reflexivity. Qed.

(** X17.  For a recording of less than 100 minutes, the timer shows
    [mm:ss]: the minutes and the seconds that have elapsed since the start of
    the recording, each with two digits. *)
Theorem updateTimer_format (now recordingStartTime : Z) :
  0 <= (now - recordingStartTime) / 1000 < 6000 ->
  updateTimer now recordingStartTime
  = minutes_seconds ((now - recordingStartTime) / 1000).
Proof.
  intros He. unfold updateTimer.
  set (elapsed := (now - recordingStartTime) / 1000) in *.
  pose proof timer_text_small as H. rewrite forallb_forall in H.
  specialize (H (Z.to_nat elapsed)).
  rewrite Z2Nat.id in H by lia.
  apply String.eqb_eq, H, in_seq. lia.
Qed.

Lemma updateTimer_format_witness :
  updateTimer 1700000125900 1700000000000 = "02:05".
Proof.
  rewrite (updateTimer_format 1700000125900 1700000000000); [reflexivity|].
  vm_compute. split; [discriminate|reflexivity].
Defined.

(** ** The local history after a reply *)

Lemma append_assistant_selected (ps : list (string * jsval)) (local : list jsval)
    (st : state) :
  text_fields_typed (JObj ps) = true ->
  chatStateHistory st = JArr local ->
  append_assistant (JObj ps) st
  = Ok (if (selected_text (JObj ps) =? "")%string then st
        else set_chatStateHistory
               (JArr (local ++ [JStr ("Assistant: " ++ selected_text (JObj ps))])) st).
Proof.
  intros Htyped Hlocal.
  destruct (assistantText_selected ps Htyped) as [text [Htext Htrim]].
  unfold append_assistant. rewrite Htext. unfold bind, trim_val.
  rewrite truthy_text, Htrim.
  destruct (selected_text (JObj ps) =? "")%string; simpl; [reflexivity|].
  unfold history_push. rewrite Hlocal. reflexivity.
Qed.

(** X18.  End to end, for a well-formed reply (plain, of one of the
    documented shapes) whose texts are strings, arriving with a 2xx status on
    a local history that is an array: the local history becomes the one before, followed by the
    assistant entry when the text of the reply is not empty, or the history
    of the server when that is an array at least as long. *)
Theorem reply_history (status : Z) (data : jsval) (local : list jsval) (st : state) :
  chatStateHistory st = JArr local ->
  status_ok status = true ->
  well_formed_reply data = true ->
  text_fields_typed data = true ->
  chatStateHistory (fst (chat_resume (Http status (Some data)) st))
  = JArr (history_after_reply data local).
Proof.
  intros Hl Hok Hwf Htyped.
  destruct data as [| | | | | |ps]; try discriminate.
  unfold chat_resume. rewrite Hok. cbn [negb].
  assert (Hl0 : chatStateHistory (removeTypingIndicator st) = JArr local)
    by (unfold removeTypingIndicator; state_simpl; exact Hl).
  unfold process_reply.
  pose proof (addMessage_chatStateHistory (JStr "") false (JObj ps) true
                (removeTypingIndicator st)) as Hh.
  pose proof (snd_addMessage (JStr "") (JObj ps) true (removeTypingIndicator st)) as Hr.
  destruct (well_formed_renders _ true (proj1 (well_formed_shaped _ Hwf)))
    as [content Hc].
  rewrite Hc in Hr.
  destruct (addMessage (JStr "") false (JObj ps) true (removeTypingIndicator st))
    as [st1 r1]; cbn [fst snd] in Hh, Hr. subst r1.
  rewrite Hl0 in Hh.
  destruct (update_tutorial (JObj ps) st1) as [st2|e2] eqn:Hupd.
  2: { unfold update_tutorial in Hupd. cbn [get bind] in Hupd.
       destruct (_ && _) in Hupd; discriminate. }
  assert (Hl2 : chatStateHistory st2 = JArr local).
  { apply update_tutorial_inv in Hupd.
    destruct Hupd as [[_ ->]|[_ ->]]; [state_simpl|]; exact Hh. }
  rewrite (append_assistant_selected ps local st2 Htyped Hl2).
  change (get (JObj ps) "conversation_history")
    with (Ok (A := jsval) (field (JObj ps) "conversation_history")).
  unfold history_after_reply.
  set (appended := local ++ (if (selected_text (JObj ps) =? "")%string then []
                             else [JStr ("Assistant: " ++ selected_text (JObj ps))])).
  match goal with
  | |- context [reconcile _ ?s] =>
      assert (Hl3 : chatStateHistory s = JArr appended)
  end.
  { unfold appended. destruct (selected_text (JObj ps) =? "")%string.
    - rewrite app_nil_r. exact Hl2.
    - state_simpl. reflexivity. }
  rewrite (reconcile_array _ appended _ Hl3).
  match goal with
  | |- context [refresh_after_send ?s] =>
      assert (Hl4 : chatStateHistory s
                    = JArr match field (JObj ps) "conversation_history" with
                           | JArr server =>
                               if (List.length appended <=? List.length server)%nat
                               then server else appended
                           | _ => appended
                           end)
  end.
  { destruct (field (JObj ps) "conversation_history"); try exact Hl3.
    destruct (List.length appended <=? List.length items)%nat;
      [state_simpl; reflexivity|exact Hl3]. }
  rewrite (refresh_after_send_array _ _ Hl4).
  match goal with
  | |- context [(?n <=? 2)%nat] => destruct (n <=? 2)%nat
  end; cbn [fst]; state_simpl; exact Hl4.
Qed.

Lemma reply_history_witness :
  chatStateHistory
    (fst (chat_resume (Http 200 (Some tutorial_two_steps)) waiting_for_reply))
  = JArr [JStr "User: hi"; JStr "Assistant: Here is how to add a region."].
Proof.
  rewrite (reply_history 200 tutorial_two_steps [JStr "User: hi"] waiting_for_reply);
    reflexivity.
Defined.

(** ** A first load that does not complete *)

(** X19.  While the first load has not completed, the arrival of the
    session list either completes it or changes nothing but the sidebar and
    the log: the session, the stored pointer, the conversation and the page
    are as before and nothing is sent, so that the next arrival of the list
    tries the restoration again. *)
Theorem first_load_incomplete (resp : response) (st : state) :
  isFirstLoad st = true ->
  isFirstLoad (fst (fetchSessions_resume resp st)) = true ->
  snd (fetchSessions_resume resp st) = []
  /\ exists st1,
       (st1 = st \/ exists content, st1 = set_sidebarContent content st)
       /\ exists e, fst (fetchSessions_resume resp st)
                    = console_error "Error fetching sessions:" e st1.
Proof.
  intros Hfirst. unfold fetchSessions_resume.
  destruct resp as [|status [data|]].
  - intros _. split; [reflexivity|]. exists st. split; [left; reflexivity|].
    exists NetworkError. reflexivity.
  - unfold restore.
    destruct (get data "sessions") as [sessions|e].
    + destruct (displaySessions_sidebar sessions st) as [content Hc].
      destruct (displaySessions sessions st) as [st1 [[]|e]]; cbn [fst] in Hc; subst st1.
      * assert (Hf : isFirstLoad (set_sidebarContent content st) = true)
          by (state_simpl; exact Hfirst).
        rewrite Hf.
        assert (Hdone : forall s (ts : list task),
                   isFirstLoad (fst (set_isFirstLoad false s, ts)) = true -> False).
        { intros s ts H. cbn [fst] in H. revert H. state_simpl. discriminate. }
        assert (Hthrown : forall e,
                   snd (console_error "Error fetching sessions:" e
                          (set_sidebarContent content st), @nil task) = []
                   /\ exists st1,
                        (st1 = st \/ exists content, st1 = set_sidebarContent content st)
                        /\ exists e', fst (console_error "Error fetching sessions:" e
                                             (set_sidebarContent content st), @nil task)
                                      = console_error "Error fetching sessions:" e' st1).
        { intros e. split; [reflexivity|].
          exists (set_sidebarContent content st). split; [right; eauto|].
          exists e. reflexivity. }
        destruct (activeSessionId (set_sidebarContent content st)) as [id|].
        -- destruct (truthy (JStr id)).
           ++ destruct (sessionExists id sessions) as [[|]|e].
              ** destruct (selectSession (JStr id) (set_sidebarContent content st))
                   as [st2 ts]. intros H. exfalso. exact (Hdone _ _ H).
              ** match goal with
                 | |- context [newChat ?s] => destruct (newChat s) as [st2 ts]
                 end. intros H. exfalso. exact (Hdone _ _ H).
              ** intros _. apply Hthrown.
           ++ match goal with
              | |- context [newChat ?s] => destruct (newChat s) as [st2 ts]
              end. intros H. exfalso. exact (Hdone _ _ H).
        -- match goal with
           | |- context [newChat ?s] => destruct (newChat s) as [st2 ts]
           end. intros H. exfalso. exact (Hdone _ _ H).
      * intros _. split; [reflexivity|].
        exists (set_sidebarContent content st). split; [right; eauto|].
        exists e. reflexivity.
    + intros _. split; [reflexivity|]. exists st. split; [left; reflexivity|].
      exists e. reflexivity.
  - intros _. split; [reflexivity|]. exists st. split; [left; reflexivity|].
    exists SyntaxError. reflexivity.
Qed.

Lemma first_load_incomplete_witness :
  snd (fetchSessions_resume (Http 200 (Some (JObj []))) (initial (Some "A"))) = []
  /\ exists st1,
       (st1 = initial (Some "A")
        \/ exists content, st1 = set_sidebarContent content (initial (Some "A")))
       /\ exists e,
            fst (fetchSessions_resume (Http 200 (Some (JObj []))) (initial (Some "A")))
            = console_error "Error fetching sessions:" e st1.
Proof.
  apply (first_load_incomplete (Http 200 (Some (JObj []))) (initial (Some "A")));
    reflexivity.
Defined.

(** ** Sends that overlap *)

(** X20.  Sends are not serialised.  From a state without active session,
    a second message sent before the session endpoint has answered the first
    asks for a second session: two creation requests go out, and both user
    entries are in the local history. *)
Theorem overlapping_sends (m1 m2 : string) (l : list jsval) (st : state) :
  chatStateHistory st = JArr l ->
  truthy (currentSessionId st) = false ->
  trim m1 <> "" ->
  trim m2 <> "" ->
  let st' := run [Typed m1; Send; Typed m2; Send] st in
  network st' = network st ++ [PostSessions; PostSessions]
  /\ chatStateHistory st'
     = JArr (l ++ [JStr ("User: " ++ trim m1); JStr ("User: " ++ trim m2)])
  /\ currentSessionId st' = currentSessionId st.
Proof.
  intros Hl Hsession Hm1 Hm2 st'. subst st'. cbn [run step].
  assert (Hsend : forall m l0 s,
             chatStateHistory s = JArr l0 ->
             truthy (currentSessionId s) = false ->
             trim m <> "" ->
             fst (sendMessage (type_input m s))
             = fetch PostSessions (sending (trim m) l0 (type_input m s))).
  { intros m l0 s Hl0 Hs Hm.
    assert (Hin : messageInput (type_input m s) = m)
      by (unfold type_input; state_simpl; reflexivity).
    assert (Hh : chatStateHistory (type_input m s) = JArr l0)
      by (unfold type_input; state_simpl; exact Hl0).
    assert (Hc : currentSessionId (type_input m s) = currentSessionId s)
      by (unfold type_input; state_simpl; reflexivity).
    rewrite (sendMessage_array _ l0 Hh) by (rewrite Hin; exact Hm).
    cbv zeta. rewrite Hc, Hs, Hin. reflexivity. }
  assert (Htyped : forall m s,
             network (type_input m s) = network s
             /\ currentSessionId (type_input m s) = currentSessionId s)
    by (intros; unfold type_input; state_simpl; split; reflexivity).
  rewrite (Hsend m1 l st Hl Hsession Hm1).
  set (st1 := fetch PostSessions (sending (trim m1) l (type_input m1 st))).
  destruct (sending_frame (trim m1) l (type_input m1 st))
    as (Hh1 & _ & Hc1 & _ & Hn1 & _).
  assert (Hl1 : chatStateHistory st1 = JArr (l ++ [JStr ("User: " ++ trim m1)]))
    by (unfold st1; state_simpl; exact Hh1).
  assert (Hs1 : currentSessionId st1 = currentSessionId st).
  { unfold st1. state_simpl. rewrite Hc1. apply Htyped. }
  assert (Hnet1 : network st1 = network st ++ [PostSessions]).
  { unfold st1. state_simpl. rewrite Hn1. destruct (Htyped m1 st) as [-> _]. reflexivity. }
  rewrite (Hsend m2 _ st1 Hl1) by (rewrite ?Hs1; assumption).
  destruct (sending_frame (trim m2) (l ++ [JStr ("User: " ++ trim m1)])
              (type_input m2 st1))
    as (Hh2 & _ & Hc2 & _ & Hn2 & _).
  state_simpl. rewrite Hh2, Hc2, Hn2.
  destruct (Htyped m2 st1) as [-> ->]. rewrite Hnet1, Hs1, <- !app_assoc.
  repeat split; reflexivity.
Qed.

Lemma overlapping_sends_witness :
  network (run [Typed "one"; Send; Typed "two"; Send] landing)
  = network landing ++ [PostSessions; PostSessions].
Proof.
  apply (overlapping_sends "one" "two" [] landing);
    solve [reflexivity | vm_compute; discriminate].
Defined.

(** ** The mode of the chat area after a load *)

Lemma addMessage_conversation_mode text isUser responseData animate st :
  conversation_mode st = true ->
  conversation_mode (fst (addMessage text isUser responseData animate st)) = true.
Proof.
  unfold conversation_mode, addMessage.
  destruct st as [? ? ? ? ? ? ? ? shown active welcome actions ? ? ? ?]; simpl.
  intros H. apply andb_true_iff in H. destruct H as [H Ha].
  apply andb_true_iff in H. destruct H as [_ Hw]. subst.
  destruct isUser; [destruct shown; reflexivity|].
  destruct (assistant_content text responseData animate); destruct shown; reflexivity.
Qed.

Lemma replay_conversation_mode (msgs : list jsval) (st : state) :
  conversation_mode st = true ->
  conversation_mode (fst (replay msgs st)) = true.
Proof.
  revert st. induction msgs as [|msg msgs IH]; intros st H; [exact H|].
  cbn [replay].
  assert (H1 : conversation_mode (fst (replay_entry msg st)) = true).
  { unfold replay_entry.
    destruct msg as [| | b | n | s | l | ps]; try exact H.
    - destruct (startsWith s "User: "); [apply addMessage_conversation_mode, H|].
      destruct (startsWith s "Assistant: ");
        [apply addMessage_conversation_mode, H|exact H].
    - destruct (get (JObj ps) "role"), (get (JObj ps) "content"), (get (JObj ps) "data");
        try exact H.
      destruct (strict_eq a (JStr "user")); [apply addMessage_conversation_mode, H|].
      destruct (strict_eq a (JStr "assistant"));
        [apply addMessage_conversation_mode, H|exact H]. }
  destruct (replay_entry msg st) as [st1 [[]|e]]; cbn [fst] in *; [apply IH|]; exact H1.
Qed.

Lemma gt_length (n : nat) :
  gt (JNum (Z.of_nat n)) (JNum 0) = negb (n =? 0)%nat.
Proof.
  unfold gt, num_cmp. cbn [to_number]. destruct n as [|n]; [reflexivity|].
  cbn [Nat.eqb negb]. rewrite Z.gtb_ltb. apply Z.ltb_lt. lia.
Qed.

(** X21.  When the detail of a session arrives with an array as its
    [history], the mode of the chat area is decided by the length of the
    array alone: an empty history shows the welcome content; a history that
    is not empty hides it, also when none of its entries is displayed or the
    replay throws. *)
Theorem loaded_mode (status : Z) (data : jsval) (msgs : list jsval) (st : state) :
  status_ok status = true ->
  get data "history" = Ok (JArr msgs) ->
  let st' := selectSession_resume (Http status (Some data)) st in
  match msgs with
  | [] => welcome_mode st' = true
  | _ :: _ => conversation_mode st' = true
  end.
Proof.
  intros Hok Hget st'. subst st'. unfold selectSession_resume. rewrite Hok. cbn [negb].
  unfold hydrate. rewrite Hget. unfold or_else. cbn [truthy].
  match goal with
  | |- context [get (chatStateHistory ?s) "length"] =>
      replace (chatStateHistory s) with (JArr msgs) by (state_simpl; reflexivity)
  end.
  change (get (JArr msgs) "length")
    with (Ok (A := jsval) (JNum (Z.of_nat (List.length msgs)))).
  cbv iota. rewrite gt_length.
  destruct msgs as [|msg msgs]; cbn [List.length Nat.eqb negb].
  - unfold welcome_mode. state_simpl. reflexivity.
  - match goal with
    | |- context [match chatStateHistory ?s with JArr _ => _ | _ => _ end] =>
        replace (chatStateHistory s) with (JArr (msg :: msgs))
          by (state_simpl; reflexivity)
    end.
    match goal with
    | |- context [replay ?m ?s] =>
        assert (Hmode : conversation_mode (fst (replay m s)) = true)
          by (apply replay_conversation_mode; unfold conversation_mode;
              state_simpl; reflexivity);
        destruct (replay m s) as [st1 [[]|e]]
    end; cbn [fst] in Hmode; [exact Hmode|].
    revert Hmode. unfold conversation_mode. state_simpl. exact (fun H => H).
Qed.

Lemma loaded_mode_witness :
  conversation_mode
    (selectSession_resume
       (Http 200 (Some (JObj [("history", JArr [JStr "System: reset"; JNull])])))
       landing)
  = true.
Proof.
  apply (loaded_mode 200 (JObj [("history", JArr [JStr "System: reset"; JNull])])
           [JStr "System: reset"; JNull] landing); reflexivity.
Defined.

(** ** The steps of a tutorial *)

Lemma step_image_picture (step : jsval) :
  is_nullish step = false -> is_text (field step "image") = true ->
  step_image step = Ok (step_picture step).
Proof.
  intros Hstep Himage. unfold step_image, step_picture.
  rewrite (get_non_nullish step "image" Hstep). cbn [bind].
  destruct (field step "image"); try discriminate; cbn [truthy]; try reflexivity.
  destruct (s =? "")%string; cbn [negb]; [reflexivity|].
  rewrite (get_non_nullish step "step_number" Hstep). reflexivity.
Qed.

Lemma forEach_steps (steps : list jsval) (html : list markup) :
  forallb (well_formed_step "text") steps = true ->
  forEach
    (fun step html =>
       number <- get step "step_number" ;;
       text <- get step "text" ;;
       m <- marked_parse text ;;
       image <- step_image step ;;
       Ok (html ++
           [El "div" "step-item"
              (El "div" "step-header"
                 [El "div" "step-number" [Raw (to_str number)];
                  El "div" "step-text" [m]]
               :: image)]))
    steps html
  = Ok (html ++ map step_item steps).
Proof.
  revert html. induction steps as [|step steps IH]; intros html Hsteps.
  - cbn [forEach map]. rewrite app_nil_r. reflexivity.
  - cbn [forallb] in Hsteps. apply andb_true_iff in Hsteps.
    destruct Hsteps as [Hstep Hsteps].
    apply well_formed_step_inv in Hstep. destruct Hstep as (Hnn & [t Ht] & Himage).
    cbn [forEach map].
    rewrite (get_non_nullish step "step_number" Hnn),
      (get_non_nullish step "text" Hnn), Ht.
    cbn [bind marked_parse].
    rewrite (step_image_picture step Hnn Himage). cbn [bind].
    rewrite (IH _ Hsteps), <- app_assoc. unfold step_item at 2. rewrite Ht.
    reflexivity.
Qed.

Lemma help_note_rendered (help_note : jsval) :
  is_text help_note = true ->
  (if truthy help_note then
     m <- marked_parse help_note ;; Ok [El "div" "help-note" [m]]
   else Ok [])
  = Ok (help_note_block help_note).
Proof.
  destruct help_note; try discriminate; intros _; cbn [truthy]; try reflexivity.
  unfold help_note_block. destruct (s =? "")%string; reflexivity.
Qed.

Lemma marked_parse_text (v : jsval) :
  is_text v = true -> marked_parse (or_else v (JStr "")) = Ok (Marked (text_of v)).
Proof. intros H. rewrite (or_else_text v H). reflexivity. Qed.

Lemma renderSuggestedActions_block (actions : jsval) :
  is_list actions = true ->
  renderSuggestedActions actions = Ok (actions_block actions).
Proof.
  destruct actions; try discriminate; intros _; try reflexivity.
  rewrite renderSuggestedActions_array. destruct items; reflexivity.
Qed.

(** X22.  The rendering of a well-formed tutorial (plain, of the documented
    shape) is exactly: the help note, when there is one; the list of the
    steps, when there are steps, with every step of the reply once, in the
    order of the array, showing its number, its text and, when it has one,
    its image, taken from the origin of the page unless its address starts
    with "http"; the pro tip; the completion message; the buttons of the
    suggested actions. *)
Theorem tutorial_steps_shown (ps : list (string * jsval)) (steps : list jsval) :
  well_formed_reply (JObj ps) = true ->
  field (JObj ps) "type" = JStr "tutorial" ->
  field (JObj ps) "steps" = JArr steps ->
  renderTutorialResponse (dataForRender (JObj ps))
  = Ok [El "div" "tutorial-content"
          (help_note_block (field (JObj ps) "help_note")
           ++ steps_block steps
           ++ [El "div" "completion-message"
                 [El "strong" "" [Raw "Pro tip:"];
                  Marked (text_of (field (JObj ps) "pro_tip"))];
               El "div" "completion-message"
                 [Marked (text_of (field (JObj ps) "completion_message"))]]
           ++ actions_block (field (JObj ps) "suggested_actions"))].
Proof.
  intros H Htutorial Hlist.
  apply well_formed_shaped in H. destruct H as [H _]. unfold shaped_reply in H.
  apply andb_true_iff in H. destruct H as [H Htype].
  apply andb_true_iff in H. destruct H as [_ Hactions].
  rewrite Htutorial in Htype. cbn [strict_eq String.eqb Ascii.eqb Bool.eqb] in Htype.
  apply andb_true_iff in Htype. destruct Htype as [Htype Hcompletion].
  apply andb_true_iff in Htype. destruct Htype as [Htype Htip].
  apply andb_true_iff in Htype. destruct Htype as [Htype Hsteps].
  apply andb_true_iff in Htype. destruct Htype as [Hnote _].
  rewrite Hlist in Hsteps. cbn [items_of] in Hsteps.
  cbn [field get] in Hcompletion, Htip, Hnote, Hactions, Hlist |- *.
  unfold dataForRender. cbn [own_props].
  unfold renderTutorialResponse.
  cbn [get assoc String.eqb Ascii.eqb Bool.eqb bind].
  rewrite (help_note_rendered _ Hnote). cbn [bind].
  rewrite Hlist. cbn [truthy].
  change (get (JArr steps) "length")
    with (Ok (A := jsval) (JNum (Z.of_nat (List.length steps)))).
  cbn [bind]. rewrite gt_length.
  destruct steps as [|step steps]; cbn [List.length Nat.eqb negb].
  - cbn [bind]. rewrite (marked_parse_text _ Htip). cbn [bind].
    rewrite (marked_parse_text _ Hcompletion). cbn [bind].
    rewrite (renderSuggestedActions_block _ Hactions). reflexivity.
  - cbn [forEach_val]. rewrite (forEach_steps _ [] Hsteps). cbn [bind app].
    rewrite (marked_parse_text _ Htip). cbn [bind].
    rewrite (marked_parse_text _ Hcompletion). cbn [bind].
    rewrite (renderSuggestedActions_block _ Hactions). reflexivity.
Qed.

Lemma tutorial_steps_shown_witness :
  renderTutorialResponse (dataForRender tutorial_two_steps)
  = Ok [El "div" "tutorial-content"
          [El "div" "steps-container"
             [El "div" "step-item"
                [El "div" "step-header"
                   [El "div" "step-number" [Raw "1"];
                    El "div" "step-text" [Marked "Open Settings"]]];
              El "div" "step-item"
                [El "div" "step-header"
                   [El "div" "step-number" [Raw "2"];
                    El "div" "step-text" [Marked "Click Add region"]];
                 Img (OnOrigin "/static/images/step2.png") "Step 2"]];
           El "div" "completion-message" [El "strong" "" [Raw "Pro tip:"]; Marked ""];
           El "div" "completion-message" [Marked ""]]].
Proof.
  unfold tutorial_two_steps.
  rewrite (tutorial_steps_shown
             [("type", JStr "tutorial");
              ("content", JStr "Here is how to add a region.");
              ("steps",
                JArr [JObj [("step_number", JNum 1); ("text", JStr "Open Settings")];
                      JObj [("step_number", JNum 2); ("text", JStr "Click Add region");
                            ("image", JStr "/static/images/step2.png")]])]
             [JObj [("step_number", JNum 1); ("text", JStr "Open Settings")];
              JObj [("step_number", JNum 2); ("text", JStr "Click Add region");
                    ("image", JStr "/static/images/step2.png")]]);
    reflexivity.
Defined.
